(** * The agnostic simulator and the IonQ JSON translator

    A shallow embedding of
      - [agnostic_simulator/simulator.py]  (class [Simulator]) and
      - [tangelo/backendbuddy/translator/translate_json_ionq.py],
    followed by the properties of the natural-language specification that
    were checked against them.

    Conventions.
      - Python [float] is IEEE binary64: Rocq's primitive [float].
      - Python [str] is [string]; a [dict] is an association list in insertion
        order (the order in which Python iterates over it), updated by key.
      - A Python call either returns or raises: [PyResult].
      - Calls into qulacs, qiskit, projectq, Q#, scipy and the translators are
        events ([BackendE]) answered by a handler over a hidden state; every
        such call is recorded in the log of the [World]. *)

From Stdlib Require Import List String Ascii Bool Arith PeanoNat NArith ZArith Lia.
From Stdlib Require Import DecimalString.
From Stdlib Require Import Floats.PrimFloat Numbers.Cyclic.Int63.Uint63.
Import ListNotations.

Set Implicit Arguments.
Set Warnings "-register-all,-inexact-float".
Open Scope string_scope.

(* ================================================================= *)
(** ** Python results and exceptions *)

Inductive Exn : Type :=
| ValueError (msg : string)
| IndexError (msg : string)
| TypeError (msg : string)
| KeyError (key : string)
| ZeroDivisionError (msg : string)
| ExternalError (msg : string).   (* anything raised inside a backend library *)

Inductive PyResult (A : Type) : Type :=
| Return (a : A)
| Raise (e : Exn).

Arguments Return {A} a.
Arguments Raise {A} e.

Definition bindR {A B} (r : PyResult A) (k : A -> PyResult B) : PyResult B :=
  match r with
  | Return a => k a
  | Raise e => Raise e
  end.

Notation "'let?' x ':=' e 'in' k" := (bindR e (fun x => k))
  (at level 10, x pattern, e at level 100, k at level 200).

(* ================================================================= *)
(** ** Python strings *)

Module PyStr.

(** [c * n] for a string [c]; a negative count gives the empty string in
    Python, which is what truncated subtraction on [nat] gives too. *)
Fixpoint repeat (c : string) (n : nat) : string :=
  match n with
  | O => ""
  | S k => c ++ repeat c k
  end.

(** [s[::-1]] *)
Definition rev (s : string) : string :=
  string_of_list_ascii (List.rev (list_ascii_of_string s)).

(** ["".join(l)] *)
Definition join (l : list string) : string := String.concat "" l.

Definition lower_ascii (c : ascii) : ascii :=
  let n := nat_of_ascii c in
  if ((65 <=? n) && (n <=? 90))%nat then ascii_of_nat (n + 32) else c.

(** [s.lower()] *)
Fixpoint lower (s : string) : string :=
  match s with
  | EmptyString => EmptyString
  | String c r => String (lower_ascii c) (lower r)
  end.

(** [s.split(sep)] for a one-character separator. *)
Fixpoint split (sep : ascii) (s : string) : list string :=
  match s with
  | EmptyString => [EmptyString]
  | String c r =>
      if Ascii.eqb c sep then EmptyString :: split sep r
      else match split sep r with
           | [] => [String c EmptyString]
           | p :: ps => String c p :: ps
           end
  end.

(** [l[-1]] on the list a [split] returns (never empty). *)
Definition last (l : list string) : string := List.last l "".

(** [x in {a, b, ...}] *)
Definition mem (x : string) (l : list string) : bool :=
  existsb (String.eqb x) l.

End PyStr.

(* ================================================================= *)
(** ** Python integers to and from binary text *)

Fixpoint pos_digits (p : positive) : string :=
  match p with
  | xH => "1"
  | xO q => pos_digits q ++ "0"
  | xI q => pos_digits q ++ "1"
  end.

(** [bin(i)] for [i >= 0]. *)
Definition bin (i : nat) : string :=
  "0b" ++ match N.of_nat i with
          | N0 => "0"
          | Npos p => pos_digits p
          end.

(** [int(s, 2)] on a string of binary digits, most significant first.  Python
    also accepts signs, blanks, underscores and a [0b] prefix; the simulator
    only calls it on digit strings (see [int2_rev_key]), the rest is rejected
    here. *)
Fixpoint int2_acc (s : string) (acc : nat) : PyResult nat :=
  match s with
  | EmptyString => Return acc
  | String c r =>
      if Ascii.eqb c "0" then int2_acc r (2 * acc)
      else if Ascii.eqb c "1" then int2_acc r (2 * acc + 1)
      else Raise (ValueError "invalid literal for int() with base 2")
  end.

Definition int2 (s : string) : PyResult nat :=
  match s with
  | EmptyString => Raise (ValueError "invalid literal for int() with base 2")
  | _ => int2_acc s 0
  end.

(** [int / int] (true division) and [int * float]: the integer is converted to
    the nearest float; exact below 2^53, which covers every count here. *)
Definition float_of_nat (n : nat) : float :=
  PrimFloat.of_uint63 (Uint63.of_Z (Z.of_nat n)).

Definition float_of_int (z : Z) : float :=
  if (z <? 0)%Z then PrimFloat.opp (PrimFloat.of_uint63 (Uint63.of_Z (- z)))
  else PrimFloat.of_uint63 (Uint63.of_Z z).

Definition int_truediv (a b : nat) : PyResult float :=
  match b with
  | O => Raise (ZeroDivisionError "division by zero")
  | _ => Return (PrimFloat.div (float_of_nat a) (float_of_nat b))
  end.

(* ================================================================= *)
(** ** Python dictionaries *)

Section Dict.
Variables (K V : Type) (eqb : K -> K -> bool).

Definition dict : Type := list (K * V).

(** [d[k] = v]: overwrite in place when the key is there, append otherwise. *)
Fixpoint dict_set (k : K) (v : V) (d : dict) : dict :=
  match d with
  | [] => [(k, v)]
  | (k', v') :: r =>
      if eqb k' k then (k', v) :: r else (k', v') :: dict_set k v r
  end.

Definition dict_keys (d : dict) : list K := map fst d.

Fixpoint dict_get (k : K) (d : dict) : option V :=
  match d with
  | [] => None
  | (k', v') :: r => if eqb k' k then Some v' else dict_get k r
  end.

(** [{key(x): val(x) for x in xs}] *)
Definition dict_comp {X} (key : X -> K) (val : X -> V) (xs : list X) : dict :=
  fold_left (fun d x => dict_set (key x) (val x) d) xs [].

End Dict.

(** [Counter(samples).items()]: the distinct samples in order of first
    occurrence, each with its number of occurrences. *)
Section Counter.
Variables (K : Type) (eqb : K -> K -> bool).

Fixpoint counter_add (k : K) (d : dict K nat) : dict K nat :=
  match d with
  | [] => [(k, 1)]
  | (k', c) :: r =>
      if eqb k' k then (k', S c) :: r else (k', c) :: counter_add k r
  end.

Definition Counter (samples : list K) : dict K nat :=
  fold_left (fun d k => counter_add k d) samples [].
End Counter.

(* ================================================================= *)
(** ** Abstract circuits *)

(** Modelled from the spec: the [Gate] class of the abstract circuit format is
    not among the sources.  The spec gives its attributes: a name, a target
    qubit index, an optional control qubit index and an optional real-valued
    rotation parameter. *)
Record Gate : Type := mkGate {
  name : string;
  target : nat;
  control : option nat;
  parameter : option float
}.

(** Modelled from the spec: the [Circuit] class is not among the sources.  The
    spec gives an ordered sequence of gates with the attributes [width] (qubit
    count), [size] (gate count) and [is_mixed_state] (true iff the circuit
    contains a measurement instruction). *)
Record Circuit : Type := mkCircuit {
  _gates : list Gate;
  width : nat
}.

Definition size (c : Circuit) : nat := List.length (_gates c).

Definition is_mixed_state (c : Circuit) : bool :=
  existsb (fun g => String.eqb (name g) "MEASURE") (_gates c).

(* ================================================================= *)
(** ** translate_json_ionq.py *)

Module IonQ.

(** The values of the IonQ JSON format that the translator builds. *)
Inductive Json : Type :=
| JNull
| JStr (s : string)
| JInt (n : nat)
| JFloat (f : float)
| JList (l : list Json)
| JDict (d : list (string * Json)).

Definition json_of_option {A} (f : A -> Json) (o : option A) : Json :=
  match o with
  | Some a => f a
  | None => JNull
  end.

Definition fixed_gates : list string := ["H"; "X"; "Y"; "Z"; "S"; "T"].
Definition rotation_gates : list string := ["RX"; "RY"; "RZ"].
Definition controlled_gates : list string := ["CNOT"].

(** [get_ionq_gates]: the dictionary is only ever looked up by key, so the
    unspecified iteration order of the Python set does not show. *)
Definition get_ionq_gates : dict string string :=
  dict_comp String.eqb (fun n => n) PyStr.lower
    ["H"; "X"; "Y"; "Z"; "S"; "T"; "RX"; "RY"; "RZ"; "CNOT"].

(** [GATE_JSON_IONQ[k]] *)
Definition getitem (d : dict string string) (k : string) : PyResult string :=
  match dict_get String.eqb k d with
  | Some v => Return v
  | None => Raise (KeyError k)
  end.

Definition unsupported_msg (n : string) : string :=
  "Gate '" ++ n ++ "' not supported with JSON IonQ translation".

(** One turn of the loop over [source_circuit._gates]: the dictionary to
    append to [json_gates], or the exception. *)
Definition translate_gate (GATE_JSON_IONQ : dict string string) (gate : Gate)
  : PyResult Json :=
  if PyStr.mem (name gate) fixed_gates then
    let? g := getitem GATE_JSON_IONQ (name gate) in
    Return (JDict [("gate", JStr g); ("target", JInt (target gate))])
  else if PyStr.mem (name gate) rotation_gates then
    let? g := getitem GATE_JSON_IONQ (name gate) in
    Return (JDict [("gate", JStr g); ("target", JInt (target gate));
                   ("rotation", json_of_option JFloat (parameter gate))])
  else if PyStr.mem (name gate) controlled_gates then
    let? g := getitem GATE_JSON_IONQ (name gate) in
    Return (JDict [("gate", JStr g); ("target", JInt (target gate));
                   ("control", json_of_option JInt (control gate))])
  else Raise (ValueError (unsupported_msg (name gate))).

Fixpoint translate_loop (GATE_JSON_IONQ : dict string string)
    (gates : list Gate) (json_gates : list Json) : PyResult (list Json) :=
  match gates with
  | [] => Return json_gates
  | gate :: rest =>
      let? j := translate_gate GATE_JSON_IONQ gate in
      translate_loop GATE_JSON_IONQ rest (json_gates ++ [j])%list
  end.

Definition translate_json_ionq (source_circuit : Circuit) : PyResult Json :=
  let GATE_JSON_IONQ := get_ionq_gates in
  let? json_gates := translate_loop GATE_JSON_IONQ (_gates source_circuit) [] in
  Return (JDict [("qubits", JInt (width source_circuit));
                 ("circuit", JList json_gates)]).

End IonQ.

(* ================================================================= *)
(** ** Qubit operators and frequency tables *)

Inductive Pauli : Type := PauliX | PauliY | PauliZ.

Definition pauli_name (p : Pauli) : string :=
  match p with
  | PauliX => "X"
  | PauliY => "Y"
  | PauliZ => "Z"
  end.

(** A term of an openfermion-style operator: a tuple of [(index, pauli)]. *)
Definition Term : Type := list (nat * Pauli).

(** [dict] from bitstring to frequency. *)
Definition Frequencies : Type := dict string float.

(** Coefficients: openfermion stores [complex], the simulator overwrites them
    with [float]. *)
Inductive PyNum : Type :=
| PyFloat (x : float)
| PyComplex (re im : float).

(** [coef.real] *)
Definition real (c : PyNum) : PyNum :=
  match c with
  | PyFloat x => PyFloat x
  | PyComplex re _ => PyFloat re
  end.

(* ================================================================= *)
(** ** bitarray *)

Module Bitarray.

(** The characters that [bitarray(s)] passes over: the underscore, the
    space, and the newline, carriage return and the two tabs. *)
Definition skipped (c : ascii) : bool :=
  let n := nat_of_ascii c in
  (n =? 95)%nat || (n =? 32)%nat || (n =? 10)%nat || (n =? 13)%nat
  || (n =? 9)%nat || (n =? 11)%nat.

Definition hex_digit (n : nat) : ascii :=
  if (n <? 10)%nat then ascii_of_nat (48 + n) else ascii_of_nat (87 + n).

(** The two hexadecimal digits of a character code. *)
Definition hex2 (c : ascii) : string :=
  let n := nat_of_ascii c in
  String (hex_digit (n / 16)) (String (hex_digit (n mod 16)) "").

(** [bitarray(s)] for a string: one bit per character ['0'] or ['1'];
    underscores and blanks are passed over; the first other character is
    named in the error. *)
Fixpoint of_string (s : string) : PyResult (list bool) :=
  match s with
  | EmptyString => Return []
  | String c r =>
      if Ascii.eqb c "0" then let? bs := of_string r in Return (false :: bs)
      else if Ascii.eqb c "1" then let? bs := of_string r in Return (true :: bs)
      else if skipped c then of_string r
      else Raise (ValueError ("expected '0' or '1' (or whitespace, or underscore), got '"
                              ++ String c "" ++ "' (0x" ++ hex2 c ++ ")"))
  end.

Fixpoint zip_and (a b : list bool) : list bool :=
  match a, b with
  | x :: a', y :: b' => (x && y) :: zip_and a' b'
  | _, _ => []
  end.

(** [a & b] *)
Definition and (a b : list bool) : PyResult (list bool) :=
  if (List.length a =? List.length b)%nat then Return (zip_and a b)
  else Raise (ValueError "bitarrays of equal length expected").

(** [a.to01().count("1")] *)
Definition count1 (a : list bool) : nat := List.length (filter (fun b => b) a).

End Bitarray.

(* ================================================================= *)
(** ** Simulator.get_expectation_value_from_frequencies_oneterm *)

(** What the static method hands back: a float, or (when the table is empty)
    the exception object that line 383 returns. *)
Inductive OnetermValue : Type :=
| OnetermFloat (x : float)
| OnetermExn (e : Exn).

(** [mask[index] = "1"] on a Python list. *)
Fixpoint list_setitem {A} (l : list A) (index : nat) (v : A) : PyResult (list A) :=
  match l, index with
  | [], _ => Raise (IndexError "list assignment index out of range")
  | _ :: r, O => Return (v :: r)
  | x :: r, S i => let? r' := list_setitem r i v in Return (x :: r')
  end.

(** The loop [for index, op in term: mask[index] = "1"]. *)
Fixpoint term_mask_loop (term : Term) (mask : list string) : PyResult (list string) :=
  match term with
  | [] => Return mask
  | (index, op) :: rest =>
      let? mask' := list_setitem mask index "1" in
      term_mask_loop rest mask'
  end.

(** [(-1) ** ((bitarray(mask) & bitarray(basis_state)).to01().count("1") % 2)] *)
Definition sample_sign (mask basis_state : string) : PyResult Z :=
  let? m := Bitarray.of_string mask in
  let? b := Bitarray.of_string basis_state in
  let? a := Bitarray.and m b in
  Return ((-1) ^ Z.of_nat (Bitarray.count1 a mod 2))%Z.

(** The loop over [frequencies.items()]. *)
Fixpoint oneterm_loop (mask : string) (items : list (string * float))
    (expectation_term : float) : PyResult float :=
  match items with
  | [] => Return expectation_term
  | (basis_state, freq) :: rest =>
      let? sample := sample_sign mask basis_state in
      oneterm_loop mask rest
        (PrimFloat.add expectation_term (PrimFloat.mul (float_of_int sample) freq))
  end.

Definition get_expectation_value_from_frequencies_oneterm
    (term : Term) (frequencies : Frequencies) : PyResult OnetermValue :=
  match dict_keys frequencies with
  | [] => Return (OnetermExn (ValueError "Must pass a non-empty dictionary of frequencies."))
  | key0 :: _ =>
      let n_qubits := String.length key0 in
      let? mask := term_mask_loop term (List.repeat "0" n_qubits) in
      let mask := PyStr.join mask in
      let? expectation_term := oneterm_loop mask frequencies 0%float in
      Return (OnetermFloat expectation_term)
  end.

(* ================================================================= *)
(** ** Values exchanged with the backends *)

(** [x.real] and [x.imag] as floats. *)
Definition num_real (c : PyNum) : float :=
  match c with
  | PyFloat x => x
  | PyComplex re _ => re
  end.

Definition num_imag (c : PyNum) : float :=
  match c with
  | PyFloat _ => 0%float
  | PyComplex _ im => im
  end.

(** [a + b] and [a * b] on Python numbers: float arithmetic when both are
    floats, complex arithmetic otherwise. *)
Definition num_add (a b : PyNum) : PyNum :=
  match a, b with
  | PyFloat x, PyFloat y => PyFloat (PrimFloat.add x y)
  | _, _ => PyComplex (PrimFloat.add (num_real a) (num_real b))
                      (PrimFloat.add (num_imag a) (num_imag b))
  end.

Definition num_mul (a b : PyNum) : PyNum :=
  match a, b with
  | PyFloat x, PyFloat y => PyFloat (PrimFloat.mul x y)
  | _, _ =>
      PyComplex
        (PrimFloat.sub (PrimFloat.mul (num_real a) (num_real b))
                       (PrimFloat.mul (num_imag a) (num_imag b)))
        (PrimFloat.add (PrimFloat.mul (num_real a) (num_imag b))
                       (PrimFloat.mul (num_imag a) (num_real b)))
  end.

(** A state vector: a Python list or a numpy array of amplitudes. *)
Inductive PySeq : Type :=
| PyList (items : list PyNum)
| NdArray (items : list PyNum).

Definition seq_items (s : PySeq) : list PyNum :=
  match s with
  | PyList l => l
  | NdArray l => l
  end.

(** [np.array(s)] *)
Definition np_array (s : PySeq) : PySeq := NdArray (seq_items s).

Definition num_nonzero (c : PyNum) : bool :=
  negb (PrimFloat.eqb (num_real c) 0%float && PrimFloat.eqb (num_imag c) 0%float).

(** Truth value of [initial_statevector] in [if initial_statevector:]. *)
Definition seq_truthy (o : option PySeq) : PyResult bool :=
  match o with
  | None => Return false
  | Some (PyList l) => Return (negb (Nat.eqb (List.length l) 0))
  | Some (NdArray []) => Return false
  | Some (NdArray [x]) => Return (num_nonzero x)
  | Some (NdArray (_ :: _ :: _)) =>
      Raise (ValueError "The truth value of an array with more than one element is ambiguous. Use a.any() or a.all()")
  end.

(** [int(math.log2(len(s)))]; [math.log2(0)] raises.  (The module has no
    [import math]: the name comes through [from projectq.ops import *].  The
    float logarithm is exact on the powers of two that state vectors have.) *)
Definition log2_len (l : list PyNum) : PyResult nat :=
  match List.length l with
  | O => Raise (ValueError "math domain error")
  | n => Return (Nat.log2 n)
  end.

(** The noise model is an opaque object of its own class: always truthy. *)
Inductive NoiseModel : Type := noise_model_object (id : nat).

(** A reference to an object that lives in a backend library (a translated
    circuit, a register, an engine, a result). *)
Inductive Obj : Type := object (id : nat).

(** What [Simulator._current_state] holds. *)
Inductive PyVal : Type :=
| VObj (o : Obj)
| VSeq (s : PySeq).

(** [qubit_operator.terms] *)
Definition OpTerms : Type := dict Term PyNum.

(* ================================================================= *)
(** ** Calls that leave the module *)

(** One constructor per call (or straight run of calls) into a backend
    library, a translator or scipy, with the source lines it stands for.  The
    index is the type of the Python value that comes back. *)
Inductive BackendE : Type -> Type :=
(* qulacs *)
| TranslateQulacs (c : Circuit) (nm : option NoiseModel) : BackendE Obj  (* 105 *)
| QulacsQuantumState (n : nat) : BackendE Obj                            (* 108-111 *)
| QulacsLoad (state : Obj) (sv : PySeq) : BackendE unit                  (* 113, 123 *)
| QulacsUpdateQuantumState (circ state : Obj) : BackendE unit            (* 119 *)
| QulacsSampling1 (state : Obj) : BackendE nat                           (* 121 *)
| QulacsSetZeroState (state : Obj) : BackendE unit                       (* 125 *)
| QulacsGetVector (state : Obj) : BackendE PySeq                         (* 128 *)
(* qiskit *)
| TranslateQiskit (c : Circuit) : BackendE Obj                           (* 137 *)
| QiskitInitialize (sv : PySeq) (n_qubits : nat) (circ : Obj) : BackendE Obj  (* 145-147 *)
| QiskitQasmCounts (circ : Obj) (w : nat) (nm : option NoiseModel)
    (shots : option nat) : BackendE (list (string * nat))                (* 151-164 *)
| QiskitExecuteStatevector (circ : Obj) : BackendE Obj                   (* 168-170 *)
| QiskitGetStatevector (res : Obj) : BackendE PySeq                      (* 171, 174 *)
(* projectq *)
| TranslateProjectq (c : Circuit) : BackendE string                      (* 178 *)
| ProjectqMainEngine : BackendE Obj                                      (* 182 *)
| ProjectqAllocateQureg (eng : Obj) (n : nat) : BackendE Obj             (* 184, 188 *)
| ProjectqFlush (eng : Obj) : BackendE unit
| ProjectqSetWavefunction (eng : Obj) (sv : PySeq) (qureg : Obj) : BackendE unit
| ProjectqExec (prog : string) (eng qureg : Obj) : BackendE unit         (* 194 *)
| ProjectqMeasureAll (qureg : Obj) : BackendE unit                       (* 198, 207 *)
| ProjectqReadQureg (qureg : Obj) : BackendE (list bool)                 (* 200 *)
| ProjectqCheat (eng : Obj) : BackendE PySeq                             (* 205, 206 *)
(* qdk *)
| TranslateQsharp (c : Circuit) : BackendE string                        (* 217 *)
| WriteFile (path contents : string) : BackendE unit                     (* 218-219 *)
| QsharpReload : BackendE unit                                           (* 223-225 *)
| QsharpEstimateFrequencies (nQubits : nat) (nShots : option nat)
    : BackendE (list float)                                              (* 226 *)
(* scipy: stats.rv_discrete(values=(xk, pk)).rvs(size=size) *)
| RvDiscreteRvs (xk : list nat) (pk : list float) (size : nat)
    : BackendE (list nat)                                                (* 433-434 *)
(* the backends' own expectation-value routines *)
| QulacsExpectation (terms : OpTerms) (n_qubits : nat) (state : option PyVal)
    : BackendE float                                                     (* 285-292 *)
| ProjectqExpectation (terms : OpTerms) (n_qubits : nat) (sv : option PySeq)
    : BackendE PyNum.                                                    (* 296-304 *)

Inductive Call : Type :=
| call_of : forall T, BackendE T -> Call.

(** Everything the module takes from outside itself. *)
Record Env : Type := mkEnv {
  (** hidden state of the backends: registers, random generators, files *)
  Ext : Type;
  (** the answer to a call, and the hidden state after it *)
  handle : forall T, BackendE T -> Ext -> PyResult T * Ext;
  (** [abs(amplitude)**2], computed by the C library *)
  abs2 : PyNum -> float;
  (** [agnostic_simulator.helpers.measurement_basis_gates] *)
  measurement_basis_gates : Term -> PyResult (list Gate);
  (** [Circuit(gates, n_qubits=...)] *)
  Circuit_init : list Gate -> option nat -> PyResult Circuit;
  (** [circuit + circuit] *)
  Circuit_add : Circuit -> Circuit -> PyResult Circuit;
  (** [str(qubit_operator)] inside an f-string *)
  str_operator : OpTerms -> string;
  (** what numpy answers when asked for an array of [n] items of [itemsize]
      bytes whose count fits its index type: [None] when it allocates the
      array, the exception it raises when it does not (an array beyond the
      address space, no memory left) *)
  np_alloc_error : N -> N -> option Exn
}.

(* ================================================================= *)
(** ** The Simulator object *)

Inductive Target : Type := qulacs | qiskit | projectq | qdk.

Record BackendInfo : Type := mkBackendInfo {
  info_statevector_available : bool;
  info_statevector_order : option string;
  info_noisy_simulation : bool
}.

(** [backend_info], keyed by the four registered names. *)
Definition backend_info (t : Target) : BackendInfo :=
  match t with
  | qiskit => mkBackendInfo true (Some "msq_first") true
  | qulacs => mkBackendInfo true (Some "msq_first") true
  | projectq => mkBackendInfo true (Some "msq_first") false
  | qdk => mkBackendInfo false None false
  end.

(** The key lookup of [backend_info[self._target]]. *)
Definition target_of_string (s : string) : PyResult Target :=
  if String.eqb s "qiskit" then Return qiskit
  else if String.eqb s "qulacs" then Return qulacs
  else if String.eqb s "projectq" then Return projectq
  else if String.eqb s "qdk" then Return qdk
  else Raise (KeyError s).

(** The attributes of a [Simulator] that its methods only read.  [_target]
    is one of the keys of [backend_info]: [__init__] raises [KeyError] on
    any other string.  [_current_state], which [simulate] assigns, is in the
    [World]. *)
Record Simulator : Type := mkSimulator {
  _source : string;
  _target : Target;
  _noise_model : option NoiseModel;
  n_shots : option nat;
  freq_threshold : float;
  statevector_available : bool;
  statevector_order : option string;
  noisy_simulation : bool
}.

(** [not self.n_shots]: true for [None] and for [0]. *)
Definition not_shots (n : option nat) : bool :=
  match n with
  | None => true
  | Some O => true
  | Some (S _) => false
  end.

(** Truth value of [self._noise_model]. *)
Definition truthy_noise (nm : option NoiseModel) : bool :=
  match nm with
  | None => false
  | Some _ => true
  end.

Section WithEnv.
Variable env : Env.

(** The mutable state a method runs in. *)
Record World : Type := mkWorld {
  _current_state : option PyVal;   (* Simulator._current_state *)
  calls : list Call;               (* calls made so far, oldest first *)
  ext : Ext env
}.

Definition Py (A : Type) : Type := World -> PyResult A * World.

Definition ret {A} (a : A) : Py A := fun w => (Return a, w).
Definition raise {A} (e : Exn) : Py A := fun w => (Raise e, w).
Definition bind {A B} (m : Py A) (k : A -> Py B) : Py B :=
  fun w => match m w with
           | (Return a, w') => k a w'
           | (Raise e, w') => (Raise e, w')
           end.
Definition lift {A} (r : PyResult A) : Py A := fun w => (r, w).

(** A call into a backend: logged, answered by the handler. *)
Definition call {T} (e : BackendE T) : Py T :=
  fun w => let (r, x) := handle env e (ext w) in
           (r, mkWorld (_current_state w) (calls w ++ [call_of e]) x).

(** [self._current_state = v] *)
Definition set_current_state (v : PyVal) : Py unit :=
  fun w => (Return tt, mkWorld (Some v) (calls w) (ext w)).

Definition get_current_state : Py (option PyVal) :=
  fun w => (Return (_current_state w), w).

End WithEnv.

Arguments ret {env A} a.
Arguments raise {env A} e.
Arguments lift {env A} r.

Notation "x <- e ;; k" := (bind e (fun x => k))
  (at level 100, e at next level, right associativity).
Notation "' p <- e ;; k" := (bind e (fun x => match x with p => k end))
  (at level 100, p pattern, e at next level, right associativity).
Notation "e ;;; k" := (bind e (fun _ => k))
  (at level 100, right associativity).

(** [v / self.n_shots] for a count [v]. *)
Definition div_by_shots (v : nat) (n : option nat) : PyResult float :=
  match n with
  | None => Raise (TypeError "unsupported operand type(s) for /: 'int' and 'NoneType'")
  | Some k => int_truediv v k
  end.

(** [range(shots)] *)
Definition range_of (shots : option nat) : PyResult nat :=
  match shots with
  | None => Raise (TypeError "'NoneType' object cannot be interpreted as an integer")
  | Some k => Return k
  end.

(** [{key(x): val(x) for x in xs}] where evaluating [val(x)] may raise. *)
Fixpoint freq_comp {X} (key : X -> string) (val : X -> PyResult float)
    (xs : list X) (d : Frequencies) : PyResult Frequencies :=
  match xs with
  | [] => Return d
  | x :: r =>
      let? v := val x in
      freq_comp key val r (dict_set String.eqb (key x) v d)
  end.

Unset Implicit Arguments.

Section Methods.
Variable env : Env.

Abbreviation Py := (Py env).

(** *** Simulator.__init__ *)
Definition __init__ (target : string) (n_shots' : option nat)
    (noise_model : option NoiseModel) : Py Simulator :=
  (* line 61: backend_info[self._target] *)
  t <- lift (target_of_string target) ;;
  let info := backend_info t in
  let self := mkSimulator "abstract" t noise_model n_shots' 1e-10%float
                (info_statevector_available info)
                (info_statevector_order info)
                (info_noisy_simulation info) in
  if truthy_noise (_noise_model self) && negb (noisy_simulation self) then
    raise (ValueError "Target backend does not support noise models.")
  else if not_shots (n_shots self)
          && (negb (statevector_available self) || truthy_noise (_noise_model self)) then
    raise (ValueError "A number of shots needs to be specified.")
  else ret self.

(** *** Simulator.__int_to_binstr *)
Definition __int_to_binstr (self : Simulator) (i n_qubits : nat) : string :=
  let bs := PyStr.last (PyStr.split "b" (bin i)) in
  let state_binstr := PyStr.repeat "0" (n_qubits - String.length bs) ++ bs in
  match statevector_order self with
  | Some o => if String.eqb o "msq_first" then PyStr.rev state_binstr else state_binstr
  | None => state_binstr
  end.

(** *** Simulator._statevector_to_frequencies *)

(** The loop over [enumerate(statevector)], from index [i] on. *)
Fixpoint sv_loop (self : Simulator) (n_qubits i : nat) (amps : list PyNum)
    (frequencies : Frequencies) : Frequencies :=
  match amps with
  | [] => frequencies
  | amplitude :: rest =>
      let frequency := abs2 env amplitude in
      if PrimFloat.leb 0%float (PrimFloat.sub frequency (freq_threshold self)) then
        sv_loop self n_qubits (S i) rest
          (dict_set String.eqb (__int_to_binstr self i n_qubits) frequency frequencies)
      else sv_loop self n_qubits (S i) rest frequencies
  end.

(** [frequencies[k]] *)
Definition freq_getitem (frequencies : Frequencies) (k : string) : PyResult float :=
  match dict_get String.eqb k frequencies with
  | Some v => Return v
  | None => Raise (KeyError k)
  end.

(** The loop that fills [xk] and [pk]. *)
Fixpoint xk_pk_loop (frequencies : Frequencies) (items : list (string * float))
    (xk : list nat) (pk : list float) : PyResult (list nat * list float) :=
  match items with
  | [] => Return (xk, pk)
  | (k, v) :: rest =>
      let? x := int2 (PyStr.rev k) in
      let? p := freq_getitem frequencies k in
      xk_pk_loop frequencies rest (xk ++ [x])%list (pk ++ [p])%list
  end.

Definition _statevector_to_frequencies (self : Simulator) (statevector : PySeq)
  : Py Frequencies :=
  n_qubits <- lift (log2_len (seq_items statevector)) ;;
  let frequencies := sv_loop self n_qubits 0 (seq_items statevector) [] in
  if not_shots (n_shots self) then ret frequencies
  else
    ' (xk, pk) <- lift (xk_pk_loop frequencies frequencies [] []) ;;
    samples <- call (RvDiscreteRvs xk pk (match n_shots self with Some k => k | None => 0 end)) ;;
    freqs_shots <- lift (freq_comp (fun kv => __int_to_binstr self (fst kv) n_qubits)
                                   (fun kv => div_by_shots (snd kv) (n_shots self))
                                   (Counter Nat.eqb samples) []) ;;
    ret freqs_shots.

End Methods.

(* ================================================================= *)
(** ** Simulator.simulate *)

Definition newline : ascii := ascii_of_nat 10.

(** [sub in s] *)
Fixpoint str_contains (sub s : string) : bool :=
  String.prefix sub s
  || match s with
     | EmptyString => false
     | String _ r => str_contains sub r
     end.

(** The [re.sub] of line 179, which deletes every match of: any characters,
    [llocate], any characters, a newline.  A dot does not match a newline, so
    a match is a whole newline-terminated line in which [llocate] occurs;
    every such line is removed.  [line] is the part of the current line read
    so far. *)
Fixpoint re_sub_allocate (s line : string) : string :=
  match s with
  | EmptyString => line
  | String c r =>
      if Ascii.eqb c newline then
        (if str_contains "llocate" line then "" else line ++ String newline "")
        ++ re_sub_allocate r ""
      else re_sub_allocate r (line ++ String c "")
  end.

(** [np.zeros(n, dtype)] for a Python integer [n].  numpy counts the items
    of an array in a signed 64-bit index and refuses a dimension that does
    not fit; below that the platform decides whether the array is made. *)
Definition np_zeros (env : Env) (itemsize n : N) (zero : PyNum) : PyResult (list PyNum) :=
  if (2 ^ 63 <=? n)%N then Raise (ValueError "Maximum allowed dimension exceeded")
  else match np_alloc_error env itemsize n with
       | Some e => Raise e
       | None => Return (List.repeat zero (N.to_nat n))
       end.

(** numpy makes the array of [n] items. *)
Definition np_allocates (env : Env) (itemsize n : N) : bool :=
  (n <? 2 ^ 63)%N
  && match np_alloc_error env itemsize n with
     | Some _ => false
     | None => true
     end.

(** [np.zeros(n, dtype)] followed by [v[0] = one]. *)
Definition zero_state (env : Env) (itemsize n : N) (zero one : PyNum)
  : PyResult (list PyNum) :=
  let? v := np_zeros env itemsize n zero in
  list_setitem v 0 one.

(** [str(int(q))] for a measured qubit. *)
Definition str_bit (b : bool) : string := if b then "1" else "0".

Section Simulate.
Variable env : Env.

Abbreviation Py := (Py env).
Abbreviation SimulateResult := (Frequencies * option PySeq)%type.

(** [(frequencies, sv) if return_statevector else (frequencies, None)] *)
Definition with_statevector (return_statevector : bool) (frequencies : Frequencies)
    (sv : PySeq) : SimulateResult :=
  if return_statevector then (frequencies, Some sv) else (frequencies, None).

(** Lines 117-130: the loop over [range(shots)] of the qulacs branch.  [inl]
    is the list of samples when the loop runs out, [inr] the value of the
    [return] inside it. *)
Fixpoint qulacs_loop (self : Simulator) (source_circuit : Circuit)
    (return_statevector : bool) (initial_statevector : option PySeq)
    (translated_circuit state : Obj) (shots : nat) (samples : list nat)
  : Py (list nat + SimulateResult) :=
  match shots with
  | O => ret (inl samples)
  | S shots' =>
      call (QulacsUpdateQuantumState translated_circuit state) ;;;
      if is_mixed_state source_circuit || truthy_noise (_noise_model self) then
        s <- call (QulacsSampling1 state) ;;
        let samples := (samples ++ [s])%list in
        t <- lift (seq_truthy initial_statevector) ;;
        (match t, initial_statevector with
         | true, Some v => call (QulacsLoad state v)
         | _, _ => call (QulacsSetZeroState state)
         end) ;;;
        qulacs_loop self source_circuit return_statevector initial_statevector
          translated_circuit state shots' samples
      else
        set_current_state (VObj state) ;;;
        python_statevector <- call (QulacsGetVector state) ;;
        frequencies <- _statevector_to_frequencies env self python_statevector ;;
        ret (inr (with_statevector return_statevector frequencies
                    (np_array python_statevector)))
  end.

(** Lines 103-134. *)
Definition simulate_qulacs (self : Simulator) (source_circuit : Circuit)
    (return_statevector : bool) (initial_statevector : option PySeq)
  : Py SimulateResult :=
  translated_circuit <- call (TranslateQulacs source_circuit (_noise_model self)) ;;
  state <- call (QulacsQuantumState (width source_circuit)) ;;
  (match initial_statevector with
   | Some v => call (QulacsLoad state v)
   | None => ret tt
   end) ;;;
  shots <- lift (range_of (if is_mixed_state source_circuit
                              || truthy_noise (_noise_model self)
                           then n_shots self else Some 1)) ;;
  out <- qulacs_loop self source_circuit return_statevector initial_statevector
           translated_circuit state shots [] ;;
  match out with
  | inr result => ret result
  | inl samples =>
      frequencies <- lift (freq_comp
                             (fun kv => __int_to_binstr self (fst kv) (width source_circuit))
                             (fun kv => div_by_shots (snd kv) (n_shots self))
                             (Counter Nat.eqb samples) []) ;;
      ret (frequencies, None)
  end.

(** Lines 136-174. *)
Definition simulate_qiskit (self : Simulator) (source_circuit : Circuit)
    (return_statevector : bool) (initial_statevector : option PySeq)
  : Py SimulateResult :=
  translated_circuit <- call (TranslateQiskit source_circuit) ;;
  translated_circuit <-
    (match initial_statevector with
     | Some v =>
         if truthy_noise (_noise_model self) then
           raise (ValueError "Cannot load an initial state if using a noise model, with Qiskit")
         else
           n_qubits <- lift (log2_len (seq_items v)) ;;
           call (QiskitInitialize v n_qubits translated_circuit)
     | None => ret translated_circuit
     end) ;;
  if truthy_noise (_noise_model self) || is_mixed_state source_circuit then
    (* return_statevector = False *)
    counts <- call (QiskitQasmCounts translated_circuit (width source_circuit)
                      (_noise_model self) (n_shots self)) ;;
    frequencies <- lift (freq_comp (fun sc => PyStr.rev (fst sc))
                                   (fun sc => div_by_shots (snd sc) (n_shots self))
                                   counts []) ;;
    ret (frequencies, None)
  else
    sim_results <- call (QiskitExecuteStatevector translated_circuit) ;;
    current_state <- call (QiskitGetStatevector sim_results) ;;
    set_current_state (VSeq current_state) ;;;
    frequencies <- _statevector_to_frequencies env self current_state ;;
    if return_statevector then
      sv <- call (QiskitGetStatevector sim_results) ;;
      ret (frequencies, Some (np_array sv))
    else ret (frequencies, None).

(** Lines 193-210: the loop over [range(shots)] of the projectq branch. *)
Fixpoint projectq_loop (self : Simulator) (source_circuit : Circuit)
    (return_statevector : bool) (initial_statevector : option PySeq)
    (translated_circuit : string) (eng Qureg : Obj) (all_zero_state : PySeq)
    (shots : nat) (samples : list string)
  : Py (list string + SimulateResult) :=
  match shots with
  | O => ret (inl samples)
  | S shots' =>
      call (ProjectqExec translated_circuit eng Qureg) ;;;
      call (ProjectqFlush eng) ;;;
      if is_mixed_state source_circuit then
        call (ProjectqMeasureAll Qureg) ;;;
        call (ProjectqFlush eng) ;;;
        bits <- call (ProjectqReadQureg Qureg) ;;
        let sample := PyStr.join (map str_bit bits) in
        let samples := (samples ++ [sample])%list in
        t <- lift (seq_truthy initial_statevector) ;;
        let initial_state := match t, initial_statevector with
                             | true, Some v => v
                             | _, _ => all_zero_state
                             end in
        call (ProjectqSetWavefunction eng initial_state Qureg) ;;;
        projectq_loop self source_circuit return_statevector initial_statevector
          translated_circuit eng Qureg all_zero_state shots' samples
      else
        current_state <- call (ProjectqCheat eng) ;;
        set_current_state (VSeq current_state) ;;;
        statevector <- call (ProjectqCheat eng) ;;
        call (ProjectqMeasureAll Qureg) ;;;
        call (ProjectqFlush eng) ;;;
        frequencies <- _statevector_to_frequencies env self current_state ;;
        ret (inr (with_statevector return_statevector frequencies
                    (np_array statevector)))
  end.

(** Lines 176-213. *)
Definition simulate_projectq (self : Simulator) (source_circuit : Circuit)
    (return_statevector : bool) (initial_statevector : option PySeq)
  : Py SimulateResult :=
  translated_circuit <- call (TranslateProjectq source_circuit) ;;
  let translated_circuit := re_sub_allocate translated_circuit "" in
  all_zero_state <- lift (zero_state env 16 (2 ^ N.of_nat (width source_circuit))
                            (PyComplex 0 0) (PyComplex 1 0)) ;;
  let all_zero_state := NdArray all_zero_state in
  eng <- call ProjectqMainEngine ;;
  Qureg <-
    (match initial_statevector with
     | Some v =>
         n <- lift (log2_len (seq_items v)) ;;
         Qureg <- call (ProjectqAllocateQureg eng n) ;;
         call (ProjectqFlush eng) ;;;
         call (ProjectqSetWavefunction eng v Qureg) ;;;
         ret Qureg
     | None => call (ProjectqAllocateQureg eng (width source_circuit))
     end) ;;
  call (ProjectqFlush eng) ;;;
  shots <- lift (range_of (if is_mixed_state source_circuit
                           then n_shots self else Some 1)) ;;
  out <- projectq_loop self source_circuit return_statevector initial_statevector
           translated_circuit eng Qureg all_zero_state shots [] ;;
  match out with
  | inr result => ret result
  | inl samples =>
      frequencies <- lift (freq_comp (fun kv => fst kv)
                                     (fun kv => div_by_shots (snd kv) (n_shots self))
                                     (Counter String.eqb samples) []) ;;
      ret (frequencies, None)
  end.

(** [enumerate(l)] *)
Definition enumerate {A} (l : list A) : list (nat * A) :=
  combine (seq 0 (List.length l)) l.

(** Lines 229-232: from the list that Q# returns to the frequency table.
    The first comprehension keys [frequencies_list[i]] by the binary digits
    of [i]; the second pads every key with zeros on the left, reverses it,
    and keeps the entries above the threshold. *)
Definition qdk_frequencies (self : Simulator) (source_circuit : Circuit)
    (frequencies_list : list float) : Frequencies :=
  let frequencies :=
    dict_comp String.eqb
      (fun ifreq : nat * float => PyStr.last (PyStr.split "b" (bin (fst ifreq))))
      (fun ifreq => nth (fst ifreq) frequencies_list (snd ifreq))
      (enumerate frequencies_list) in
  dict_comp String.eqb
    (fun kv : string * float =>
       PyStr.rev (PyStr.repeat "0" (width source_circuit - String.length (fst kv))
                  ++ fst kv))
    (fun kv => snd kv)
    (filter (fun kv => PrimFloat.ltb (freq_threshold self) (snd kv)) frequencies).

(** Lines 215-233.  The [print] of line 227 writes to standard output,
    which is not part of the model. *)
Definition simulate_qdk (self : Simulator) (source_circuit : Circuit)
    (return_statevector : bool) (initial_statevector : option PySeq)
  : Py SimulateResult :=
  translated_circuit <- call (TranslateQsharp source_circuit) ;;
  call (WriteFile "tmp_circuit.qs" translated_circuit) ;;;
  call QsharpReload ;;;
  frequencies_list <- call (QsharpEstimateFrequencies (width source_circuit)
                              (n_shots self)) ;;
  ret (qdk_frequencies self source_circuit frequencies_list, None).

Definition simulate (self : Simulator) (source_circuit : Circuit)
    (return_statevector : bool) (initial_statevector : option PySeq)
  : Py SimulateResult :=
  if is_mixed_state source_circuit && not_shots (n_shots self) then
    raise (ValueError "Circuit contains MEASURE instruction, and is assumed to prepare a mixed state.Please set the Simulator.n_shots attribute to an appropriate value.")
  else if (width source_circuit =? 0)%nat then
    raise (ValueError "Cannot simulate an empty circuit (e.g identity unitary) with unknown number of qubits.")
  else if (size source_circuit =? 0)%nat then
    (* the identity: no simulation, the all-zero state *)
    let frequencies := [(PyStr.repeat "0" (width source_circuit), 1%float)] in
    statevector <- lift (zero_state env 8 (2 ^ N.of_nat (width source_circuit))
                           (PyFloat 0) (PyFloat 1)) ;;
    ret (with_statevector return_statevector frequencies (NdArray statevector))
  else
    match _target self with
    | qulacs => simulate_qulacs self source_circuit return_statevector initial_statevector
    | qiskit => simulate_qiskit self source_circuit return_statevector initial_statevector
    | projectq => simulate_projectq self source_circuit return_statevector initial_statevector
    | qdk => simulate_qdk self source_circuit return_statevector initial_statevector
    end.

End Simulate.

(* ================================================================= *)
(** ** Simulator.get_expectation_value and its two strategies *)

Definition pauli_eqb (p q : Pauli) : bool :=
  match p, q with
  | PauliX, PauliX | PauliY, PauliY | PauliZ, PauliZ => true
  | _, _ => false
  end.

(** Equality of two terms as dictionary keys (tuples compare elementwise). *)
Fixpoint term_eqb (s t : Term) : bool :=
  match s, t with
  | [], [] => true
  | (i, p) :: s', (j, q) :: t' => Nat.eqb i j && pauli_eqb p q && term_eqb s' t'
  | _, _ => false
  end.

(** [str(n)] *)
Definition str_nat (n : nat) : string := NilEmpty.string_of_uint (Nat.to_uint n).

(** [repr] of a term: a tuple of [(index, 'P')] tuples. *)
Definition repr_factor (f : nat * Pauli) : string :=
  "(" ++ str_nat (fst f) ++ ", '" ++ pauli_name (snd f) ++ "')".

Definition repr_term (t : Term) : string :=
  match t with
  | [] => "()"
  | [f] => "(" ++ repr_factor f ++ ",)"
  | _ => "(" ++ String.concat ", " (map repr_factor t) ++ ")"
  end.

Definition term_width_msg (term : Term) (w : nat) : string :=
  "Term " ++ repr_term term ++ " requires more qubits than the circuit contains ("
  ++ str_nat w ++ ")".

Definition type_name (c : PyNum) : string :=
  match c with
  | PyFloat _ => "float"
  | PyComplex _ _ => "complex"
  end.

(** [coef * expectation_term], where [expectation_term] is what the one-term
    routine handed back. *)
Definition mul_oneterm (coef : PyNum) (v : OnetermValue) : PyResult PyNum :=
  match v with
  | OnetermFloat x => Return (num_mul coef (PyFloat x))
  | OnetermExn _ =>
      Raise (TypeError ("unsupported operand type(s) for *: '" ++ type_name coef
                        ++ "' and 'ValueError'"))
  end.

(** Lines 320-322: the real inner product of the two state vectors, over
    [range(len(prepared_state))] from index [i] on. *)
Fixpoint overlap_loop (pauli_state prepared_state : list PyNum) (i remaining : nat)
    (delta : float) : PyResult float :=
  match remaining with
  | O => Return delta
  | S r =>
      match nth_error pauli_state i, nth_error prepared_state i with
      | Some a, Some b =>
          overlap_loop pauli_state prepared_state (S i) r
            (PrimFloat.add delta
               (PrimFloat.add (PrimFloat.mul (num_real a) (num_real b))
                              (PrimFloat.mul (num_imag a) (num_imag b))))
      | _, _ => Raise (IndexError "index out of range")
      end
  end.

Definition overlap (pauli_state prepared_state : option PySeq) : PyResult float :=
  match prepared_state with
  | None => Raise (TypeError "object of type 'NoneType' has no len()")
  | Some prepared =>
      match pauli_state with
      | None =>
          match seq_items prepared with
          | [] => Return 0%float
          | _ => Raise (TypeError "'NoneType' object is not subscriptable")
          end
      | Some pauli =>
          overlap_loop (seq_items pauli) (seq_items prepared) 0
            (List.length (seq_items prepared)) 0%float
      end
  end.

(** Lines 255-258: the loop over the live view [qubit_operator.terms.items()],
    from position [i] on, that checks each term and overwrites its
    coefficient in the same dictionary.  The dictionary after the loop is
    returned whether or not the loop raised. *)
Fixpoint width_check_loop (w i remaining : nat) (terms : OpTerms)
  : PyResult unit * OpTerms :=
  match remaining with
  | O => (Return tt, terms)
  | S r =>
      match nth_error terms i with
      | None => (Return tt, terms)
      | Some (term, coef) =>
          if (w <? List.length term)%nat then
            (Raise (ValueError (term_width_msg term w)), terms)
          else width_check_loop w (S i) r (dict_set term_eqb term (real coef) terms)
      end
  end.

Section Expectation.
Variable env : Env.

Abbreviation Py := (Py env).

Definition operator_size_msg (qubit_operator : OpTerms) (n_qubits : nat) : string :=
  "Size of operator " ++ str_operator env qubit_operator
  ++ " beyond circuit width (" ++ str_nat n_qubits ++ " qubits)".

(** Lines 352-365: the loop over [qubit_operator.terms.items()]. *)
Fixpoint from_frequencies_loop (self : Simulator) (qubit_operator : OpTerms)
    (state_prep_circuit : Circuit) (n_qubits : nat)
    (items : list (Term * PyNum)) (expectation_value : PyNum) : Py PyNum :=
  match items with
  | [] => ret expectation_value
  | (term, coef) :: rest =>
      if (n_qubits <? List.length term)%nat then
        raise (ValueError (operator_size_msg qubit_operator n_qubits))
      else if (List.length term =? 0)%nat then
        (* empty term: no simulation needed *)
        from_frequencies_loop self qubit_operator state_prep_circuit n_qubits rest
          (num_add expectation_value coef)
      else
        gates <- lift (measurement_basis_gates env term) ;;
        basis_circuit <- lift (Circuit_init env gates None) ;;
        full_circuit <- (if (0 <? size basis_circuit)%nat
                         then lift (Circuit_add env state_prep_circuit basis_circuit)
                         else ret state_prep_circuit) ;;
        fs <- simulate env self full_circuit false None ;;
        let frequencies := fst fs in
        expectation_term <- lift (get_expectation_value_from_frequencies_oneterm
                                    term frequencies) ;;
        delta <- lift (mul_oneterm coef expectation_term) ;;
        from_frequencies_loop self qubit_operator state_prep_circuit n_qubits rest
          (num_add expectation_value delta)
  end.

Definition _get_expectation_value_from_frequencies (self : Simulator)
    (qubit_operator : OpTerms) (state_prep_circuit : Circuit) : Py PyNum :=
  let n_qubits := width state_prep_circuit in
  from_frequencies_loop self qubit_operator state_prep_circuit n_qubits
    qubit_operator (PyFloat 0).

(** [Gate(pauli, index)] *)
Definition pauli_gate (f : nat * Pauli) : Gate :=
  mkGate (pauli_name (snd f)) (fst f) None None.

(** Lines 307-333: the generic loop of the state-vector strategy. *)
Fixpoint from_statevector_loop (self : Simulator) (qubit_operator : OpTerms)
    (n_qubits : nat) (prepared_frequencies : Frequencies)
    (prepared_state : option PySeq)
    (items : list (Term * PyNum)) (expectation_value : PyNum) : Py PyNum :=
  match items with
  | [] => ret expectation_value
  | (term, coef) :: rest =>
      if (n_qubits <? List.length term)%nat then
        raise (ValueError (operator_size_msg qubit_operator n_qubits))
      else if (List.length term =? 0)%nat then
        from_statevector_loop self qubit_operator n_qubits prepared_frequencies
          prepared_state rest (num_add expectation_value coef)
      else if not_shots (n_shots self) then
        pauli_circuit <- lift (Circuit_init env (map pauli_gate term) (Some n_qubits)) ;;
        ps <- simulate env self pauli_circuit true prepared_state ;;
        let pauli_state := snd ps in
        delta <- lift (overlap pauli_state prepared_state) ;;
        from_statevector_loop self qubit_operator n_qubits prepared_frequencies
          prepared_state rest
          (num_add expectation_value (num_mul coef (PyFloat delta)))
      else
        gates <- lift (measurement_basis_gates env term) ;;
        basis_circuit <- lift (Circuit_init env gates None) ;;
        frequencies <- (if (0 <? size basis_circuit)%nat
                        then fs <- simulate env self basis_circuit false prepared_state ;;
                             ret (fst fs)
                        else ret prepared_frequencies) ;;
        expectation_term <- lift (get_expectation_value_from_frequencies_oneterm
                                    term frequencies) ;;
        delta <- lift (mul_oneterm coef expectation_term) ;;
        from_statevector_loop self qubit_operator n_qubits prepared_frequencies
          prepared_state rest (num_add expectation_value delta)
  end.

Definition is_qulacs (t : Target) : bool :=
  match t with qulacs => true | _ => false end.
Definition is_projectq (t : Target) : bool :=
  match t with projectq => true | _ => false end.

Definition _get_expectation_value_from_statevector (self : Simulator)
    (qubit_operator : OpTerms) (state_prep_circuit : Circuit) : Py PyNum :=
  let n_qubits := width state_prep_circuit in
  prepared <- simulate env self state_prep_circuit true None ;;
  let prepared_frequencies := fst prepared in
  let prepared_state := snd prepared in
  if is_qulacs (_target self) && not_shots (n_shots self) then
    current_state <- @get_current_state env ;;
    r <- call (QulacsExpectation qubit_operator n_qubits current_state) ;;
    ret (PyFloat r)
  else if is_projectq (_target self) && not_shots (n_shots self) then
    call (ProjectqExpectation qubit_operator n_qubits prepared_state)
  else
    from_statevector_loop self qubit_operator n_qubits prepared_frequencies
      prepared_state qubit_operator (PyFloat 0).

(** [get_expectation_value(qubit_operator, state_prep_circuit)].  The
    operator is the caller's object: its [terms] dictionary goes in, and
    comes out as the call leaves it, whether it returns or raises.  The
    calls into the backends are handed the operator but do not write to
    it. *)
Definition get_expectation_value (self : Simulator) (qubit_operator : OpTerms)
    (state_prep_circuit : Circuit)
  : World env -> (PyResult PyNum * OpTerms) * World env :=
  fun w =>
    match width_check_loop (width state_prep_circuit) 0
            (List.length qubit_operator) qubit_operator with
    | (Raise e, terms) => ((Raise e, terms), w)
    | (Return _, terms) =>
        let strategy :=
          if truthy_noise (_noise_model self)
             || negb (statevector_available self)
             || is_mixed_state state_prep_circuit
             || (size state_prep_circuit =? 0)%nat
          then _get_expectation_value_from_frequencies self terms state_prep_circuit
          else (* elif self.statevector_available: true when reached *)
            _get_expectation_value_from_statevector self terms state_prep_circuit in
        let (r, w') := strategy w in
        ((r, terms), w')
    end.

End Expectation.

(* ================================================================= *)
(** ** A small environment to run the methods in

    Backends that answer every call with fixed data for a two-qubit register
    in the state |1> of qubit 0 (basis index 1); the hidden state counts the
    calls. *)

Module Demo.

Definition c0 : PyNum := PyComplex 0 0.
Definition c1 : PyNum := PyComplex 1 0.

(** basis state 1 of two qubits, in a backend's own order *)
Definition raw_statevector : PySeq := NdArray [c0; c1; c0; c0].

Definition answer (T : Type) (e : BackendE T) : PyResult T :=
  match e in BackendE T return PyResult T with
  | TranslateQulacs _ _ => Return (object 0)
  | QulacsQuantumState _ => Return (object 1)
  | QulacsLoad _ _ => Return tt
  | QulacsUpdateQuantumState _ _ => Return tt
  | QulacsSampling1 _ => Return 1
  | QulacsSetZeroState _ => Return tt
  | QulacsGetVector _ => Return raw_statevector
  | TranslateQiskit _ => Return (object 0)
  | QiskitInitialize _ _ _ => Return (object 2)
  | QiskitQasmCounts _ _ _ _ => Return [("01", 3); ("00", 1)]
  | QiskitExecuteStatevector _ => Return (object 3)
  | QiskitGetStatevector _ => Return raw_statevector
  | TranslateProjectq _ => Return "H | Qureg[0]"
  | ProjectqMainEngine => Return (object 4)
  | ProjectqAllocateQureg _ _ => Return (object 5)
  | ProjectqFlush _ => Return tt
  | ProjectqSetWavefunction _ _ _ => Return tt
  | ProjectqExec _ _ _ => Return tt
  | ProjectqMeasureAll _ => Return tt
  | ProjectqReadQureg _ => Return [true; false]
  | ProjectqCheat _ => Return raw_statevector
  | TranslateQsharp _ => Return "namespace MyNamespace { }"
  | WriteFile _ _ => Return tt
  | QsharpReload => Return tt
  | QsharpEstimateFrequencies _ _ => Return [0; 1; 0; 0]%float
  | RvDiscreteRvs xk _ size => Return (List.repeat (hd 0 xk) size)
  | QulacsExpectation _ _ _ => Return 1%float
  | ProjectqExpectation _ _ _ => Return (PyFloat 1)
  end.

Definition gate_width (g : Gate) : nat :=
  Nat.max (S (target g)) (match control g with Some c => S c | None => 0 end).

Definition circuit_init (gates : list Gate) (n_qubits : option nat) : PyResult Circuit :=
  Return (mkCircuit gates
            (match n_qubits with
             | Some n => n
             | None => fold_right (fun g w => Nat.max (gate_width g) w) 0 gates
             end)).

Definition circuit_add (a b : Circuit) : PyResult Circuit :=
  Return (mkCircuit (_gates a ++ _gates b)%list (Nat.max (width a) (width b))).

Definition basis_gates (term : Term) : PyResult (list Gate) :=
  Return (flat_map (fun f : nat * Pauli =>
                      match snd f with
                      | PauliX => [mkGate "RY" (fst f) None (Some (-1.5707963267948966)%float)]
                      | PauliY => [mkGate "RX" (fst f) None (Some 1.5707963267948966%float)]
                      | PauliZ => []
                      end) term).

(** A machine with memory for every array that fits a signed 64-bit byte
    count. *)
Definition alloc_error (itemsize n : N) : option Exn :=
  if (2 ^ 63 <=? itemsize * n)%N then
    Some (ValueError "array is too big; `arr.size * arr.dtype.itemsize` is larger than the maximum possible size.")
  else None.

Definition env : Env :=
  {| Ext := nat;
     handle := fun T e x => (answer T e, S x);
     abs2 := fun c => PrimFloat.add (PrimFloat.mul (num_real c) (num_real c))
                                    (PrimFloat.mul (num_imag c) (num_imag c));
     measurement_basis_gates := basis_gates;
     Circuit_init := circuit_init;
     Circuit_add := circuit_add;
     str_operator := fun _ => "<QubitOperator>";
     np_alloc_error := alloc_error |}.

Definition world0 : World env := mkWorld env None [] 0.

(** A one-gate circuit on two qubits, and the empty circuit on one. *)
Definition x_circuit : Circuit := mkCircuit [mkGate "X" 0 None None] 2.
Definition empty_circuit : Circuit := mkCircuit [] 1.


Definition sim (t : Target) (shots : option nat) : Simulator :=
  mkSimulator "abstract" t None shots 1e-10%float
    (info_statevector_available (backend_info t))
    (info_statevector_order (backend_info t))
    (info_noisy_simulation (backend_info t)).

(** A two-qubit circuit that measures qubit 0. *)
Definition measure_circuit : Circuit := mkCircuit [mkGate "MEASURE" 0 None None] 2.

End Demo.


(* ================================================================= *)
(** ** What the specification says, in its own terms *)

Module IonQSpec.
Import IonQ.

(** The gates the translator has a case for. *)
Definition supported (n : string) : bool :=
  PyStr.mem n fixed_gates || PyStr.mem n rotation_gates || PyStr.mem n controlled_gates.

(** The IonQ JSON entry of a supported gate. *)
Definition json_of_gate (gate : Gate) : Json :=
  if PyStr.mem (name gate) fixed_gates then
    JDict [("gate", JStr (PyStr.lower (name gate))); ("target", JInt (target gate))]
  else if PyStr.mem (name gate) rotation_gates then
    JDict [("gate", JStr (PyStr.lower (name gate))); ("target", JInt (target gate));
           ("rotation", json_of_option JFloat (parameter gate))]
  else
    JDict [("gate", JStr (PyStr.lower (name gate))); ("target", JInt (target gate));
           ("control", json_of_option JInt (control gate))].

(** The first gate of the circuit that the translator has no case for. *)
Definition first_unsupported (c : Circuit) : option Gate :=
  find (fun g => negb (supported (name g))) (_gates c).

(** A circuit made of one gate of the given name, on qubit 0 (controlled by
    qubit 1 for the two-qubit gate). *)
Definition single_gate_circuit (n : string) : Circuit :=
  mkCircuit [mkGate n 0 (if String.eqb n "CNOT" then Some 1 else None) None] 2.

End IonQSpec.

Module OnetermSpec.

(** The term-qubit mask over [n] qubits: bit [i] is set iff the term has a
    factor on qubit [i]. *)
Definition term_mask (term : Term) (n : nat) : list bool :=
  map (fun i => existsb (fun f : nat * Pauli => Nat.eqb (fst f) i) term) (seq 0 n).

(** The bits of a bitstring. *)
Fixpoint bits_of (s : string) : list bool :=
  match s with
  | EmptyString => []
  | String c r => Ascii.eqb c "1" :: bits_of r
  end.

Fixpoint is_bitstring (s : string) : bool :=
  match s with
  | EmptyString => true
  | String c r => (Ascii.eqb c "0" || Ascii.eqb c "1") && is_bitstring r
  end.

(** +1 if the AND of the mask with the bitstring has an even number of
    ones, else -1. *)
Definition parity_sign (mask bits : list bool) : float :=
  if Nat.even (Bitarray.count1 (Bitarray.zip_and mask bits)) then 1%float
  else (-1)%float.

(** The sum over the observed bitstrings, in the order of the table, of
    sign times frequency. *)
Definition signed_parity_sum (term : Term) (n : nat) (frequencies : Frequencies)
  : float :=
  fold_left (fun acc kf =>
               PrimFloat.add acc
                 (PrimFloat.mul (parity_sign (term_mask term n) (bits_of (fst kf)))
                                (snd kf)))
            frequencies 0%float.

End OnetermSpec.

Module NormalizerSpec.

(** The binary digits of [i], most significant first. *)
Definition digits (i : nat) : string :=
  match N.of_nat i with
  | N0 => "0"
  | Npos p => pos_digits p
  end.

(** Ordinary binary, zero-padded on the left to [n] characters. *)
Definition padded (n i : nat) : string :=
  PyStr.repeat "0" (n - String.length (digits i)) ++ digits i.

Definition is_msq_first (order : option string) : bool :=
  match order with
  | Some o => String.eqb o "msq_first"
  | None => false
  end.

(** The normalization point in the words of the specification: pad, then
    reverse iff the backend's order is msq_first. *)
Definition normalized (order : option string) (n i : nat) : string :=
  if is_msq_first order then PyStr.rev (padded n i) else padded n i.

Section WithEnv.
Variable env : Env.

(** The basis indices whose probability passes the threshold test of
    line 420, each with its probability, in index order. *)
Definition retained (self : Simulator) (statevector : PySeq) : list (nat * float) :=
  filter (fun ip : nat * float =>
            PrimFloat.leb 0%float (PrimFloat.sub (snd ip) (freq_threshold self)))
         (map (fun ia : nat * PyNum => (fst ia, abs2 env (snd ia)))
              (enumerate (seq_items statevector))).

(** The exact sparse table: one entry per retained index. *)
Definition exact_table (self : Simulator) (n_qubits : nat) (statevector : PySeq)
  : Frequencies :=
  map (fun ip : nat * float => (__int_to_binstr self (fst ip) n_qubits, snd ip))
      (retained self statevector).

(** The empirical table of a list of samples: count / shots per observed
    index, in order of first occurrence. *)
Definition empirical_table (self : Simulator) (n_qubits shots : nat)
    (samples : list nat) : Frequencies :=
  map (fun kc : nat * nat =>
         (__int_to_binstr self (fst kc) n_qubits,
          PrimFloat.div (float_of_nat (snd kc)) (float_of_nat shots)))
      (Counter Nat.eqb samples).

(** Drawing [shots] samples from the retained distribution. *)
Definition draw (self : Simulator) (n_qubits shots : nat) (statevector : PySeq)
  : Py env Frequencies :=
  samples <- call (RvDiscreteRvs (map fst (retained self statevector))
                                 (map snd (retained self statevector)) shots) ;;
  ret (empirical_table self n_qubits shots samples).

(** The normalizer as the specification words it: exact when [n_shots]
    is null, sampled whenever it is set. *)
Definition spec_statevector_to_frequencies (self : Simulator) (statevector : PySeq)
  : Py env Frequencies :=
  n_qubits <- lift (log2_len (seq_items statevector)) ;;
  match n_shots self with
  | None => ret (exact_table self n_qubits statevector)
  | Some shots => draw self n_qubits shots statevector
  end.

(** The same with a shot count of zero treated like null. *)
Definition amended_statevector_to_frequencies (self : Simulator)
    (statevector : PySeq) : Py env Frequencies :=
  n_qubits <- lift (log2_len (seq_items statevector)) ;;
  match n_shots self with
  | None | Some O => ret (exact_table self n_qubits statevector)
  | Some (S m) => draw self n_qubits (S m) statevector
  end.

End WithEnv.

End NormalizerSpec.

(** The table that the qdk branch would return if it routed the list that Q#
    returns through [__int_to_binstr]: one entry per basis index above the
    threshold. *)
Definition routed_qdk_frequencies (self : Simulator) (source_circuit : Circuit)
    (frequencies_list : list float) : Frequencies :=
  map (fun ip : nat * float =>
         (__int_to_binstr self (fst ip) (width source_circuit), snd ip))
      (filter (fun ip : nat * float => PrimFloat.ltb (freq_threshold self) (snd ip))
              (enumerate frequencies_list)).

(** What the loop of lines 255-258 leaves in an entry of the operator. *)
Definition realified (tc : Term * PyNum) : Term * PyNum := (fst tc, real (snd tc)).

(* ================================================================= *)
(** ** Tables and conditions that the further properties are stated with *)

Module BranchSpec.

(** The two characters of a bitstring. *)
Definition bit_char (c : ascii) : bool := Ascii.eqb c "0" || Ascii.eqb c "1".

(** The string has no newline character. *)
Definition no_newline (s : string) : bool :=
  forallb (fun c => negb (Ascii.eqb c newline)) (list_ascii_of_string s).

(** Every qubit index of the term is below [n]. *)
Definition indices_in_range (term : Term) (n : nat) : bool :=
  forallb (fun f : nat * Pauli => (fst f <? n)%nat) term.

(** One entry per index of the list that Q# returns whose value is above the
    threshold: the zero-padded binary digits of the index, reversed. *)
Definition qdk_table (self : Simulator) (source_circuit : Circuit)
    (frequencies_list : list float) : Frequencies :=
  map (fun iv : nat * float =>
         (PyStr.rev (NormalizerSpec.padded (width source_circuit) (fst iv)), snd iv))
      (filter (fun iv : nat * float => PrimFloat.ltb (freq_threshold self) (snd iv))
              (enumerate frequencies_list)).

(** One entry per string that qiskit counted: the string reversed, with its
    count over the number of shots. *)
Definition qiskit_shot_table (shots : nat) (counts : list (string * nat)) : Frequencies :=
  map (fun sc : string * nat =>
         (PyStr.rev (fst sc),
          PrimFloat.div (float_of_nat (snd sc)) (float_of_nat shots)))
      counts.

(** The circuit is run shot by shot on qulacs: it measures, or there is a
    noise model. *)
Definition qulacs_sampling (self : Simulator) (source_circuit : Circuit) : bool :=
  is_mixed_state source_circuit || truthy_noise (_noise_model self).

(** The condition of line 260 under which the expectation value is computed
    from frequencies. *)
Definition frequency_strategy (self : Simulator) (state_prep_circuit : Circuit) : bool :=
  truthy_noise (_noise_model self)
  || negb (statevector_available self)
  || is_mixed_state state_prep_circuit
  || (size state_prep_circuit =? 0)%nat.

(** One entry per distinct string that projectq measured, in order of first
    occurrence, with its count over the number of shots. *)
Definition projectq_shot_table (shots : nat) (samples : list string) : Frequencies :=
  map (fun sc : string * nat =>
         (fst sc, PrimFloat.div (float_of_nat (snd sc)) (float_of_nat shots)))
      (Counter String.eqb samples).

(** The expectation value on the all-zero state of an operator none of whose
    terms needs a change of basis: every term counts with its real
    coefficient, the identity as it is, the others times the value 1.0 that
    the one-term routine gives. *)
Definition zero_state_expectation (terms : OpTerms) : PyNum :=
  fold_left (fun acc tc =>
               num_add acc
                 (match fst tc with
                  | [] => real (snd tc)
                  | _ :: _ => num_mul (real (snd tc)) (PyFloat 1)
                  end))
            terms (PyFloat 0).

(** The computation only ever adds to the log of backend calls. *)
Definition appends_calls (env : Env) {A : Type} (m : Py env A) : Prop :=
  forall w, exists l, calls (snd (m w)) = (calls w ++ l)%list.

End BranchSpec.

(** Where the keys of a table that [simulate] returns come from: the raw
    output of the backend that a key stands for. *)
Module KeySpec.
Import NormalizerSpec.

Section WithEnv.
Variable env : Env.

(** [k] is the key of a basis state that the table made from the state
    vector [v] reports, converted on the qubit count of [v]: without a shot
    count an index whose probability passes the threshold, with a shot count
    one of the samples that scipy drew from the retained distribution. *)
Definition statevector_key (self : Simulator) (v : PySeq) (k : string) : Prop :=
  exists n i,
    log2_len (seq_items v) = Return n
    /\ k = __int_to_binstr self i n
    /\ match n_shots self with
       | None | Some O => In i (map fst (retained env self v))
       | Some (S m) =>
           exists x samples,
             fst (handle env (RvDiscreteRvs (map fst (retained env self v))
                                            (map snd (retained env self v)) (S m)) x)
             = Return samples
             /\ In i samples
       end.

(** [k] is the key made of the string [r] that a backend wrote for a basis
    state, most significant qubit first: [r] reversed, which is the
    conversion of the integer that [r] is the binary numeral of, on as many
    qubits as [r] has digits. *)
Definition numeral_key (self : Simulator) (r k : string) : Prop :=
  k = PyStr.rev r
  /\ forall i, int2 r = Return i -> k = __int_to_binstr self i (String.length r).

(** The origin of a key, branch by branch. *)
Definition key_origin (self : Simulator) (source_circuit : Circuit) (k : string)
  : Prop :=
  if (size source_circuit =? 0)%nat then
    (* the all-zero basis state *)
    k = __int_to_binstr self 0 (width source_circuit)
  else
    match _target self with
    | qulacs =>
        exists state,
          if is_mixed_state source_circuit || truthy_noise (_noise_model self) then
            exists x i,
              fst (handle env (QulacsSampling1 state) x) = Return i
              /\ k = __int_to_binstr self i (width source_circuit)
          else
            exists x v,
              fst (handle env (QulacsGetVector state) x) = Return v
              /\ statevector_key self v k
    | qiskit =>
        if truthy_noise (_noise_model self) || is_mixed_state source_circuit then
          exists circ x counts r,
            fst (handle env (QiskitQasmCounts circ (width source_circuit)
                               (_noise_model self) (n_shots self)) x) = Return counts
            /\ In r (map fst counts)
            /\ numeral_key self r k
        else
          exists results x v,
            fst (handle env (QiskitGetStatevector results) x) = Return v
            /\ statevector_key self v k
    | projectq =>
        if is_mixed_state source_circuit then
          exists Qureg x bits,
            fst (handle env (ProjectqReadQureg Qureg) x) = Return bits
            /\ numeral_key self (PyStr.rev (PyStr.join (map str_bit bits))) k
        else
          exists eng x v,
            fst (handle env (ProjectqCheat eng) x) = Return v
            /\ statevector_key self v k
    | qdk =>
        (* not the conversion: padded and always reversed *)
        exists x frequencies_list i,
          fst (handle env (QsharpEstimateFrequencies (width source_circuit)
                             (n_shots self)) x) = Return frequencies_list
          /\ i < List.length frequencies_list
          /\ k = PyStr.rev (padded (width source_circuit) i)
    end.

End WithEnv.

End KeySpec.

(* ================================================================= *)
(** * Properties *)

(** ** Results and the monad *)

Lemma bindR_Return {A B} (r : PyResult A) (k : A -> PyResult B) (b : B) :
  bindR r k = Return b -> exists a, r = Return a /\ k a = Return b.
Proof.
  destruct r as [a|e]; simpl; intros H; [eauto | discriminate].
Qed.

Section MonadFacts.
Variable env : Env.

Lemma bind_Return {A B} (m : Py env A) (k : A -> Py env B) w b w' :
  bind m k w = (Return b, w') ->
  exists a w1, m w = (Return a, w1) /\ k a w1 = (Return b, w').
Proof.
  unfold bind. destruct (m w) as [[a|e] w1]; intros H; [eauto | discriminate].
Qed.

Lemma lift_Return {A} (r : PyResult A) (w : World env) a w' :
  lift r w = (Return a, w') -> r = Return a /\ w' = w.
Proof. unfold lift. intros H. inversion H. auto. Qed.

Lemma ret_Return {A} (x : A) (w : World env) a w' :
  ret x w = (Return a, w') -> a = x /\ w' = w.
Proof. unfold ret. intros H. inversion H. auto. Qed.

Lemma raise_Return {A} e (w : World env) (a : A) w' :
  raise e w = (Return a, w') -> False.
Proof. unfold raise. discriminate. Qed.

Lemma call_Return {T} (e : BackendE T) (w : World env) a w' :
  call e w = (Return a, w') -> fst (handle env e (ext w)) = Return a.
Proof.
  unfold call. destruct (handle env e (ext w)) as [r x]. intros H.
  inversion H. reflexivity.
Qed.

End MonadFacts.

(* ================================================================= *)
(** ** The IonQ translator *)

Section IonQFacts.
Import IonQ IonQSpec.

Ltac name_cases H :=
  unfold PyStr.mem in H; simpl in H;
  repeat match type of H with
         | (_ || _) = true => apply orb_true_iff in H; destruct H as [H|H]
         end;
  try discriminate; apply String.eqb_eq in H.

Lemma translate_gate_supported (gate : Gate) :
  supported (name gate) = true ->
  translate_gate get_ionq_gates gate = Return (json_of_gate gate).
Proof.
  unfold supported, translate_gate, json_of_gate. intros H.
  destruct (PyStr.mem (name gate) fixed_gates) eqn:Hf.
  - name_cases Hf; rewrite Hf; reflexivity.
  - destruct (PyStr.mem (name gate) rotation_gates) eqn:Hr.
    + name_cases Hr; rewrite Hr; reflexivity.
    + destruct (PyStr.mem (name gate) controlled_gates) eqn:Hc; [|discriminate].
      name_cases Hc; rewrite Hc; reflexivity.
Qed.

Lemma translate_gate_unsupported (gate : Gate) :
  supported (name gate) = false ->
  translate_gate get_ionq_gates gate = Raise (ValueError (unsupported_msg (name gate))).
Proof.
  unfold supported, translate_gate. intros H.
  apply orb_false_iff in H. destruct H as [H Hc].
  apply orb_false_iff in H. destruct H as [Hf Hr].
  rewrite Hf, Hr, Hc. reflexivity.
Qed.

Lemma translate_loop_spec (gates : list Gate) :
  forall json_gates,
    translate_loop get_ionq_gates gates json_gates =
    match find (fun g => negb (supported (name g))) gates with
    | None => Return (json_gates ++ map json_of_gate gates)%list
    | Some g => Raise (ValueError (unsupported_msg (name g)))
    end.
Proof.
  induction gates as [|gate rest IH]; intros acc; simpl.
  - now rewrite app_nil_r.
  - destruct (supported (name gate)) eqn:Hs; simpl.
    + rewrite translate_gate_supported by assumption. simpl.
      rewrite IH. destruct (find _ rest); [reflexivity|].
      now rewrite <- app_assoc.
    + now rewrite translate_gate_unsupported.
Qed.

(** C7, as the code has it.  The IonQ translator expresses exactly the ten
    gates H, X, Y, Z, S, T, RX, RY, RZ and CNOT: a circuit made of them
    translates to the dictionary of its width and its gates' entries; on
    any other circuit the translator raises a [ValueError] whose message
    names the first gate it has no case for.  MEASURE is such a gate. *)
Theorem translate_json_ionq_spec (source_circuit : Circuit) :
  (match first_unsupported source_circuit with
   | None =>
       translate_json_ionq source_circuit =
       Return (JDict [("qubits", JInt (width source_circuit));
                      ("circuit", JList (map json_of_gate (_gates source_circuit)))])
   | Some g =>
       translate_json_ionq source_circuit =
       Raise (ValueError ("Gate '" ++ name g ++ "' not supported with JSON IonQ translation"))
   end)
  /\ (forall n, supported n = true <->
                In n ["H"; "X"; "Y"; "Z"; "S"; "T"; "RX"; "RY"; "RZ"; "CNOT"])
  /\ supported "MEASURE" = false.
Proof.
  split; [|split].
  - unfold translate_json_ionq, first_unsupported.
    rewrite translate_loop_spec.
    destruct (find _ (_gates source_circuit)); reflexivity.
  - intros n. unfold supported. split.
    + intros H.
      apply orb_true_iff in H. destruct H as [H|H];
        [apply orb_true_iff in H; destruct H as [H|H]|];
        name_cases H; subst n; simpl; tauto.
    + simpl. intros H.
      repeat (destruct H as [H|H]; [subst n; reflexivity|]). contradiction.
  - reflexivity.
Qed.

(** C7 as stated fails: MEASURE is in the vocabulary the claim lists, and
    the translator raises on the circuit that consists of one MEASURE. *)
Lemma translate_json_ionq_rejects_measure :
  In "MEASURE" ["H"; "X"; "Y"; "Z"; "S"; "T"; "RX"; "RY"; "RZ"; "CNOT"; "MEASURE"]
  /\ translate_json_ionq (single_gate_circuit "MEASURE") =
     Raise (ValueError "Gate 'MEASURE' not supported with JSON IonQ translation")
  /\ ~ (forall n,
          In n ["H"; "X"; "Y"; "Z"; "S"; "T"; "RX"; "RY"; "RZ"; "CNOT"; "MEASURE"] ->
          exists j, translate_json_ionq (single_gate_circuit n) = Return j).
Proof.
  split; [simpl; tauto|]. split; [reflexivity|].
  intros H. destruct (H "MEASURE") as [j Hj]; [simpl; tauto|].
  discriminate Hj.
Qed.

End IonQFacts.

(* ================================================================= *)
(** ** The constructor *)

Section InitFacts.
Variable env : Env.

(** C4.  For a registered target, [__init__] validates in this order: a
    noise model given to a backend whose descriptor has no noisy simulation
    raises the first error; otherwise a null [n_shots] together with a
    descriptor without state vector, or with a noise model, raises the
    second.  In both cases the world is as it was: no backend was called. *)
Theorem init_validation (target : string) (t : Target) (shots : option nat)
    (noise_model : option NoiseModel) (w : World env) :
  target_of_string target = Return t ->
  (noise_model <> None ->
   info_noisy_simulation (backend_info t) = false ->
   __init__ env target shots noise_model w =
   (Raise (ValueError "Target backend does not support noise models."), w))
  /\
  (~ (noise_model <> None /\ info_noisy_simulation (backend_info t) = false) ->
   shots = None ->
   info_statevector_available (backend_info t) = false \/ noise_model <> None ->
   __init__ env target shots noise_model w =
   (Raise (ValueError "A number of shots needs to be specified."), w)).
Proof.
  intros Ht. unfold __init__, bind, lift. rewrite Ht. cbn [lift].
  split.
  - intros Hn Hs. simpl. rewrite Hs.
    destruct noise_model; [reflexivity | congruence].
  - intros Hnot -> Hor. simpl.
    destruct noise_model as [m|]; simpl.
    + destruct (info_noisy_simulation (backend_info t)) eqn:Hs; simpl.
      * rewrite orb_true_r. reflexivity.
      * exfalso. apply Hnot. split; congruence.
    + destruct Hor as [Hsv | Hn]; [|congruence].
      rewrite Hsv. reflexivity.
Qed.

Lemma init_Return (target : string) (shots : option nat)
    (noise_model : option NoiseModel) (w w' : World env) (self : Simulator) :
  __init__ env target shots noise_model w = (Return self, w') ->
  exists t,
    target_of_string target = Return t
    /\ self = mkSimulator "abstract" t noise_model shots 1e-10%float
                (info_statevector_available (backend_info t))
                (info_statevector_order (backend_info t))
                (info_noisy_simulation (backend_info t))
    /\ (truthy_noise noise_model && negb (info_noisy_simulation (backend_info t))) = false
    /\ (not_shots shots
        && (negb (info_statevector_available (backend_info t))
            || truthy_noise noise_model)) = false
    /\ w' = w.
Proof.
  unfold __init__, bind, lift.
  destruct (target_of_string target) as [t|e]; [|discriminate].
  cbn [_noise_model noisy_simulation n_shots statevector_available].
  intros H. exists t.
  destruct (truthy_noise noise_model && negb _) eqn:H1; [discriminate|].
  destruct (not_shots shots && _) eqn:H2; [discriminate|].
  unfold ret in H. inversion H. auto.
Qed.

End InitFacts.

(** C4 at concrete arguments: a noise model on projectq, and no shot count on
    qdk. *)
Lemma init_validation_witness :
  __init__ Demo.env "projectq" (Some 5) (Some (noise_model_object 0)) Demo.world0 =
  (Raise (ValueError "Target backend does not support noise models."), Demo.world0)
  /\ __init__ Demo.env "qdk" None None Demo.world0 =
     (Raise (ValueError "A number of shots needs to be specified."), Demo.world0).
Proof.
  split.
  - apply (init_validation Demo.env "projectq" projectq (Some 5)
             (Some (noise_model_object 0)) Demo.world0 eq_refl);
      [discriminate | reflexivity].
  - apply (init_validation Demo.env "qdk" qdk None None Demo.world0 eq_refl).
    + intros [H _]. apply H. reflexivity.
    + reflexivity.
    + left. reflexivity.
Defined.

(* ================================================================= *)
(** ** The expectation value of one term *)

(** C2 is what the specification asks for; the code does otherwise.  With an
    empty table the method does not raise: it hands the [ValueError] object
    back as its return value, for every term. *)
Theorem oneterm_empty_table_returns_the_exception (term : Term) :
  get_expectation_value_from_frequencies_oneterm term [] =
  Return (OnetermExn (ValueError "Must pass a non-empty dictionary of frequencies.")).
Proof. reflexivity. Qed.

Section OnetermFacts.
Import OnetermSpec.

Lemma list_setitem_mask (P : nat -> bool) (n : nat) :
  forall a idx,
    idx < n ->
    list_setitem (map (fun i => str_bit (P i)) (seq a n)) idx "1" =
    Return (map (fun i => str_bit (Nat.eqb (a + idx) i || P i)) (seq a n)).
Proof.
  induction n as [|n IH]; intros a idx Hlt; [lia|].
  cbn [seq map list_setitem]. destruct idx as [|idx].
  - rewrite Nat.add_0_r, Nat.eqb_refl. cbn [orb str_bit]. f_equal. f_equal.
    apply map_ext_in. intros i Hi. apply in_seq in Hi.
    replace (Nat.eqb a i) with false; [reflexivity|].
    symmetry. apply Nat.eqb_neq. lia.
  - rewrite (IH (S a) idx) by lia. cbn [bindR].
    replace (Nat.eqb (a + S idx) a) with false
      by (symmetry; apply Nat.eqb_neq; lia).
    cbn [orb]. f_equal. f_equal. apply map_ext. intros i.
    now replace (S a + idx) with (a + S idx) by lia.
Qed.

Lemma term_mask_loop_spec (n : nat) (term : Term) :
  forall P,
    (forall f, In f term -> fst f < n) ->
    term_mask_loop term (map (fun i => str_bit (P i)) (seq 0 n)) =
    Return (map (fun i =>
                   str_bit (existsb (fun f : nat * Pauli => Nat.eqb (fst f) i) term
                            || P i))
                (seq 0 n)).
Proof.
  induction term as [|[index op] rest IH]; intros P Hlt; simpl.
  - reflexivity.
  - rewrite (list_setitem_mask P n 0 index) by (apply (Hlt (index, op)); now left).
    cbn [bindR Nat.add]. rewrite (IH (fun i => Nat.eqb index i || P i))
      by (intros f Hf; apply Hlt; now right).
    f_equal. apply map_ext. intros i. f_equal.
    destruct (Nat.eqb index i), (existsb _ rest); reflexivity.
Qed.

Lemma repeat_zero_mask (n : nat) :
  List.repeat "0" n = map (fun i : nat => str_bit false) (seq 0 n).
Proof.
  generalize 0. induction n as [|n IH]; intros a; simpl; [reflexivity|].
  now rewrite (IH (S a)).
Qed.

Lemma join_bits (b : bool) (m : list bool) :
  PyStr.join (map str_bit (b :: m)) =
  String (if b then "1"%char else "0"%char) (PyStr.join (map str_bit m)).
Proof.
  unfold PyStr.join. simpl. destruct m as [|b' m]; destruct b; reflexivity.
Qed.

Lemma bitarray_of_mask (m : list bool) :
  Bitarray.of_string (PyStr.join (map str_bit m)) = Return m.
Proof.
  induction m as [|b m IH]; [reflexivity|].
  rewrite join_bits. destruct b; simpl; rewrite IH; reflexivity.
Qed.

Lemma bitarray_of_bitstring (k : string) :
  is_bitstring k = true -> Bitarray.of_string k = Return (bits_of k).
Proof.
  induction k as [|c r IH]; simpl; [reflexivity|]. intros H.
  apply andb_true_iff in H. destruct H as [Hc Hr]. rewrite (IH Hr).
  destruct (Ascii.eqb c "0") eqn:H0.
  - apply Ascii.eqb_eq in H0. subst c. reflexivity.
  - simpl in Hc. rewrite Hc. reflexivity.
Qed.

Lemma bits_of_length (k : string) : List.length (bits_of k) = String.length k.
Proof. induction k; simpl; congruence. Qed.

Lemma float_of_parity (c : nat) :
  float_of_int ((-1) ^ Z.of_nat (c mod 2)) =
  if Nat.even c then 1%float else (-1)%float.
Proof.
  assert (He : Nat.even c = Nat.even (c mod 2)).
  { rewrite (Nat.div_mod_eq c 2) at 1.
    rewrite Nat.even_add, Nat.even_mul. cbn [Nat.even orb].
    now destruct (Nat.even (c mod 2)). }
  rewrite He.
  assert (H : c mod 2 < 2) by (apply Nat.mod_upper_bound; lia).
  destruct (c mod 2) as [|[|k]]; [reflexivity | reflexivity | lia].
Qed.

Lemma sample_sign_spec (m : list bool) (k : string) :
  is_bitstring k = true ->
  String.length k = List.length m ->
  bindR (sample_sign (PyStr.join (map str_bit m)) k)
        (fun z => Return (float_of_int z)) =
  Return (parity_sign m (bits_of k)).
Proof.
  intros Hk Hlen. unfold sample_sign.
  rewrite bitarray_of_mask, (bitarray_of_bitstring k Hk). cbn [bindR].
  unfold Bitarray.and. rewrite bits_of_length, Hlen, Nat.eqb_refl. cbn [bindR].
  now rewrite float_of_parity.
Qed.

Lemma oneterm_loop_spec (m : list bool) (items : list (string * float)) :
  forall acc,
    (forall k, In k (dict_keys items) ->
               is_bitstring k = true /\ String.length k = List.length m) ->
    oneterm_loop (PyStr.join (map str_bit m)) items acc =
    Return (fold_left (fun acc kf =>
                         PrimFloat.add acc
                           (PrimFloat.mul (parity_sign m (bits_of (fst kf))) (snd kf)))
                      items acc).
Proof.
  induction items as [|[k f] rest IH]; intros acc Hk; simpl; [reflexivity|].
  destruct (Hk k (or_introl eq_refl)) as [Hb Hl].
  pose proof (sample_sign_spec m k Hb Hl) as Hs.
  destruct (sample_sign _ k) as [z|e]; simpl in Hs; [|discriminate].
  simpl. injection Hs as Hs. rewrite Hs.
  apply IH. intros k' Hk'. apply Hk. now right.
Qed.

(** C8, within the inputs the method works on.  For a term whose qubit
    indices are all below the width of the bitstrings, and a non-empty
    table whose keys are bitstrings of one width, the method returns the
    sum over the table of (+1 if the AND of the term mask with the
    bitstring has an even number of ones, else -1) times the frequency. *)
Theorem oneterm_signed_parity_sum (term : Term) (frequencies : Frequencies)
    (key0 : string) :
  hd_error (dict_keys frequencies) = Some key0 ->
  (forall f, In f term -> fst f < String.length key0) ->
  (forall k, In k (dict_keys frequencies) ->
             is_bitstring k = true /\ String.length k = String.length key0) ->
  get_expectation_value_from_frequencies_oneterm term frequencies =
  Return (OnetermFloat (signed_parity_sum term (String.length key0) frequencies)).
Proof.
  intros Hhd Hterm Hkeys. unfold get_expectation_value_from_frequencies_oneterm.
  destruct (dict_keys frequencies) as [|k0 ks] eqn:Hd; [discriminate|].
  injection Hhd as ->.
  rewrite repeat_zero_mask, (term_mask_loop_spec _ term (fun _ => false) Hterm).
  cbn [bindR].
  rewrite (map_ext _ (fun i => str_bit (existsb (fun f : nat * Pauli => Nat.eqb (fst f) i) term)))
    by (intros i; now rewrite orb_false_r).
  rewrite <- (map_map (fun i => existsb (fun f : nat * Pauli => Nat.eqb (fst f) i) term) str_bit).
  fold (term_mask term (String.length key0)).
  rewrite oneterm_loop_spec.
  - reflexivity.
  - intros k Hk. rewrite Hd in Hk. destruct (Hkeys k Hk) as [Hb Hl].
    split; [assumption|]. unfold term_mask.
    now rewrite length_map, length_seq.
Qed.

End OnetermFacts.

(** C8 at a concrete table. *)
Lemma oneterm_signed_parity_sum_witness :
  get_expectation_value_from_frequencies_oneterm [(0, PauliZ)]
    [("00", 0.5%float); ("11", 0.25%float); ("10", 0.125%float)] =
  Return (OnetermFloat 0.125%float).
Proof.
  apply (oneterm_signed_parity_sum [(0, PauliZ)]
           [("00", 0.5%float); ("11", 0.25%float); ("10", 0.125%float)] "00" eq_refl).
  - intros f [<-|[]]. simpl. lia.
  - simpl. intros k [<-|[<-|[<-|[]]]]; split; reflexivity.
Defined.

(** C8 as stated fails on a term that names a qubit beyond the bitstrings:
    the method raises [IndexError] when it fills the mask. *)
Lemma oneterm_index_beyond_width :
  get_expectation_value_from_frequencies_oneterm [(2, PauliZ)] [("00", 1%float)] =
  Raise (IndexError "list assignment index out of range")
  /\ ~ (forall term frequencies,
          frequencies <> [] ->
          exists x, get_expectation_value_from_frequencies_oneterm term frequencies =
                    Return (OnetermFloat x)).
Proof.
  split; [reflexivity|].
  intros H. destruct (H [(2, PauliZ)] [("00", 1%float)]) as [x Hx]; discriminate.
Qed.


(* ================================================================= *)
(** ** simulate: the empty circuit and the backend without state vector *)

Lemma pow2_pos (n : nat) : 0 < 2 ^ n.
Proof. induction n; simpl; lia. Qed.

Lemma pow2_to_nat (n : nat) : N.to_nat (2 ^ N.of_nat n) = 2 ^ n.
Proof. now rewrite N2Nat.inj_pow, Nat2N.id. Qed.

Lemma np_zeros_allocates (env : Env) (itemsize n : N) (zero : PyNum) :
  np_allocates env itemsize n = true ->
  np_zeros env itemsize n zero = Return (List.repeat zero (N.to_nat n)).
Proof.
  unfold np_allocates, np_zeros. intros H.
  apply andb_true_iff in H. destruct H as [Hlt Halloc].
  apply N.ltb_lt in Hlt.
  destruct (N.leb_spec (2 ^ 63) n) as [Hle|_]; [lia|].
  destruct (np_alloc_error env itemsize n); [discriminate|reflexivity].
Qed.


(** The all-zero state of [w] qubits, when numpy makes the array. *)
Lemma zero_state_spec (env : Env) (itemsize : N) (w : nat) (zero one : PyNum) :
  np_allocates env itemsize (2 ^ N.of_nat w) = true ->
  zero_state env itemsize (2 ^ N.of_nat w) zero one =
  Return (one :: List.repeat zero (2 ^ w - 1)).
Proof.
  intros H. unfold zero_state. rewrite (np_zeros_allocates _ _ _ _ H).
  cbn [bindR]. rewrite pow2_to_nat. pose proof (pow2_pos w) as Hpos.
  destruct (2 ^ w) as [|n]; [lia|].
  simpl. now rewrite Nat.sub_0_r.
Qed.


Lemma size_0_not_mixed (c : Circuit) : size c = 0 -> is_mixed_state c = false.
Proof.
  unfold size, is_mixed_state. destruct (_gates c); [reflexivity | discriminate].
Qed.

Section SimulateFacts.
Variable env : Env.

(** The fast path of lines 97-101 is what a circuit without gates and of
    positive width gets, for any simulator object whatever. *)
Lemma simulate_fast_path_run (self : Simulator) (c : Circuit) (return_statevector : bool)
    (initial_statevector : option PySeq) (w : World env) :
  size c = 0 ->
  0 < width c ->
  simulate env self c return_statevector initial_statevector w =
  (bindR (zero_state env 8 (2 ^ N.of_nat (width c)) (PyFloat 0) (PyFloat 1))
     (fun statevector =>
        Return (with_statevector return_statevector
                  [(PyStr.repeat "0" (width c), 1%float)] (NdArray statevector))),
   w).
Proof.
  intros Hsize Hwidth. unfold simulate.
  rewrite (size_0_not_mixed c Hsize), Hsize. cbn [andb].
  destruct (Nat.eqb_spec (width c) 0) as [H0|_]; [lia|].
  cbn [Nat.eqb]. unfold bind, lift, ret.
  destruct (zero_state env 8 (2 ^ N.of_nat (width c)) (PyFloat 0) (PyFloat 1));
    reflexivity.
Qed.

Lemma simulate_fast_path (self : Simulator) (c : Circuit) (return_statevector : bool)
    (initial_statevector : option PySeq) (w : World env) :
  size c = 0 ->
  0 < width c ->
  np_allocates env 8 (2 ^ N.of_nat (width c)) = true ->
  simulate env self c return_statevector initial_statevector w =
  (Return ([(PyStr.repeat "0" (width c), 1%float)],
           if return_statevector
           then Some (NdArray (PyFloat 1 :: List.repeat (PyFloat 0) (2 ^ width c - 1)))
           else None),
   w).
Proof.
  intros Hsize Hwidth Halloc.
  rewrite (simulate_fast_path_run self c _ _ w Hsize Hwidth).
  rewrite (zero_state_spec env 8 (width c) _ _ Halloc). cbn [bindR].
  unfold with_statevector. now destruct return_statevector.
Qed.



Lemma simulate_qdk_statevector (self : Simulator) (c : Circuit) (rs : bool)
    (isv : option PySeq) (w w' : World env) f sv :
  simulate_qdk env self c rs isv w = (Return (f, sv), w') -> sv = None.
Proof.
  unfold simulate_qdk. intros H.
  repeat (apply bind_Return in H; destruct H as (? & ? & _ & H)).
  apply ret_Return in H. destruct H as [H _]. now inversion H.
Qed.

End SimulateFacts.



(** C9 fails on the empty circuit: the simulator that [__init__] builds for
    qdk, whose descriptor has no state vector, returns one when asked. *)
Lemma qdk_empty_circuit_returns_statevector :
  fst (__init__ Demo.env "qdk" (Some 10) None Demo.world0) = Return (Demo.sim qdk (Some 10))
  /\ statevector_available (Demo.sim qdk (Some 10)) = false
  /\ fst (simulate Demo.env (Demo.sim qdk (Some 10)) Demo.empty_circuit true None Demo.world0)
     = Return ([("0", 1%float)], Some (NdArray [PyFloat 1; PyFloat 0])).
Proof. repeat split. Qed.

(* ================================================================= *)
(** ** get_expectation_value: the check of the terms and what it writes *)

Lemma pauli_eqb_eq (p q : Pauli) : pauli_eqb p q = true <-> p = q.
Proof. destruct p, q; simpl; split; congruence. Qed.

Lemma term_eqb_eq (s t : Term) : term_eqb s t = true <-> s = t.
Proof.
  revert t. induction s as [|[i p] s IH]; intros [|[j q] t]; simpl;
    try (split; congruence).
  rewrite !andb_true_iff, Nat.eqb_eq, pauli_eqb_eq, IH.
  split; [intros [[-> ->] ->]; reflexivity | intros H; inversion H; auto].
Qed.

(** Assigning to a key that is in the dictionary changes that entry only. *)
Lemma dict_set_present {V} (k : Term) (v v0 : V) (pre post : dict Term V) :
  ~ In k (dict_keys pre) ->
  dict_set term_eqb k v (pre ++ (k, v0) :: post)%list = (pre ++ (k, v) :: post)%list.
Proof.
  induction pre as [|[k' v'] pre IH]; intros Hnot; simpl.
  - replace (term_eqb k k) with true by (symmetry; now apply term_eqb_eq).
    reflexivity.
  - destruct (term_eqb k' k) eqn:Heq.
    + apply term_eqb_eq in Heq. subst k'. exfalso. apply Hnot. now left.
    + rewrite IH; [reflexivity|]. intros Hin. apply Hnot. now right.
Qed.

Lemma width_check_loop_pass (w : nat) (post : OpTerms) :
  forall pre : OpTerms,
    NoDup (dict_keys (pre ++ post)%list) ->
    (forall tc, In tc post -> List.length (fst tc) <= w) ->
    width_check_loop w (List.length pre) (List.length post)
      (map realified pre ++ post)%list =
    (Return tt, map realified (pre ++ post)%list).
Proof.
  induction post as [|[term coef] rest IH]; intros pre Hnodup Hpass.
  - simpl. now rewrite !app_nil_r.
  - cbn [List.length width_check_loop].
    replace (List.length pre) with (List.length (map realified pre) + 0)
      by (rewrite length_map; lia).
    rewrite nth_error_app2 by lia.
    replace (List.length (map realified pre) + 0 - List.length (map realified pre)) with 0 by lia.
    cbn [nth_error].
    assert (Hlen : List.length term <= w) by exact (Hpass (term, coef) (or_introl eq_refl)).
    destruct (Nat.ltb_spec w (List.length term)) as [Hlt|_]; [lia|].
    rewrite dict_set_present.
    + specialize (IH (pre ++ [(term, coef)])%list).
      rewrite <- app_assoc in IH. cbn [app] in IH.
      rewrite map_app, <- app_assoc in IH. cbn [map app] in IH.
      rewrite length_app in IH. cbn [List.length] in IH.
      rewrite length_map, Nat.add_0_r.
      replace (List.length pre + 1) with (S (List.length pre)) in IH by lia.
      unfold realified at 2 in IH. cbn [fst snd] in IH.
      apply IH; [exact Hnodup|]. intros tc Htc. apply Hpass. now right.
    + unfold dict_keys in *. rewrite map_map. cbn [realified fst].
      rewrite map_app in Hnodup. cbn [map fst] in Hnodup.
      apply NoDup_remove_2 in Hnodup. intros Hin. apply Hnodup.
      apply in_or_app. now left.
Qed.

Section ExpectationFacts.
Variable env : Env.

(** C10.  The operator's [terms] dictionary is the caller's own (its keys are
    distinct, as in any dictionary).  When every term passes the check of
    line 256, the dictionary that the call leaves behind has, for every
    term, the real part of the coefficient it had; this holds whether the
    rest of the call returns or raises. *)
Theorem get_expectation_value_overwrites_coefficients (self : Simulator)
    (qubit_operator : OpTerms) (state_prep_circuit : Circuit) (w : World env) :
  NoDup (dict_keys qubit_operator) ->
  (forall tc, In tc qubit_operator ->
              List.length (fst tc) <= width state_prep_circuit) ->
  snd (fst (get_expectation_value env self qubit_operator state_prep_circuit w)) =
  map (fun tc => (fst tc, real (snd tc))) qubit_operator.
Proof.
  intros Hnodup Hpass. unfold get_expectation_value.
  pose proof (width_check_loop_pass (width state_prep_circuit) qubit_operator []
                Hnodup Hpass) as Hloop.
  cbn [app map List.length] in Hloop. rewrite Hloop.
  match goal with |- context [let (r, w') := ?s w in _] => destruct (s w) end.
  reflexivity.
Qed.

End ExpectationFacts.

(** C10 on an operator with two complex coefficients, run on the qdk
    simulator. *)
Lemma get_expectation_value_overwrites_coefficients_witness :
  snd (fst (get_expectation_value Demo.env (Demo.sim qdk (Some 10))
              [([(0, PauliZ)], PyComplex 1 0.5);
               ([(0, PauliZ); (1, PauliZ)], PyComplex 2 0.25)]
              Demo.x_circuit Demo.world0)) =
  [([(0, PauliZ)], PyFloat 1); ([(0, PauliZ); (1, PauliZ)], PyFloat 2)].
Proof.
  apply (get_expectation_value_overwrites_coefficients Demo.env (Demo.sim qdk (Some 10))
           [([(0, PauliZ)], PyComplex 1 0.5);
            ([(0, PauliZ); (1, PauliZ)], PyComplex 2 0.25)]
           Demo.x_circuit Demo.world0).
  - simpl. constructor; [|constructor; [|constructor]]; simpl.
    + intros [H|[]]. discriminate H.
    + intros [].
  - simpl. intros tc [<-|[<-|[]]]; simpl; lia.
Defined.

(** C1 is what the specification, and the comment on line 253, ask for; the
    code checks something else.  The check of line 256 compares the width
    with the number of factors of the term, so a term with one factor passes
    on any circuit with at least one qubit, whatever qubit the factor is on.
    The operator below acts on qubit 5, the circuit has 2 qubits: no
    [ValueError] is raised, the coefficient is overwritten, the circuit is
    sent to the backend, and the call ends in the [IndexError] of the mask
    assignment. *)
Theorem width_check_misses_qubit_index :
  (forall (index w : nat) (p : Pauli) (coef : PyNum),
      width_check_loop (S w) 0 1 [([(index, p)], coef)] =
      (Return tt, [([(index, p)], real coef)]))
  /\
  (let out := get_expectation_value Demo.env (Demo.sim qdk (Some 10))
                [([(5, PauliZ)], PyComplex 1 0.5)] Demo.x_circuit Demo.world0 in
   width Demo.x_circuit = 2
   /\ fst (fst out) = Raise (IndexError "list assignment index out of range")
   /\ snd (fst out) = [([(5, PauliZ)], PyFloat 1)]
   /\ calls (snd out) =
      [call_of (TranslateQsharp Demo.x_circuit);
       call_of (WriteFile "tmp_circuit.qs" "namespace MyNamespace { }");
       call_of QsharpReload;
       call_of (QsharpEstimateFrequencies 2 (Some 10))]).
Proof.
  split.
  - intros index w p coef. cbn [width_check_loop nth_error List.length].
    replace (S w <? 1)%nat with false by (symmetry; apply Nat.ltb_ge; lia).
    cbn [dict_set].
    replace (term_eqb [(index, p)] [(index, p)]) with true
      by (symmetry; now apply term_eqb_eq).
    reflexivity.
  - vm_compute. repeat split.
Qed.

(* ================================================================= *)
(** ** Binary text: [bin], [int] and the reversal *)

Section BinaryFacts.
Import OnetermSpec NormalizerSpec.

Lemma is_bitstring_app (s t : string) :
  is_bitstring (s ++ t) = is_bitstring s && is_bitstring t.
Proof.
  induction s as [|c s IH]; simpl; [reflexivity|].
  now rewrite IH, andb_assoc.
Qed.

Lemma is_bitstring_pos_digits (p : positive) : is_bitstring (pos_digits p) = true.
Proof.
  induction p as [p IH|p IH|]; simpl; try reflexivity;
    now rewrite is_bitstring_app, IH.
Qed.

Lemma is_bitstring_digits (i : nat) : is_bitstring (digits i) = true.
Proof.
  unfold digits. destruct (N.of_nat i); [reflexivity|apply is_bitstring_pos_digits].
Qed.

Lemma split_bitstring (s : string) :
  is_bitstring s = true -> PyStr.split "b" s = [s].
Proof.
  induction s as [|c s IH]; simpl; [reflexivity|]. intros H.
  apply andb_true_iff in H. destruct H as [Hc Hs].
  rewrite (IH Hs).
  destruct (Ascii.eqb c "b") eqn:Hb; [|reflexivity].
  apply Ascii.eqb_eq in Hb. subst c. discriminate Hc.
Qed.

(** [bin(i).split('b')[-1]] is the digits of [i]. *)
Lemma split_bin (i : nat) : PyStr.last (PyStr.split "b" (bin i)) = digits i.
Proof.
  unfold bin. fold (digits i). cbn [append PyStr.split].
  replace (Ascii.eqb "0" "b") with false by reflexivity.
  replace (Ascii.eqb "b" "b") with true by reflexivity.
  rewrite (split_bitstring (digits i) (is_bitstring_digits i)). reflexivity.
Qed.

Lemma int2_acc_app (s t : string) :
  forall acc, int2_acc (s ++ t) acc = bindR (int2_acc s acc) (int2_acc t).
Proof.
  induction s as [|c s IH]; intros acc; [reflexivity|].
  cbn [append int2_acc].
  destruct (Ascii.eqb c "0"); [apply IH|].
  destruct (Ascii.eqb c "1"); [apply IH|reflexivity].
Qed.

Lemma int2_acc_pos_digits (p : positive) :
  int2_acc (pos_digits p) 0 = Return (Pos.to_nat p).
Proof.
  induction p as [p IH|p IH|]; cbn [pos_digits]; [| |reflexivity];
    rewrite int2_acc_app, IH; cbn [bindR int2_acc];
    [ replace (Ascii.eqb "1" "0") with false by reflexivity;
      replace (Ascii.eqb "1" "1") with true by reflexivity
    | replace (Ascii.eqb "0" "0") with true by reflexivity ];
    f_equal; lia.
Qed.

Lemma int2_acc_digits (i : nat) : int2_acc (digits i) 0 = Return i.
Proof.
  unfold digits. destruct (N.of_nat i) as [|p] eqn:H.
  - cbn. f_equal. lia.
  - rewrite int2_acc_pos_digits. f_equal. lia.
Qed.

Lemma int2_acc_zeros (k : nat) : int2_acc (PyStr.repeat "0" k) 0 = Return 0.
Proof.
  induction k as [|k IH]; [reflexivity|].
  cbn [PyStr.repeat append int2_acc].
  replace (Ascii.eqb "0" "0") with true by reflexivity. exact IH.
Qed.

Lemma digits_nonempty (i : nat) : digits i <> "".
Proof.
  unfold digits. destruct (N.of_nat i) as [|p]; [discriminate|].
  destruct p; simpl; try discriminate;
    destruct (pos_digits p); discriminate.
Qed.

(** [int(s, 2)] reads back the index from its zero-padded digits. *)
Lemma int2_padded (n i : nat) : int2 (padded n i) = Return i.
Proof.
  unfold int2. destruct (padded n i) eqn:Hp.
  - exfalso. unfold padded in Hp.
    destruct (PyStr.repeat "0" (n - String.length (digits i)));
      [|discriminate].
    exact (digits_nonempty i Hp).
  - rewrite <- Hp. unfold padded.
    rewrite int2_acc_app, int2_acc_zeros. cbn [bindR]. apply int2_acc_digits.
Qed.

Lemma rev_involutive (s : string) : PyStr.rev (PyStr.rev s) = s.
Proof.
  unfold PyStr.rev.
  now rewrite list_ascii_of_string_of_list_ascii, List.rev_involutive,
    string_of_list_ascii_of_string.
Qed.

(** The method computes what the specification describes. *)
Lemma int_to_binstr_normalized (self : Simulator) (i n : nat) :
  __int_to_binstr self i n = normalized (statevector_order self) n i.
Proof.
  unfold __int_to_binstr, normalized, is_msq_first, padded.
  rewrite split_bin. destruct (statevector_order self) as [o|]; reflexivity.
Qed.

Lemma normalized_inj (order : option string) (n i j : nat) :
  normalized order n i = normalized order n j -> i = j.
Proof.
  unfold normalized. intros H.
  assert (Hp : padded n i = padded n j).
  { destruct (is_msq_first order); [|exact H].
    rewrite <- (rev_involutive (padded n i)), H. apply rev_involutive. }
  pose proof (int2_padded n i) as Hi. rewrite Hp, int2_padded in Hi.
  now inversion Hi.
Qed.

Lemma int_to_binstr_inj (self : Simulator) (n i j : nat) :
  __int_to_binstr self i n = __int_to_binstr self j n -> i = j.
Proof. rewrite !int_to_binstr_normalized. apply normalized_inj. Qed.

(** With the order msq_first, line 430 recovers the index from the key. *)
Lemma int2_rev_key (self : Simulator) (n i : nat) :
  statevector_order self = Some "msq_first" ->
  int2 (PyStr.rev (__int_to_binstr self i n)) = Return i.
Proof.
  intros Ho. rewrite int_to_binstr_normalized, Ho. unfold normalized.
  replace (is_msq_first (Some "msq_first")) with true by reflexivity.
  rewrite rev_involutive. apply int2_padded.
Qed.

End BinaryFacts.

(* ================================================================= *)
(** ** Dictionaries and counters *)

Section DictFacts.
Variables (K V : Type) (eqb : K -> K -> bool).
Hypothesis eqb_eq : forall a b, eqb a b = true <-> a = b.

Lemma dict_set_fresh (k : K) (v : V) (d : dict K V) :
  ~ In k (dict_keys d) -> dict_set eqb k v d = (d ++ [(k, v)])%list.
Proof.
  induction d as [|[k' v'] d IH]; intros Hnot; simpl; [reflexivity|].
  destruct (eqb k' k) eqn:Heq.
  - apply eqb_eq in Heq. subst k'. exfalso. apply Hnot. now left.
  - rewrite IH; [reflexivity|]. intros Hin. apply Hnot. now right.
Qed.

Lemma dict_set_keys (k k' : K) (v : V) (d : dict K V) :
  In k' (dict_keys (dict_set eqb k v d)) -> k' = k \/ In k' (dict_keys d).
Proof.
  induction d as [|[k0 v0] d IH]; simpl.
  - intros [H|[]]. now left.
  - destruct (eqb k0 k); simpl; intros [H|H]; auto.
    destruct (IH H); auto.
Qed.

Lemma dict_get_in (k : K) (v : V) (d : dict K V) :
  NoDup (dict_keys d) -> In (k, v) d -> dict_get eqb k d = Some v.
Proof.
  induction d as [|[k0 v0] d IH]; simpl; intros Hnd Hin; [contradiction|].
  inversion Hnd as [|? ? Hnot Hnd']; subst.
  destruct Hin as [Heq|Hin].
  - inversion Heq; subst.
    replace (eqb k k) with true by (symmetry; now apply eqb_eq). reflexivity.
  - destruct (eqb k0 k) eqn:Heq.
    + apply eqb_eq in Heq. subst k0. exfalso. apply Hnot.
      apply (in_map fst) in Hin. exact Hin.
    + now apply IH.
Qed.

Lemma dict_comp_keys {X} (key : X -> K) (val : X -> V) (xs : list X) (k : K) :
  In k (dict_keys (dict_comp eqb key val xs)) -> exists x, In x xs /\ k = key x.
Proof.
  unfold dict_comp.
  assert (H : forall d,
             In k (dict_keys (fold_left (fun d x => dict_set eqb (key x) (val x) d) xs d)) ->
             In k (dict_keys d) \/ exists x, In x xs /\ k = key x).
  { induction xs as [|x xs IH]; intros d Hin; simpl in Hin; [now left|].
    destruct (IH _ Hin) as [Hd|(y & Hy & ->)].
    - destruct (dict_set_keys _ _ _ _ Hd) as [->|Hd']; [|now left].
      right. exists x. split; [now left|reflexivity].
    - right. exists y. split; [now right|reflexivity]. }
  intros Hin. destruct (H [] Hin) as [[]|Hx]. exact Hx.
Qed.

Lemma counter_add_keys (k : K) (d : dict K nat) :
  NoDup (dict_keys d) -> NoDup (dict_keys (counter_add eqb k d)).
Proof.
  assert (Hin : forall d k', In k' (dict_keys (counter_add eqb k d)) ->
                            k' = k \/ In k' (dict_keys d)).
  { clear d. induction d as [|[k0 c] d IH]; simpl; intros k'.
    - intros [H|[]]. now left.
    - destruct (eqb k0 k); simpl; intros [H|H]; auto.
      destruct (IH _ H); auto. }
  induction d as [|[k0 c] d IH]; simpl; intros Hnd.
  - constructor; [intros []|constructor].
  - inversion Hnd as [|? ? Hnot Hnd']; subst.
    destruct (eqb k0 k) eqn:Heq; simpl.
    + constructor; assumption.
    + constructor; [|now apply IH].
      intros H. destruct (Hin _ _ H) as [->|H']; [|contradiction].
      assert (Hk : eqb k k = true) by now apply eqb_eq. congruence.
Qed.

Lemma Counter_keys (samples : list K) : NoDup (dict_keys (Counter eqb samples)).
Proof.
  unfold Counter.
  assert (H : forall d, NoDup (dict_keys d) ->
                        NoDup (dict_keys (fold_left (fun d k => counter_add eqb k d) samples d))).
  { induction samples as [|s samples IH]; intros d Hd; simpl; [exact Hd|].
    apply IH. now apply counter_add_keys. }
  apply H. constructor.
Qed.

End DictFacts.

Lemma NoDup_map_filter_fst {A B} (P : A * B -> bool) (l : list (A * B)) :
  NoDup (map fst l) -> NoDup (map fst (filter P l)).
Proof.
  induction l as [|x l IH]; simpl; intros Hnd; [constructor|].
  inversion Hnd as [|? ? Hnot Hnd']; subst.
  destruct (P x); simpl; [|now apply IH].
  constructor; [|now apply IH].
  intros Hin. apply Hnot. apply in_map_iff in Hin. destruct Hin as (y & Hy & Hin).
  apply filter_In in Hin. destruct Hin as [Hin _].
  rewrite <- Hy. now apply in_map.
Qed.

Lemma NoDup_map_inj {A B} (f : A -> B) (l : list A) :
  (forall a b, f a = f b -> a = b) -> NoDup l -> NoDup (map f l).
Proof.
  intros Hinj. induction l as [|x l IH]; simpl; intros Hnd; [constructor|].
  inversion Hnd as [|? ? Hnot Hnd']; subst.
  constructor; [|now apply IH].
  intros Hin. apply in_map_iff in Hin. destruct Hin as (y & Hy & Hin).
  apply Hinj in Hy. subst y. contradiction.
Qed.

(** A comprehension whose values all evaluate and whose keys are new and
    distinct appends one entry per item. *)
Lemma freq_comp_fresh {X} (key : X -> string) (val : X -> PyResult float)
    (v : X -> float) (xs : list X) :
  forall d,
    (forall x, In x xs -> val x = Return (v x)) ->
    NoDup (map key xs) ->
    (forall x, In x xs -> ~ In (key x) (dict_keys d)) ->
    freq_comp key val xs d = Return (d ++ map (fun x => (key x, v x)) xs)%list.
Proof.
  induction xs as [|x xs IH]; intros d Hval Hnd Hfresh; simpl.
  - now rewrite app_nil_r.
  - rewrite (Hval x (or_introl eq_refl)). cbn [bindR].
    inversion Hnd as [|? ? Hnot Hnd']; subst.
    rewrite (dict_set_fresh _ _ String.eqb String.eqb_eq)
      by (apply Hfresh; now left).
    rewrite IH.
    + now rewrite <- app_assoc.
    + intros y Hy. apply Hval. now right.
    + exact Hnd'.
    + intros y Hy Hin. unfold dict_keys in Hin. rewrite map_app in Hin.
      apply in_app_or in Hin. destruct Hin as [Hin|[Hin|[]]].
      * apply (Hfresh y); [now right|exact Hin].
      * simpl in Hin. apply Hnot. rewrite Hin. now apply in_map.
Qed.

Lemma freq_comp_keys {X} (key : X -> string) (val : X -> PyResult float)
    (xs : list X) (k : string) :
  forall d d',
    freq_comp key val xs d = Return d' ->
    In k (dict_keys d') ->
    In k (dict_keys d) \/ exists x, In x xs /\ k = key x.
Proof.
  induction xs as [|x xs IH]; intros d d' H Hin; simpl in H.
  - inversion H; subst. now left.
  - apply bindR_Return in H. destruct H as (vx & _ & H).
    destruct (IH _ _ H Hin) as [Hd|(y & Hy & ->)].
    + destruct (dict_set_keys _ _ _ _ _ _ _ Hd) as [->|Hd']; [|now left].
      right. exists x. split; [now left|reflexivity].
    + right. exists y. split; [now right|reflexivity].
Qed.

(* ================================================================= *)
(** ** The frequency normalizer *)

Section NormalizerFacts.
Import NormalizerSpec.
Variable env : Env.

Lemma map_fst_enumerate {A} (l : list A) :
  forall i, map fst (combine (seq i (List.length l)) l) = seq i (List.length l).
Proof.
  induction l as [|a l IH]; intros i; simpl; [reflexivity|]. now rewrite IH.
Qed.

Lemma retained_indices_NoDup (self : Simulator) (statevector : PySeq) :
  NoDup (map fst (retained env self statevector)).
Proof.
  unfold retained. apply NoDup_map_filter_fst.
  rewrite map_map. rewrite (map_ext _ fst) by reflexivity. unfold enumerate.
  rewrite (map_fst_enumerate (seq_items statevector) 0). apply seq_NoDup.
Qed.

Lemma exact_table_keys_NoDup (self : Simulator) (n : nat) (statevector : PySeq) :
  NoDup (dict_keys (exact_table env self n statevector)).
Proof.
  unfold dict_keys, exact_table. rewrite map_map.
  rewrite (map_ext _ (fun ip : nat * float => __int_to_binstr self (fst ip) n))
    by reflexivity.
  rewrite <- (map_map fst (fun i => __int_to_binstr self i n)).
  apply NoDup_map_inj; [|apply retained_indices_NoDup].
  intros a b. apply int_to_binstr_inj.
Qed.

(** The loop of lines 418-421 adds one entry per retained index. *)
Lemma sv_loop_exact (self : Simulator) (n : nat) (amps : list PyNum) :
  forall i frequencies,
    (forall k, In k (dict_keys frequencies) ->
               exists j, j < i /\ k = __int_to_binstr self j n) ->
    sv_loop env self n i amps frequencies =
    (frequencies ++
     map (fun ip : nat * float => (__int_to_binstr self (fst ip) n, snd ip))
         (filter (fun ip : nat * float =>
                    PrimFloat.leb 0%float (PrimFloat.sub (snd ip) (freq_threshold self)))
                 (map (fun ia : nat * PyNum => (fst ia, abs2 env (snd ia)))
                      (combine (seq i (List.length amps)) amps))))%list.
Proof.
  induction amps as [|a amps IH]; intros i frequencies Hinv.
  - simpl. now rewrite app_nil_r.
  - cbn [sv_loop List.length seq combine map filter fst snd].
    destruct (PrimFloat.leb 0%float (PrimFloat.sub (abs2 env a) (freq_threshold self))).
    + rewrite (dict_set_fresh _ _ String.eqb String.eqb_eq).
      * rewrite IH.
        -- rewrite <- app_assoc. reflexivity.
        -- intros k Hk. unfold dict_keys in Hk. rewrite map_app in Hk.
           apply in_app_or in Hk. destruct Hk as [Hk|[Hk|[]]].
           ++ destruct (Hinv k Hk) as (j & Hj & ->). exists j. split; [lia|reflexivity].
           ++ exists i. split; [lia|]. now rewrite <- Hk.
      * intros Hin. destruct (Hinv _ Hin) as (j & Hj & Heq).
        apply int_to_binstr_inj in Heq. lia.
    + apply IH. intros k Hk. destruct (Hinv k Hk) as (j & Hj & ->).
      exists j. split; [lia|reflexivity].
Qed.

Lemma sv_loop_exact_table (self : Simulator) (n : nat) (statevector : PySeq) :
  sv_loop env self n 0 (seq_items statevector) [] = exact_table env self n statevector.
Proof.
  rewrite sv_loop_exact by (intros k []). reflexivity.
Qed.

(** Lines 428-431 read the indices and the probabilities back from the exact
    table. *)
Lemma xk_pk_loop_exact (self : Simulator) (n : nat) (E : Frequencies)
    (l : list (nat * float)) :
  statevector_order self = Some "msq_first" ->
  NoDup (dict_keys E) ->
  forall xk pk,
    (forall ip, In ip l -> In (__int_to_binstr self (fst ip) n, snd ip) E) ->
    xk_pk_loop E
      (map (fun ip : nat * float => (__int_to_binstr self (fst ip) n, snd ip)) l) xk pk =
    Return ((xk ++ map fst l)%list, (pk ++ map snd l)%list).
Proof.
  intros Hmsq Hnd. induction l as [|[i p] l IH]; intros xk pk HE.
  - simpl. now rewrite !app_nil_r.
  - cbn [map xk_pk_loop fst snd].
    rewrite (int2_rev_key self n i Hmsq). cbn [bindR].
    unfold freq_getitem.
    rewrite (dict_get_in _ _ String.eqb String.eqb_eq _ p E Hnd)
      by exact (HE (i, p) (or_introl eq_refl)).
    cbn [bindR]. rewrite IH by (intros ip Hip; apply HE; now right).
    now rewrite <- !app_assoc.
Qed.

Lemma xk_pk_exact_table (self : Simulator) (n : nat) (statevector : PySeq) :
  statevector_order self = Some "msq_first" ->
  xk_pk_loop (exact_table env self n statevector)
             (exact_table env self n statevector) [] [] =
  Return (map fst (retained env self statevector),
          map snd (retained env self statevector)).
Proof.
  intros Hmsq. unfold exact_table at 2.
  rewrite (xk_pk_loop_exact self n (exact_table env self n statevector)
             (retained env self statevector) Hmsq
             (exact_table_keys_NoDup self n statevector) [] []).
  - reflexivity.
  - intros ip Hip. unfold exact_table.
    apply (in_map (fun ip : nat * float => (__int_to_binstr self (fst ip) n, snd ip))).
    exact Hip.
Qed.

(** The comprehension of line 435 is the empirical table. *)
Lemma freqs_shots_empirical (self : Simulator) (n m : nat) (samples : list nat) :
  freq_comp (fun kv : nat * nat => __int_to_binstr self (fst kv) n)
            (fun kv => div_by_shots (snd kv) (Some (S m)))
            (Counter Nat.eqb samples) [] =
  Return (empirical_table self n (S m) samples).
Proof.
  rewrite (freq_comp_fresh _ _
             (fun kv : nat * nat => PrimFloat.div (float_of_nat (snd kv))
                                                  (float_of_nat (S m)))).
  - reflexivity.
  - intros x _. reflexivity.
  - rewrite <- (map_map fst (fun i => __int_to_binstr self i n)).
    apply NoDup_map_inj; [intros a b; apply int_to_binstr_inj|].
    apply (Counter_keys _ Nat.eqb Nat.eqb_eq).
  - intros x _ [].
Qed.

(** C6, with a shot count of zero on the side of null.  Provided the shot
    count is null or zero, or the order of the backend is msq_first (as it is
    for every backend that has a state vector), the method is the amended
    normalizer: it retains exactly the basis states that pass the threshold
    test; with [n_shots] null or zero it returns their probabilities
    unchanged, without any call; with a positive [n_shots] it asks the
    sampler for that many samples from the retained indices and
    probabilities and returns count / n_shots for each index observed. *)
Theorem statevector_to_frequencies_amended (self : Simulator) (statevector : PySeq)
    (w : World env) :
  not_shots (n_shots self) = true \/ statevector_order self = Some "msq_first" ->
  _statevector_to_frequencies env self statevector w =
  amended_statevector_to_frequencies env self statevector w.
Proof.
  intros Hor.
  unfold _statevector_to_frequencies, amended_statevector_to_frequencies, draw.
  unfold bind, lift, ret.
  destruct (log2_len (seq_items statevector)) as [n|e]; [|reflexivity].
  rewrite sv_loop_exact_table.
  destruct (n_shots self) as [[|m]|] eqn:Hn; cbn [not_shots]; try reflexivity.
  destruct Hor as [Hor|Hmsq]; [discriminate|].
  rewrite (xk_pk_exact_table self n statevector Hmsq).
  destruct (call _ w) as [[samples|e] w']; [|reflexivity].
  now rewrite freqs_shots_empirical.
Qed.

End NormalizerFacts.

(** C6 on the two-qubit state vector of basis state 1 (qulacs order), exact
    and with four shots. *)
Lemma statevector_to_frequencies_amended_witness :
  fst (_statevector_to_frequencies Demo.env (Demo.sim qulacs None)
         Demo.raw_statevector Demo.world0) = Return [("10", 1%float)]
  /\ _statevector_to_frequencies Demo.env (Demo.sim qulacs (Some 4))
       Demo.raw_statevector Demo.world0 =
     (Return [("10", 1%float)],
      mkWorld Demo.env None [call_of (RvDiscreteRvs [1] [1%float] 4)] 1).
Proof.
  split.
  - rewrite (statevector_to_frequencies_amended Demo.env (Demo.sim qulacs None)
               Demo.raw_statevector Demo.world0 (or_introl eq_refl)).
    reflexivity.
  - rewrite (statevector_to_frequencies_amended Demo.env (Demo.sim qulacs (Some 4))
               Demo.raw_statevector Demo.world0 (or_intror eq_refl)).
    reflexivity.
Defined.

(** C6 as stated fails for a shot count of zero: the count is set, yet the
    method makes no draw and returns the exact table, where the
    specification's normalizer asks the sampler for zero samples and returns
    the (empty) empirical table. *)
Lemma statevector_to_frequencies_zero_shots :
  _statevector_to_frequencies Demo.env (Demo.sim qulacs (Some 0))
    Demo.raw_statevector Demo.world0 =
  (Return [("10", 1%float)], Demo.world0)
  /\ NormalizerSpec.spec_statevector_to_frequencies Demo.env (Demo.sim qulacs (Some 0))
       Demo.raw_statevector Demo.world0 =
     (Return [], mkWorld Demo.env None [call_of (RvDiscreteRvs [1] [1%float] 0)] 1)
  /\ _statevector_to_frequencies Demo.env (Demo.sim qulacs (Some 0))
       Demo.raw_statevector Demo.world0 <>
     NormalizerSpec.spec_statevector_to_frequencies Demo.env (Demo.sim qulacs (Some 0))
       Demo.raw_statevector Demo.world0.
Proof.
  split; [reflexivity|]. split; [reflexivity|]. discriminate.
Qed.

(* ================================================================= *)
(** ** Counters, and the loop of the projectq branch *)

Section KeyFacts.
Import NormalizerSpec.
Variable env : Env.

Lemma Counter_keys_in {K} (eqb : K -> K -> bool)
    (eqb_eq : forall a b, eqb a b = true <-> a = b) (samples : list K) (k : K) :
  In k (dict_keys (Counter eqb samples)) -> In k samples.
Proof.
  unfold Counter.
  assert (Hadd : forall d s k', In k' (dict_keys (counter_add eqb s d)) ->
                                k' = s \/ In k' (dict_keys d)).
  { induction d as [|[k0 c] d IH]; simpl; intros s k'.
    - intros [H|[]]. now left.
    - destruct (eqb k0 s); simpl; intros [H|H]; auto.
      destruct (IH _ _ H); auto. }
  assert (H : forall d, In k (dict_keys (fold_left (fun d s => counter_add eqb s d) samples d)) ->
                        In k (dict_keys d) \/ In k samples).
  { induction samples as [|s samples IH]; intros d Hin; simpl in Hin; [now left|].
    destruct (IH _ Hin) as [Hd|Hs]; [|right; now right].
    destruct (Hadd _ _ _ Hd) as [->|Hd']; [right; now left|now left]. }
  intros Hin. destruct (H [] Hin) as [[]|Hs]. exact Hs.
Qed.

Lemma with_statevector_fst (rs : bool) (f : Frequencies) (sv : PySeq) :
  fst (with_statevector rs f sv) = f.
Proof. unfold with_statevector. now destruct rs. Qed.

(** The loop of the projectq branch returns from inside only when the
    circuit does not measure. *)
Lemma projectq_loop_out (self : Simulator) (c : Circuit) (rs : bool)
    (isv : option PySeq) (prog : string) (eng Qureg : Obj) (zero : PySeq)
    (shots : nat) :
  forall samples w w' result,
    projectq_loop env self c rs isv prog eng Qureg zero shots samples w =
    (Return (inr result), w') ->
    is_mixed_state c = false.
Proof.
  induction shots as [|shots IH]; intros samples w w' result H.
  - apply ret_Return in H. destruct H as [H _]. discriminate H.
  - cbn [projectq_loop] in H.
    apply bind_Return in H. destruct H as (u1 & w1 & _ & H).
    apply bind_Return in H. destruct H as (u2 & w2 & _ & H).
    destruct (is_mixed_state c) eqn:Hmixed; [|reflexivity].
    apply bind_Return in H. destruct H as (u3 & w3 & _ & H).
    apply bind_Return in H. destruct H as (u4 & w4 & _ & H).
    apply bind_Return in H. destruct H as (bits & w5 & _ & H).
    apply bind_Return in H. destruct H as (t & w6 & _ & H).
    apply bind_Return in H. destruct H as (u5 & w7 & _ & H).
    exact (IH _ _ _ _ H).
Qed.

End KeyFacts.

(** C5 as stated fails in the qdk branch.  Q# reports basis state 1 of two
    qubits with frequency 1.  The descriptor of qdk declares no order (not
    msq_first), so the normalization point maps index 1 to ["01"]; the table
    that [simulate] returns has the key ["10"]: the branch did not route the
    list through the conversion. *)
Lemma qdk_keys_bypass_normalization :
  fst (__init__ Demo.env "qdk" (Some 10) None Demo.world0) = Return (Demo.sim qdk (Some 10))
  /\ statevector_order (Demo.sim qdk (Some 10)) = None
  /\ fst (handle Demo.env (QsharpEstimateFrequencies 2 (Some 10)) 3) =
     Return [0; 1; 0; 0]%float
  /\ fst (simulate Demo.env (Demo.sim qdk (Some 10)) Demo.x_circuit false None Demo.world0)
     = Return ([("10", 1%float)], None)
  /\ __int_to_binstr (Demo.sim qdk (Some 10)) 1 2 = "01"
  /\ routed_qdk_frequencies (Demo.sim qdk (Some 10)) Demo.x_circuit [0; 1; 0; 0]%float
     = [("01", 1%float)]
  /\ qdk_frequencies (Demo.sim qdk (Some 10)) Demo.x_circuit [0; 1; 0; 0]%float
     <> routed_qdk_frequencies (Demo.sim qdk (Some 10)) Demo.x_circuit [0; 1; 0; 0]%float.
Proof.
  repeat split. vm_compute. discriminate.
Qed.

(* ================================================================= *)
(** * Further properties of the code *)

(** ** The one-term routine: errors and what the result depends on *)

Section OnetermMore.
Import OnetermSpec BranchSpec.

Lemma list_setitem_out {A} (l : list A) :
  forall idx v,
    List.length l <= idx ->
    list_setitem l idx v = Raise (IndexError "list assignment index out of range").
Proof.
  induction l as [|x l IH]; intros idx v Hle; [reflexivity|].
  destruct idx as [|idx]; [simpl in Hle; lia|].
  cbn [list_setitem]. rewrite IH by (simpl in Hle; lia). reflexivity.
Qed.

(** The mask loop either sets the bits of the term or stops at the first
    index that is out of range. *)
Lemma term_mask_loop_full (n : nat) (term : Term) :
  forall P,
    term_mask_loop term (map (fun i => str_bit (P i)) (seq 0 n)) =
    if indices_in_range term n then
      Return (map (fun i =>
                     str_bit (existsb (fun f : nat * Pauli => Nat.eqb (fst f) i) term
                              || P i))
                  (seq 0 n))
    else Raise (IndexError "list assignment index out of range").
Proof.
  induction term as [|[index op] rest IH]; intros P.
  - reflexivity.
  - cbn [term_mask_loop indices_in_range forallb fst].
    destruct (Nat.ltb_spec index n) as [Hlt|Hge].
    + rewrite (list_setitem_mask P n 0 index Hlt). cbn [bindR Nat.add andb].
      rewrite (IH (fun i => Nat.eqb index i || P i)).
      fold (indices_in_range rest n).
      destruct (indices_in_range rest n); [|reflexivity].
      f_equal. apply map_ext. intros i. f_equal. cbn [existsb fst].
      destruct (Nat.eqb index i), (existsb _ rest); reflexivity.
    + rewrite list_setitem_out by (rewrite length_map, length_seq; exact Hge).
      reflexivity.
Qed.

(** The routine split into its three stages. *)
Lemma oneterm_stages (term : Term) (frequencies : Frequencies) (key0 : string) :
  hd_error (dict_keys frequencies) = Some key0 ->
  get_expectation_value_from_frequencies_oneterm term frequencies =
  if indices_in_range term (String.length key0) then
    bindR (oneterm_loop (PyStr.join (map str_bit (term_mask term (String.length key0))))
                        frequencies 0%float)
          (fun x => Return (OnetermFloat x))
  else Raise (IndexError "list assignment index out of range").
Proof.
  intros Hhd. unfold get_expectation_value_from_frequencies_oneterm.
  destruct (dict_keys frequencies) as [|k0 ks]; [discriminate|].
  injection Hhd as ->.
  rewrite repeat_zero_mask, (term_mask_loop_full _ term (fun _ => false)).
  destruct (indices_in_range term (String.length key0)); [|reflexivity].
  cbn [bindR].
  rewrite (map_ext _ (fun i => str_bit (existsb (fun f : nat * Pauli => Nat.eqb (fst f) i) term)))
    by (intros i; now rewrite orb_false_r).
  rewrite <- (map_map (fun i => existsb (fun f : nat * Pauli => Nat.eqb (fst f) i) term) str_bit).
  reflexivity.
Qed.

Lemma sample_sign_not_IndexError (mask k : string) (msg : string) :
  sample_sign mask k <> Raise (IndexError msg).
Proof.
  unfold sample_sign.
  assert (Hof : forall s, Bitarray.of_string s <> Raise (IndexError msg)).
  { induction s as [|c r IH]; cbn [Bitarray.of_string]; [discriminate|].
    destruct (Ascii.eqb c "0").
    - destruct (Bitarray.of_string r) as [bs|e]; cbn [bindR]; [discriminate|].
      exact IH.
    - destruct (Ascii.eqb c "1").
      + destruct (Bitarray.of_string r) as [bs|e]; cbn [bindR]; [discriminate|].
        exact IH.
      + destruct (Bitarray.skipped c); [exact IH|discriminate]. }
  destruct (Bitarray.of_string mask) as [m|e] eqn:Hm;
    [|cbn; intros H; injection H as ->; exact (Hof _ Hm)].
  cbn [bindR].
  destruct (Bitarray.of_string k) as [b|e] eqn:Hb;
    [|cbn; intros H; injection H as ->; exact (Hof _ Hb)].
  cbn [bindR]. unfold Bitarray.and.
  destruct (Nat.eqb (List.length m) (List.length b)); cbn; discriminate.
Qed.

Lemma oneterm_loop_not_IndexError (mask : string) (items : list (string * float))
    (msg : string) :
  forall acc, oneterm_loop mask items acc <> Raise (IndexError msg).
Proof.
  induction items as [|[k f] rest IH]; intros acc; simpl; [discriminate|].
  destruct (sample_sign mask k) as [z|e] eqn:Hs; simpl.
  - apply IH.
  - intros H. injection H as ->. exact (sample_sign_not_IndexError _ _ _ Hs).
Qed.

(** X1.  On a non-empty table the routine raises [IndexError] exactly when
    some factor of the term is on a qubit index that is not below the length
    of the first key. *)
Theorem oneterm_IndexError_iff (term : Term) (frequencies : Frequencies)
    (key0 : string) :
  hd_error (dict_keys frequencies) = Some key0 ->
  (get_expectation_value_from_frequencies_oneterm term frequencies =
   Raise (IndexError "list assignment index out of range")
   <-> exists f, In f term /\ String.length key0 <= fst f).
Proof.
  intros Hhd. rewrite (oneterm_stages term frequencies key0 Hhd).
  destruct (indices_in_range term (String.length key0)) eqn:Hr.
  - split.
    + intros H. exfalso.
      destruct (oneterm_loop _ frequencies 0%float) as [x|e] eqn:Hl; [discriminate|].
      cbn in H. injection H as ->.
      exact (oneterm_loop_not_IndexError _ _ _ _ Hl).
    + intros (f & Hin & Hge). exfalso.
      unfold indices_in_range in Hr. rewrite forallb_forall in Hr.
      specialize (Hr f Hin). apply Nat.ltb_lt in Hr. lia.
  - split; [|reflexivity]. intros _.
    unfold indices_in_range in Hr.
    destruct (forallb_forall (fun f : nat * Pauli => (fst f <? String.length key0)%nat) term)
      as [_ Hall].
    destruct (existsb (fun f : nat * Pauli => negb (fst f <? String.length key0)%nat) term)
      eqn:He.
    + apply existsb_exists in He. destruct He as (f & Hin & Hf).
      exists f. split; [exact Hin|].
      apply negb_true_iff, Nat.ltb_ge in Hf. exact Hf.
    + exfalso. rewrite Hall in Hr; [discriminate|].
      intros f Hin. destruct (fst f <? String.length key0)%nat eqn:Hlt; [reflexivity|].
      exfalso. assert (Hex : existsb (fun f : nat * Pauli =>
                                        negb (fst f <? String.length key0)%nat) term = true).
      { apply existsb_exists. exists f. split; [exact Hin|now rewrite Hlt]. }
      congruence.
Qed.

(** X1 on a term on qubit 3 and a table of two-bit strings. *)
Lemma oneterm_IndexError_iff_witness :
  get_expectation_value_from_frequencies_oneterm [(0, PauliX); (3, PauliZ)]
    [("01", 0.5%float); ("10", 0.5%float)] =
  Raise (IndexError "list assignment index out of range").
Proof.
  apply (oneterm_IndexError_iff [(0, PauliX); (3, PauliZ)]
           [("01", 0.5%float); ("10", 0.5%float)] "01" eq_refl).
  exists (3, PauliZ). split; [simpl; tauto | simpl; lia].
Defined.

(** X2.  The result depends only on which qubits the term touches: two terms
    with the same set of qubit indices give the same outcome on every table,
    errors included, whatever their Pauli labels, order and repetitions. *)
Theorem oneterm_depends_on_indices_only (t1 t2 : Term) (frequencies : Frequencies) :
  (forall i, In i (map fst t1) <-> In i (map fst t2)) ->
  get_expectation_value_from_frequencies_oneterm t1 frequencies =
  get_expectation_value_from_frequencies_oneterm t2 frequencies.
Proof.
  intros Hsame.
  destruct (dict_keys frequencies) as [|key0 ks] eqn:Hd.
  - unfold get_expectation_value_from_frequencies_oneterm. now rewrite Hd.
  - assert (Hhd : hd_error (dict_keys frequencies) = Some key0) by now rewrite Hd.
    rewrite (oneterm_stages t1 frequencies key0 Hhd),
      (oneterm_stages t2 frequencies key0 Hhd).
    assert (Hex : forall i,
               existsb (fun f : nat * Pauli => Nat.eqb (fst f) i) t1 =
               existsb (fun f : nat * Pauli => Nat.eqb (fst f) i) t2).
    { assert (Hone : forall (s t : Term) i,
                 (forall j, In j (map fst s) -> In j (map fst t)) ->
                 existsb (fun f : nat * Pauli => Nat.eqb (fst f) i) s = true ->
                 existsb (fun f : nat * Pauli => Nat.eqb (fst f) i) t = true).
      { intros s t i Hst H. apply existsb_exists in H. destruct H as (f & Hin & Hf).
        apply Nat.eqb_eq in Hf. apply (in_map fst) in Hin. apply Hst in Hin.
        apply in_map_iff in Hin. destruct Hin as (g & Hg & Hin).
        apply existsb_exists. exists g. split; [exact Hin|].
        apply Nat.eqb_eq. congruence. }
      intros i.
      destruct (existsb _ t1) eqn:H1.
      - symmetry. apply (Hone t1 t2 i); [intros j; apply Hsame | exact H1].
      - destruct (existsb _ t2) eqn:H2; [|reflexivity].
        rewrite (Hone t2 t1 i) in H1; [discriminate|intros j; apply Hsame|exact H2]. }
    assert (Hrange : forall n, indices_in_range t1 n = indices_in_range t2 n).
    { assert (Hone : forall (s t : Term) n,
                 (forall j, In j (map fst t) -> In j (map fst s)) ->
                 indices_in_range s n = true -> indices_in_range t n = true).
      { intros s t n Hts H. unfold indices_in_range in *.
        rewrite forallb_forall in *. intros g Hg.
        apply (in_map fst) in Hg. apply Hts in Hg.
        apply in_map_iff in Hg. destruct Hg as (f & Hf & Hin).
        specialize (H f Hin). now rewrite <- Hf. }
      intros n.
      destruct (indices_in_range t1 n) eqn:H1.
      - symmetry. apply (Hone t1 t2 n); [intros j; apply Hsame | exact H1].
      - destruct (indices_in_range t2 n) eqn:H2; [|reflexivity].
        rewrite (Hone t2 t1 n) in H1; [discriminate|intros j; apply Hsame|exact H2]. }
    rewrite Hrange. unfold term_mask.
    rewrite (map_ext _ _ Hex). reflexivity.
Qed.

(** X2 on the terms X0 Y1 and Z1 Z0 Z1. *)
Lemma oneterm_depends_on_indices_only_witness :
  get_expectation_value_from_frequencies_oneterm [(0, PauliX); (1, PauliY)]
    [("01", 0.5%float); ("11", 0.25%float)] =
  get_expectation_value_from_frequencies_oneterm [(1, PauliZ); (0, PauliZ); (1, PauliZ)]
    [("01", 0.5%float); ("11", 0.25%float)].
Proof.
  apply (oneterm_depends_on_indices_only [(0, PauliX); (1, PauliY)]
           [(1, PauliZ); (0, PauliZ); (1, PauliZ)]).
  intros i. simpl. tauto.
Defined.

End OnetermMore.

Section OnetermTables.
Import OnetermSpec BranchSpec.

Lemma term_mask_length (term : Term) (n : nat) : List.length (term_mask term n) = n.
Proof. unfold term_mask. now rewrite length_map, length_seq. Qed.

Lemma oneterm_loop_mismatch (m : list bool) (items : list (string * float)) :
  forall acc,
    (forall k, In k (dict_keys items) -> is_bitstring k = true) ->
    (exists k, In k (dict_keys items) /\ String.length k <> List.length m) ->
    oneterm_loop (PyStr.join (map str_bit m)) items acc =
    Raise (ValueError "bitarrays of equal length expected").
Proof.
  induction items as [|[k f] rest IH]; intros acc Hbits Hex.
  - destruct Hex as (k & [] & _).
  - cbn [oneterm_loop]. unfold sample_sign.
    rewrite bitarray_of_mask, (bitarray_of_bitstring k (Hbits k (or_introl eq_refl))).
    cbn [bindR]. unfold Bitarray.and. rewrite bits_of_length.
    destruct (Nat.eqb_spec (List.length m) (String.length k)) as [Heq|Hne].
    + cbn [bindR]. apply IH.
      * intros k' Hk'. apply Hbits. now right.
      * destruct Hex as (k' & [Hk'|Hk'] & Hlen).
        -- simpl in Hk'. subst k'. congruence.
        -- exists k'. split; assumption.
    + reflexivity.
Qed.

(** X3.  A table whose keys are bitstrings but not all of the width of the
    first key is rejected: with the term in range, the routine raises the
    [ValueError] of the bitwise AND of two bit arrays of different
    lengths. *)
Theorem oneterm_unequal_widths (term : Term) (frequencies : Frequencies)
    (key0 : string) :
  hd_error (dict_keys frequencies) = Some key0 ->
  indices_in_range term (String.length key0) = true ->
  (forall k, In k (dict_keys frequencies) -> is_bitstring k = true) ->
  (exists k, In k (dict_keys frequencies) /\ String.length k <> String.length key0) ->
  get_expectation_value_from_frequencies_oneterm term frequencies =
  Raise (ValueError "bitarrays of equal length expected").
Proof.
  intros Hhd Hrange Hbits Hex.
  rewrite (oneterm_stages term frequencies key0 Hhd), Hrange.
  rewrite oneterm_loop_mismatch; [reflexivity|exact Hbits|].
  destruct Hex as (k & Hk & Hlen). exists k. split; [exact Hk|].
  now rewrite term_mask_length.
Qed.

(** X3 on a table with a two-bit and a three-bit key. *)
Lemma oneterm_unequal_widths_witness :
  get_expectation_value_from_frequencies_oneterm [(1, PauliZ)]
    [("01", 0.5%float); ("100", 0.5%float)] =
  Raise (ValueError "bitarrays of equal length expected").
Proof.
  apply (oneterm_unequal_widths [(1, PauliZ)]
           [("01", 0.5%float); ("100", 0.5%float)] "01" eq_refl eq_refl).
  - simpl. intros k [<-|[<-|[]]]; reflexivity.
  - exists "100". split; [simpl; tauto | simpl; lia].
Defined.

Lemma repeat_zero_bitstring (w : nat) : is_bitstring (PyStr.repeat "0" w) = true.
Proof. induction w as [|w IH]; [reflexivity|exact IH]. Qed.

Lemma repeat_zero_length (w : nat) : String.length (PyStr.repeat "0" w) = w.
Proof. induction w as [|w IH]; [reflexivity|]. cbn. now rewrite IH. Qed.

Lemma repeat_zero_bits (w : nat) : bits_of (PyStr.repeat "0" w) = List.repeat false w.
Proof. induction w as [|w IH]; [reflexivity|]. cbn. now rewrite IH. Qed.

Lemma count1_and_zeros (m : list bool) :
  forall w, Bitarray.count1 (Bitarray.zip_and m (List.repeat false w)) = 0.
Proof.
  unfold Bitarray.count1.
  induction m as [|b m IH]; intros [|w]; try reflexivity.
  cbn [List.repeat Bitarray.zip_and]. rewrite andb_false_r. cbn [filter]. apply IH.
Qed.

(** The routine on the table of the all-zero state. *)
Lemma oneterm_zero_table (term : Term) (w : nat) :
  indices_in_range term w = true ->
  get_expectation_value_from_frequencies_oneterm term [(PyStr.repeat "0" w, 1%float)] =
  Return (OnetermFloat 1%float).
Proof.
  intros Hrange.
  rewrite (oneterm_stages term [(PyStr.repeat "0" w, 1%float)] (PyStr.repeat "0" w)
             eq_refl).
  rewrite repeat_zero_length, Hrange.
  rewrite oneterm_loop_spec.
  - cbn [bindR fold_left fst snd]. unfold parity_sign.
    rewrite repeat_zero_bits, count1_and_zeros. reflexivity.
  - intros k [<-|[]]. cbn [fst]. split; [apply repeat_zero_bitstring|].
    now rewrite repeat_zero_length, term_mask_length.
Qed.

Section WithEnv.
Variable env : Env.

(** X4.  For a circuit without gates whose state vector numpy can hold,
    [simulate] returns, and its table, read by the one-term routine, gives
    exactly 1.0 for every term that fits the circuit, whatever its Pauli
    labels, for every simulator. *)
Theorem empty_circuit_expectation_term (self : Simulator) (c : Circuit) (rs : bool)
    (isv : option PySeq) (w : World env) (term : Term) :
  size c = 0 ->
  0 < width c ->
  np_allocates env 8 (2 ^ N.of_nat (width c)) = true ->
  indices_in_range term (width c) = true ->
  bindR (fst (simulate env self c rs isv w))
        (fun r => get_expectation_value_from_frequencies_oneterm term (fst r)) =
  Return (OnetermFloat 1%float).
Proof.
  intros Hsize Hwidth Halloc Hrange.
  rewrite (simulate_fast_path env self c rs isv w Hsize Hwidth Halloc).
  cbn [fst bindR]. exact (oneterm_zero_table term (width c) Hrange).
Qed.

End WithEnv.
End OnetermTables.

(** X4 on the empty one-qubit circuit and the term X0. *)
Lemma empty_circuit_expectation_term_witness :
  bindR (fst (simulate Demo.env (Demo.sim qiskit None) Demo.empty_circuit false None
                Demo.world0))
        (fun r => get_expectation_value_from_frequencies_oneterm [(0, PauliX)] (fst r)) =
  Return (OnetermFloat 1%float).
Proof.
  apply (empty_circuit_expectation_term Demo.env (Demo.sim qiskit None)
           Demo.empty_circuit false None Demo.world0 [(0, PauliX)]).
  - reflexivity.
  - simpl. lia.
  - reflexivity.
  - reflexivity.
Defined.

(* ================================================================= *)
(** ** The keys that [__int_to_binstr] makes *)

Section KeyWidth.
Import OnetermSpec NormalizerSpec BranchSpec.

Lemma string_length_app (s t : string) :
  String.length (s ++ t) = String.length s + String.length t.
Proof. induction s as [|c s IH]; simpl; [reflexivity|now rewrite IH]. Qed.

Lemma pos_digits_length (p : positive) :
  forall n, Pos.to_nat p < 2 ^ n -> String.length (pos_digits p) <= n.
Proof.
  induction p as [p IH|p IH|]; intros n Hlt; cbn [pos_digits].
  - rewrite string_length_app. cbn [String.length].
    destruct n as [|n]; [simpl in Hlt; lia|].
    rewrite Pos2Nat.inj_xI in Hlt. cbn [Nat.pow] in Hlt.
    specialize (IH n). lia.
  - rewrite string_length_app. cbn [String.length].
    destruct n as [|n]; [simpl in Hlt; lia|].
    rewrite Pos2Nat.inj_xO in Hlt. cbn [Nat.pow] in Hlt.
    specialize (IH n). lia.
  - destruct n as [|n]; [simpl in Hlt; lia|]. simpl. lia.
Qed.

Lemma digits_length (i n : nat) :
  0 < n -> i < 2 ^ n -> String.length (digits i) <= n.
Proof.
  intros Hn Hlt. unfold digits. destruct (N.of_nat i) as [|p] eqn:Hp.
  - simpl. lia.
  - apply pos_digits_length.
    assert (Hi : i = Pos.to_nat p).
    { rewrite <- (Nat2N.id i), Hp. reflexivity. }
    now rewrite <- Hi.
Qed.

Lemma string_of_list_length (l : list ascii) :
  String.length (string_of_list_ascii l) = List.length l.
Proof. induction l; simpl; congruence. Qed.

Lemma list_of_string_length (s : string) :
  List.length (list_ascii_of_string s) = String.length s.
Proof. induction s; simpl; congruence. Qed.

Lemma rev_length (s : string) : String.length (PyStr.rev s) = String.length s.
Proof.
  unfold PyStr.rev.
  now rewrite string_of_list_length, length_rev, list_of_string_length.
Qed.

Lemma is_bitstring_forallb (s : string) :
  is_bitstring s = forallb bit_char (list_ascii_of_string s).
Proof. induction s as [|c s IH]; simpl; [reflexivity|now rewrite IH]. Qed.

Lemma rev_bitstring (s : string) : is_bitstring (PyStr.rev s) = is_bitstring s.
Proof.
  rewrite !is_bitstring_forallb. unfold PyStr.rev.
  rewrite list_ascii_of_string_of_list_ascii.
  induction (list_ascii_of_string s) as [|c l IH]; [reflexivity|].
  cbn [List.rev forallb]. rewrite forallb_app, IH. cbn [forallb].
  rewrite andb_true_r. apply andb_comm.
Qed.

Lemma padded_bitstring (n i : nat) : is_bitstring (padded n i) = true.
Proof.
  unfold padded.
  now rewrite is_bitstring_app, repeat_zero_bitstring, is_bitstring_digits.
Qed.

Lemma padded_length (n i : nat) :
  String.length (padded n i) = Nat.max n (String.length (digits i)).
Proof. unfold padded. rewrite string_length_app, repeat_zero_length. lia. Qed.

Lemma int_to_binstr_bitstring (self : Simulator) (i n : nat) :
  is_bitstring (__int_to_binstr self i n) = true.
Proof.
  rewrite int_to_binstr_normalized. unfold normalized.
  destruct (is_msq_first _); [rewrite rev_bitstring|]; apply padded_bitstring.
Qed.

Lemma int_to_binstr_length (self : Simulator) (i n : nat) :
  String.length (__int_to_binstr self i n) = Nat.max n (String.length (digits i)).
Proof.
  rewrite int_to_binstr_normalized. unfold normalized.
  destruct (is_msq_first _); [rewrite rev_length|]; apply padded_length.
Qed.

(** X5.  A key made by [__int_to_binstr] consists of the characters 0 and 1
    and is never shorter than the qubit count: an index that needs more
    digits is not truncated.  For an index below 2^n on n > 0 qubits the key
    has exactly n characters. *)
Theorem int_to_binstr_width (self : Simulator) (i n : nat) :
  is_bitstring (__int_to_binstr self i n) = true
  /\ n <= String.length (__int_to_binstr self i n)
  /\ (0 < n -> i < 2 ^ n -> String.length (__int_to_binstr self i n) = n).
Proof.
  split; [apply int_to_binstr_bitstring|]. rewrite int_to_binstr_length.
  split; [lia|]. intros Hn Hlt. pose proof (digits_length i n Hn Hlt). lia.
Qed.

(** X6.  Reading a key back gives the index: undoing the reversal (when the
    order is msq_first) and parsing the digits in base 2 returns [i].  So
    two indices never share a key. *)
Theorem int_to_binstr_roundtrip (self : Simulator) (i n : nat) :
  int2 (if is_msq_first (statevector_order self)
        then PyStr.rev (__int_to_binstr self i n)
        else __int_to_binstr self i n) = Return i
  /\ (forall j, __int_to_binstr self i n = __int_to_binstr self j n -> i = j).
Proof.
  split.
  - rewrite int_to_binstr_normalized. unfold normalized.
    destruct (is_msq_first _); [rewrite rev_involutive|]; apply int2_padded.
  - intros j. apply int_to_binstr_inj.
Qed.

End KeyWidth.

(** X5 at index 5 on four qubits, in the order of qulacs. *)
Lemma int_to_binstr_width_witness :
  String.length (__int_to_binstr (Demo.sim qulacs None) 5 4) = 4.
Proof.
  destruct (int_to_binstr_width (Demo.sim qulacs None) 5 4) as (_ & _ & H).
  apply H; [lia | simpl; lia].
Defined.

(* ================================================================= *)
(** ** The backend branches of [simulate] *)

Section BranchFacts.
Import OnetermSpec NormalizerSpec BranchSpec.
Variable env : Env.

Lemma call_current_state {T} (e : BackendE T) (w w' : World env) (r : PyResult T) :
  call e w = (r, w') -> _current_state w' = _current_state w.
Proof.
  unfold call. destruct (handle env e (ext w)) as [r0 x]. intros H.
  inversion H. reflexivity.
Qed.

(** Without a shot count the normalizer is the exact table and touches
    nothing. *)
Lemma statevector_exact_mode (self : Simulator) (statevector : PySeq)
    (w w' : World env) (f : Frequencies) :
  not_shots (n_shots self) = true ->
  _statevector_to_frequencies env self statevector w = (Return f, w') ->
  exists n, log2_len (seq_items statevector) = Return n
            /\ f = exact_table env self n statevector /\ w' = w.
Proof.
  unfold _statevector_to_frequencies. intros Hshots H.
  apply bind_Return in H. destruct H as (n & w1 & Hn & H).
  apply lift_Return in Hn. destruct Hn as [Hn ->].
  rewrite sv_loop_exact_table, Hshots in H.
  apply ret_Return in H. destruct H as [-> ->].
  exists n. auto.
Qed.

Lemma retained_index_bound (self : Simulator) (statevector : PySeq) (ip : nat * float) :
  In ip (retained env self statevector) ->
  fst ip < List.length (seq_items statevector).
Proof.
  unfold retained. intros Hin. apply filter_In in Hin. destruct Hin as [Hin _].
  apply (in_map fst) in Hin. rewrite map_map in Hin.
  rewrite (map_ext _ fst) in Hin by reflexivity.
  unfold enumerate in Hin. rewrite (map_fst_enumerate (seq_items statevector) 0) in Hin.
  apply in_seq in Hin. lia.
Qed.

(** X7.  For a state vector of 2^n amplitudes (n > 0) and no shot count,
    every key of the table that the normalizer returns is a string of
    exactly n characters 0 and 1: the table is fixed-width. *)
Theorem statevector_table_fixed_width (self : Simulator) (statevector : PySeq)
    (n : nat) (w w' : World env) (f : Frequencies) :
  List.length (seq_items statevector) = 2 ^ n ->
  0 < n ->
  not_shots (n_shots self) = true ->
  _statevector_to_frequencies env self statevector w = (Return f, w') ->
  forall k, In k (dict_keys f) -> String.length k = n /\ is_bitstring k = true.
Proof.
  intros Hlen Hn Hshots H k Hk.
  destruct (statevector_exact_mode self statevector w w' f Hshots H)
    as (n' & Hlog & -> & _).
  assert (Hn' : n' = n).
  { unfold log2_len in Hlog. rewrite Hlen in Hlog.
    pose proof (pow2_pos n) as Hpos.
    destruct (2 ^ n) as [|p] eqn:Hp; [lia|].
    inversion Hlog. rewrite <- Hp. apply Nat.log2_pow2. lia. }
  subst n'. unfold dict_keys, exact_table in Hk. rewrite map_map in Hk.
  apply in_map_iff in Hk. destruct Hk as (ip & <- & Hin). cbn [fst].
  apply retained_index_bound in Hin. rewrite Hlen in Hin.
  split; [|apply int_to_binstr_bitstring].
  rewrite int_to_binstr_length. pose proof (digits_length (fst ip) n Hn Hin). lia.
Qed.

End BranchFacts.

(** X7 on the four amplitudes of two qubits. *)
Lemma statevector_table_fixed_width_witness :
  _statevector_to_frequencies Demo.env (Demo.sim qulacs None)
    Demo.raw_statevector Demo.world0 = (Return [("10", 1%float)], Demo.world0)
  /\ String.length "10" = 2 /\ OnetermSpec.is_bitstring "10" = true.
Proof.
  split; [reflexivity|].
  apply (statevector_table_fixed_width Demo.env (Demo.sim qulacs None)
           Demo.raw_statevector 2 Demo.world0 Demo.world0 [("10", 1%float)]).
  - reflexivity.
  - lia.
  - reflexivity.
  - reflexivity.
  - left. reflexivity.
Defined.

Section QulacsFacts.
Import NormalizerSpec BranchSpec.
Variable env : Env.

(** In sampling mode the loop never returns from inside: it runs out after
    drawing one sample per turn, each of them an answer of the register's
    sampler. *)
Lemma qulacs_loop_sampling (self : Simulator) (c : Circuit) (rs : bool)
    (isv : option PySeq) (tc state : Obj) (shots : nat) :
  qulacs_sampling self c = true ->
  forall samples w w' out,
    qulacs_loop env self c rs isv tc state shots samples w = (Return out, w') ->
    exists drawn,
      out = inl (samples ++ drawn)%list
      /\ List.length drawn = shots
      /\ forall s, In s drawn ->
                   exists x, fst (handle env (QulacsSampling1 state) x) = Return s.
Proof.
  unfold qulacs_sampling. intros Hs.
  induction shots as [|shots IH]; intros samples w w' out H.
  - apply ret_Return in H. destruct H as [-> _].
    exists []. rewrite app_nil_r. split; [reflexivity|]. split; [reflexivity|].
    intros s [].
  - cbn [qulacs_loop] in H. rewrite Hs in H.
    apply bind_Return in H. destruct H as (u & w1 & _ & H).
    apply bind_Return in H. destruct H as (s & w2 & Hsample & H).
    apply bind_Return in H. destruct H as (t & w3 & _ & H).
    apply bind_Return in H. destruct H as (u' & w4 & _ & H).
    destruct (IH _ _ _ _ H) as (drawn & -> & Hlen & Hdrawn).
    exists (s :: drawn). rewrite <- app_assoc. split; [reflexivity|].
    split; [simpl; now rewrite Hlen|].
    intros s' [<-|Hs']; [|exact (Hdrawn s' Hs')].
    exists (ext w1). exact (call_Return env _ _ _ _ Hsample).
Qed.

Lemma simulate_backend (self : Simulator) (c : Circuit) (rs : bool)
    (isv : option PySeq) (w w' : World env) (r : Frequencies * option PySeq) :
  size c <> 0 ->
  simulate env self c rs isv w = (Return r, w') ->
  match _target self with
  | qulacs => simulate_qulacs env self c rs isv w
  | qiskit => simulate_qiskit env self c rs isv w
  | projectq => simulate_projectq env self c rs isv w
  | qdk => simulate_qdk env self c rs isv w
  end = (Return r, w').
Proof.
  intros Hsize H. unfold simulate in H.
  destruct (is_mixed_state c && not_shots (n_shots self));
    [now apply raise_Return in H|].
  destruct (Nat.eqb (width c) 0); [now apply raise_Return in H|].
  destruct (Nat.eqb_spec (size c) 0) as [H0|_]; [contradiction|].
  destruct (_target self); exact H.
Qed.

(** X8.  The shot path of the qulacs branch.  When the circuit measures or a
    noise model is set, and [n_shots] is positive, a run that returns has
    made one register for the width of the circuit and has drawn exactly
    [n_shots] samples from it, one per repetition, each of them an answer
    of that register's sampler; the table is their empirical table
    (count / n_shots per observed index, keyed by [__int_to_binstr] on the
    width of the circuit), and no state vector is returned. *)
Theorem simulate_qulacs_shots (self : Simulator) (c : Circuit) (rs : bool)
    (isv : option PySeq) (w w' : World env) (f : Frequencies) (sv : option PySeq)
    (m : nat) :
  _target self = qulacs ->
  size c <> 0 ->
  qulacs_sampling self c = true ->
  n_shots self = Some (S m) ->
  simulate env self c rs isv w = (Return (f, sv), w') ->
  sv = None
  /\ exists state x0 samples,
       fst (handle env (QulacsQuantumState (width c)) x0) = Return state
       /\ List.length samples = S m
       /\ (forall s, In s samples ->
                     exists x, fst (handle env (QulacsSampling1 state) x) = Return s)
       /\ f = empirical_table self (width c) (S m) samples.
Proof.
  intros Ht Hsize Hs Hn H.
  apply simulate_backend in H; [|exact Hsize]. rewrite Ht in H.
  unfold simulate_qulacs in H.
  apply bind_Return in H. destruct H as (tc & w1 & _ & H).
  apply bind_Return in H. destruct H as (state & w2 & Hstate & H).
  apply bind_Return in H. destruct H as (u & w3 & _ & H).
  apply bind_Return in H. destruct H as (shots & w4 & Hshots & H).
  apply bind_Return in H. destruct H as (out & w5 & Hloop & H).
  apply lift_Return in Hshots. destruct Hshots as [Hshots _].
  unfold qulacs_sampling in Hs. rewrite Hs, Hn in Hshots.
  cbn in Hshots. injection Hshots as <-.
  destruct (qulacs_loop_sampling self c rs isv tc state (S m) Hs [] w4 w5 out Hloop)
    as (drawn & -> & Hlen & Hdrawn).
  cbn [app] in H.
  apply bind_Return in H. destruct H as (fs & w6 & Hcomp & H).
  apply ret_Return in H. destruct H as [H _]. inversion H; subst.
  apply lift_Return in Hcomp. destruct Hcomp as [Hcomp _].
  rewrite Hn, freqs_shots_empirical in Hcomp. injection Hcomp as <-.
  split; [reflexivity|]. exists state, (ext w1), drawn.
  split; [exact (call_Return env _ _ _ _ Hstate)|].
  split; [exact Hlen|]. split; [exact Hdrawn|reflexivity].
Qed.

(** The exact run of the qulacs branch, step by step. *)
Lemma simulate_qulacs_exact_run (self : Simulator) (c : Circuit) (rs : bool)
    (isv : option PySeq) (w w' : World env) (f : Frequencies) (sv : option PySeq) :
  _target self = qulacs ->
  size c <> 0 ->
  qulacs_sampling self c = false ->
  not_shots (n_shots self) = true ->
  simulate env self c rs isv w = (Return (f, sv), w') ->
  exists state v n x,
    fst (handle env (QulacsGetVector state) x) = Return v
    /\ log2_len (seq_items v) = Return n
    /\ f = exact_table env self n v
    /\ sv = (if rs then Some (np_array v) else None)
    /\ _current_state w' = Some (VObj state).
Proof.
  intros Ht Hsize Hs Hn H.
  apply simulate_backend in H; [|exact Hsize]. rewrite Ht in H.
  unfold simulate_qulacs in H.
  apply bind_Return in H. destruct H as (tc & w1 & _ & H).
  apply bind_Return in H. destruct H as (state & w2 & _ & H).
  apply bind_Return in H. destruct H as (u & w3 & _ & H).
  apply bind_Return in H. destruct H as (shots & w4 & Hshots & H).
  apply bind_Return in H. destruct H as (out & w5 & Hloop & H).
  apply lift_Return in Hshots. destruct Hshots as [Hshots _].
  unfold qulacs_sampling in Hs. rewrite Hs in Hshots.
  cbn in Hshots. injection Hshots as <-.
  cbn [qulacs_loop] in Hloop. rewrite Hs in Hloop.
  apply bind_Return in Hloop. destruct Hloop as (u1 & w6 & _ & Hloop).
  apply bind_Return in Hloop. destruct Hloop as (u2 & w7 & Hset & Hloop).
  apply bind_Return in Hloop. destruct Hloop as (v & w8 & Hget & Hloop).
  apply bind_Return in Hloop. destruct Hloop as (fs & w9 & Hfs & Hloop).
  apply ret_Return in Hloop. destruct Hloop as [-> ->].
  apply ret_Return in H. destruct H as [H ->].
  destruct (statevector_exact_mode env self v w8 w9 fs Hn Hfs) as (n & Hlog & -> & ->).
  exists state, v, n, (ext w7).
  split; [exact (call_Return env _ _ _ _ Hget)|].
  split; [exact Hlog|].
  unfold with_statevector in H.
  assert (Hcur : _current_state w8 = Some (VObj state)).
  { rewrite (call_current_state env _ _ _ _ Hget).
    unfold set_current_state in Hset. inversion Hset. reflexivity. }
  destruct rs; inversion H; auto.
Qed.

(** X9.  The exact path of the qulacs branch.  Without measurement, noise
    model and shot count, a run that returns has read one state vector from
    the register: the table is the exact table of that vector, the state
    vector handed back (when asked for) is that same vector, and the
    register is what [_current_state] holds afterwards. *)
Theorem simulate_qulacs_exact (self : Simulator) (c : Circuit) (rs : bool)
    (isv : option PySeq) (w w' : World env) (f : Frequencies) (sv : option PySeq) :
  _target self = qulacs ->
  size c <> 0 ->
  qulacs_sampling self c = false ->
  not_shots (n_shots self) = true ->
  simulate env self c rs isv w = (Return (f, sv), w') ->
  exists state v n x,
    fst (handle env (QulacsGetVector state) x) = Return v
    /\ log2_len (seq_items v) = Return n
    /\ f = exact_table env self n v
    /\ sv = (if rs then Some (np_array v) else None)
    /\ _current_state w' = Some (VObj state).
Proof. exact (simulate_qulacs_exact_run self c rs isv w w' f sv). Qed.

(** X10.  A circuit that contains a measurement never gets a state vector
    back: on every backend, whatever [return_statevector] says, a run of
    [simulate] that returns has [None] in the state vector position. *)
Theorem mixed_state_no_statevector (self : Simulator) (c : Circuit) (rs : bool)
    (isv : option PySeq) (w w' : World env) (f : Frequencies) (sv : option PySeq) :
  is_mixed_state c = true ->
  simulate env self c rs isv w = (Return (f, sv), w') ->
  sv = None.
Proof.
  intros Hmixed H.
  assert (Hsize : size c <> 0).
  { intros H0. rewrite (size_0_not_mixed c H0) in Hmixed. discriminate. }
  apply simulate_backend in H; [|exact Hsize].
  destruct (_target self).
  - unfold simulate_qulacs in H.
    apply bind_Return in H. destruct H as (tc & w1 & _ & H).
    apply bind_Return in H. destruct H as (state & w2 & _ & H).
    apply bind_Return in H. destruct H as (u & w3 & _ & H).
    apply bind_Return in H. destruct H as (shots & w4 & _ & H).
    apply bind_Return in H. destruct H as (out & w5 & Hloop & H).
    assert (Hs : qulacs_sampling self c = true)
      by (unfold qulacs_sampling; now rewrite Hmixed).
    destruct (qulacs_loop_sampling self c rs isv tc state shots Hs [] w4 w5 out Hloop)
      as (drawn & -> & _ & _).
    apply bind_Return in H. destruct H as (fs & w6 & _ & H).
    apply ret_Return in H. destruct H as [H _]. now inversion H.
  - unfold simulate_qiskit in H.
    apply bind_Return in H. destruct H as (tc & w1 & _ & H).
    apply bind_Return in H. destruct H as (tc' & w2 & _ & H).
    rewrite Hmixed, orb_true_r in H.
    apply bind_Return in H. destruct H as (counts & w3 & _ & H).
    apply bind_Return in H. destruct H as (fs & w4 & _ & H).
    apply ret_Return in H. destruct H as [H _]. now inversion H.
  - unfold simulate_projectq in H.
    apply bind_Return in H. destruct H as (tc & w1 & _ & H).
    apply bind_Return in H. destruct H as (zero & w2 & _ & H).
    apply bind_Return in H. destruct H as (eng & w3 & _ & H).
    apply bind_Return in H. destruct H as (Qureg & w4 & _ & H).
    apply bind_Return in H. destruct H as (u & w5 & _ & H).
    apply bind_Return in H. destruct H as (shots & w6 & _ & H).
    apply bind_Return in H. destruct H as (out & w7 & Hloop & H).
    destruct out as [samples|result].
    + apply bind_Return in H. destruct H as (fs & w8 & _ & H).
      apply ret_Return in H. destruct H as [H _]. now inversion H.
    + apply projectq_loop_out in Hloop. congruence.
  - exact (simulate_qdk_statevector env self c rs isv w w' f sv H).
Qed.

End QulacsFacts.

(** X8 on the measuring circuit with four shots: the four samples that the
    demo register gives are all basis index 1. *)
Lemma simulate_qulacs_shots_witness :
  exists state x0 samples,
    fst (handle Demo.env (QulacsQuantumState 2) x0) = Return state
    /\ List.length samples = 4
    /\ (forall s, In s samples ->
                  exists x, fst (handle Demo.env (QulacsSampling1 state) x) = Return s)
    /\ [("10", 1%float)] =
       NormalizerSpec.empirical_table (Demo.sim qulacs (Some 4)) 2 4 samples.
Proof.
  assert (H : exists w', simulate Demo.env (Demo.sim qulacs (Some 4)) Demo.measure_circuit
                           true None Demo.world0 = (Return ([("10", 1%float)], None), w'))
    by (eexists; vm_compute; reflexivity).
  destruct H as [w' H].
  exact (proj2 (simulate_qulacs_shots Demo.env (Demo.sim qulacs (Some 4))
                  Demo.measure_circuit true None Demo.world0 w' [("10", 1%float)] None 3
                  eq_refl ltac:(discriminate) eq_refl eq_refl H)).
Defined.

(** X9 on the one-gate circuit without shots. *)
Lemma simulate_qulacs_exact_witness :
  exists state v n x,
    fst (handle Demo.env (QulacsGetVector state) x) = Return v
    /\ log2_len (seq_items v) = Return n
    /\ [("10", 1%float)] = NormalizerSpec.exact_table Demo.env (Demo.sim qulacs None) n v
    /\ Some (NdArray [Demo.c0; Demo.c1; Demo.c0; Demo.c0]) = Some (np_array v)
    /\ Some (VObj (object 1)) = Some (VObj state).
Proof.
  exact (simulate_qulacs_exact Demo.env (Demo.sim qulacs None) Demo.x_circuit true None
           Demo.world0
           (mkWorld Demo.env (Some (VObj (object 1)))
              [call_of (TranslateQulacs Demo.x_circuit None);
               call_of (QulacsQuantumState 2);
               call_of (QulacsUpdateQuantumState (object 0) (object 1));
               call_of (QulacsGetVector (object 1))] 4)
           [("10", 1%float)] (Some (NdArray [Demo.c0; Demo.c1; Demo.c0; Demo.c0]))
           eq_refl ltac:(discriminate) eq_refl eq_refl eq_refl).
Defined.

(** X10 on the measuring circuit, run on qiskit with a state vector asked
    for. *)
Lemma mixed_state_no_statevector_witness :
  match fst (simulate Demo.env (Demo.sim qiskit (Some 4)) Demo.measure_circuit true None
               Demo.world0) with
  | Return (_, sv) => sv = None
  | Raise _ => False
  end.
Proof.
  destruct (simulate Demo.env (Demo.sim qiskit (Some 4)) Demo.measure_circuit true None
              Demo.world0) as [[[f sv]|e] w'] eqn:H.
  - exact (mixed_state_no_statevector Demo.env (Demo.sim qiskit (Some 4))
             Demo.measure_circuit true None Demo.world0 w' f sv eq_refl H).
  - vm_compute in H. discriminate H.
Defined.

Section ShotTables.
Import NormalizerSpec BranchSpec.
Variable env : Env.

(** A comprehension over items with distinct keys has one entry per item. *)
Lemma dict_comp_fresh {X V} (key : X -> string) (val : X -> V) (xs : list X) :
  NoDup (map key xs) ->
  dict_comp String.eqb key val xs = map (fun x => (key x, val x)) xs.
Proof.
  unfold dict_comp.
  assert (H : forall d,
             NoDup (map key xs) ->
             (forall x, In x xs -> ~ In (key x) (dict_keys d)) ->
             fold_left (fun d x => dict_set String.eqb (key x) (val x) d) xs d =
             (d ++ map (fun x => (key x, val x)) xs)%list).
  { induction xs as [|x xs IH]; intros d Hnd Hfresh; simpl.
    - now rewrite app_nil_r.
    - inversion Hnd as [|? ? Hnot Hnd']; subst.
      rewrite (dict_set_fresh _ _ String.eqb String.eqb_eq)
        by (apply Hfresh; now left).
      rewrite IH.
      + now rewrite <- app_assoc.
      + exact Hnd'.
      + intros y Hy Hin. unfold dict_keys in Hin. rewrite map_app in Hin.
        apply in_app_or in Hin. destruct Hin as [Hin|[Hin|[]]].
        * apply (Hfresh y); [now right|exact Hin].
        * simpl in Hin. apply Hnot. rewrite Hin. now apply in_map. }
  intros Hnd. rewrite H; [reflexivity|exact Hnd|intros x _ []].
Qed.

Lemma digits_inj (i j : nat) : digits i = digits j -> i = j.
Proof.
  intros H. pose proof (int2_acc_digits i) as Hi.
  rewrite H, int2_acc_digits in Hi. now inversion Hi.
Qed.

Lemma rev_padded_inj (n i j : nat) :
  PyStr.rev (padded n i) = PyStr.rev (padded n j) -> i = j.
Proof.
  intros H. apply (normalized_inj (Some "msq_first") n). exact H.
Qed.

Lemma enumerate_nth {A} (l : list A) (d : A) :
  forall a iv, In iv (combine (seq a (List.length l)) l) ->
               a <= fst iv /\ nth (fst iv - a) l d = snd iv.
Proof.
  induction l as [|x l IH]; intros a iv Hin; [contradiction|].
  cbn [List.length seq combine] in Hin. destruct Hin as [<-|Hin].
  - cbn [fst snd]. rewrite Nat.sub_diag. split; [lia|reflexivity].
  - destruct (IH (S a) iv Hin) as [Hle Hnth]. split; [lia|].
    replace (fst iv - a) with (S (fst iv - S a)) by lia. exact Hnth.
Qed.

Lemma filter_map_swap {A B} (P : B -> bool) (g : A -> B) (xs : list A) :
  filter P (map g xs) = map g (filter (fun x => P (g x)) xs).
Proof.
  induction xs as [|x xs IH]; [reflexivity|]. simpl.
  destruct (P (g x)); simpl; now rewrite IH.
Qed.

(** Lines 230-232 give one entry per index above the threshold. *)
Lemma qdk_frequencies_table (self : Simulator) (c : Circuit) (l : list float) :
  qdk_frequencies self c l = qdk_table self c l.
Proof.
  unfold qdk_frequencies, qdk_table.
  rewrite (dict_comp_fresh
             (fun ifreq : nat * float => PyStr.last (PyStr.split "b" (bin (fst ifreq))))).
  - rewrite (map_ext_in _ (fun iv : nat * float => (digits (fst iv), snd iv))).
    + rewrite filter_map_swap. cbn [snd].
      rewrite dict_comp_fresh.
      * rewrite map_map. reflexivity.
      * rewrite map_map. cbn [fst].
        change (NoDup (map (fun x : nat * float => PyStr.rev (padded (width c) (fst x)))
                          (filter (fun x : nat * float =>
                                     PrimFloat.ltb (freq_threshold self) (snd x))
                                  (enumerate l)))).
        rewrite <- (map_map fst (fun i => PyStr.rev (padded (width c) i))).
        apply NoDup_map_inj; [intros a b; apply rev_padded_inj|].
        apply NoDup_map_filter_fst. unfold enumerate.
        rewrite (map_fst_enumerate l 0). apply seq_NoDup.
    + intros iv Hin. rewrite split_bin. f_equal.
      destruct (enumerate_nth l (snd iv) 0 iv Hin) as [_ Hnth].
      now rewrite Nat.sub_0_r in Hnth.
  - rewrite (map_ext _ (fun iv : nat * float => digits (fst iv)))
      by (intros iv; apply split_bin).
    rewrite <- (map_map fst digits).
    apply NoDup_map_inj; [exact digits_inj|].
    unfold enumerate. rewrite (map_fst_enumerate l 0). apply seq_NoDup.
Qed.

(** X11.  The qdk branch.  A run that returns has asked Q# once for the
    frequencies, with the width of the circuit and [n_shots]; its table has
    one entry per basis index whose frequency is strictly above
    [freq_threshold], in index order, keyed by the reversed zero-padded
    binary digits of the index; there is no state vector. *)
Theorem simulate_qdk_table (self : Simulator) (c : Circuit) (rs : bool)
    (isv : option PySeq) (w w' : World env) (f : Frequencies) (sv : option PySeq) :
  _target self = qdk ->
  size c <> 0 ->
  simulate env self c rs isv w = (Return (f, sv), w') ->
  sv = None
  /\ (exists frequencies_list x,
        fst (handle env (QsharpEstimateFrequencies (width c) (n_shots self)) x) =
        Return frequencies_list
        /\ f = qdk_table self c frequencies_list)
  /\ (forall k v, In (k, v) f -> PrimFloat.ltb (freq_threshold self) v = true).
Proof.
  intros Ht Hsize H.
  apply simulate_backend in H; [|exact Hsize]. rewrite Ht in H.
  unfold simulate_qdk in H.
  apply bind_Return in H. destruct H as (tc & w1 & _ & H).
  apply bind_Return in H. destruct H as (u1 & w2 & _ & H).
  apply bind_Return in H. destruct H as (u2 & w3 & _ & H).
  apply bind_Return in H. destruct H as (l & w4 & Hcall & H).
  apply ret_Return in H. destruct H as [H _]. inversion H; subst f sv.
  rewrite qdk_frequencies_table.
  split; [reflexivity|]. split.
  - exists l, (ext w3). split; [exact (call_Return env _ _ _ _ Hcall)|reflexivity].
  - intros k v Hin. unfold qdk_table in Hin.
    apply in_map_iff in Hin. destruct Hin as (iv & Heq & Hin).
    apply filter_In in Hin. destruct Hin as [_ Hv].
    inversion Heq; subst. exact Hv.
Qed.

(** X12.  The shot path of the qiskit branch.  With a noise model or a
    measuring circuit, a run that returns has asked the qasm simulator once
    for the counts; no state vector is returned; and for a positive
    [n_shots] the table has one entry per counted string (the strings of a
    counts dictionary are distinct): the string reversed, with
    count / n_shots. *)
Theorem simulate_qiskit_shots (self : Simulator) (c : Circuit) (rs : bool)
    (isv : option PySeq) (w w' : World env) (f : Frequencies) (sv : option PySeq) :
  _target self = qiskit ->
  size c <> 0 ->
  truthy_noise (_noise_model self) || is_mixed_state c = true ->
  simulate env self c rs isv w = (Return (f, sv), w') ->
  sv = None
  /\ exists circ x counts,
       fst (handle env (QiskitQasmCounts circ (width c) (_noise_model self)
                          (n_shots self)) x) = Return counts
       /\ forall m, n_shots self = Some (S m) ->
                    NoDup (map fst counts) ->
                    f = qiskit_shot_table (S m) counts.
Proof.
  intros Ht Hsize Hs H.
  apply simulate_backend in H; [|exact Hsize]. rewrite Ht in H.
  unfold simulate_qiskit in H.
  apply bind_Return in H. destruct H as (tc & w1 & _ & H).
  apply bind_Return in H. destruct H as (tc' & w2 & _ & H).
  rewrite Hs in H.
  apply bind_Return in H. destruct H as (counts & w3 & Hcall & H).
  apply bind_Return in H. destruct H as (fs & w4 & Hcomp & H).
  apply ret_Return in H. destruct H as [H _]. inversion H; subst fs sv.
  apply lift_Return in Hcomp. destruct Hcomp as [Hcomp _].
  split; [reflexivity|].
  exists tc', (ext w2), counts. split; [exact (call_Return env _ _ _ _ Hcall)|].
  intros m Hn Hnd. rewrite Hn in Hcomp.
  rewrite (freq_comp_fresh _ _
             (fun sc : string * nat => PrimFloat.div (float_of_nat (snd sc))
                                                     (float_of_nat (S m)))) in Hcomp.
  - injection Hcomp as <-. reflexivity.
  - intros x _. reflexivity.
  - rewrite <- (map_map fst PyStr.rev).
    apply NoDup_map_inj; [|exact Hnd].
    intros a b Hab. rewrite <- (rev_involutive a), Hab. apply rev_involutive.
  - intros x _ [].
Qed.

End ShotTables.

(** X11 on the qdk run of the one-gate circuit. *)
Lemma simulate_qdk_table_witness :
  (exists frequencies_list x,
      fst (handle Demo.env (QsharpEstimateFrequencies 2 (Some 10)) x) =
      Return frequencies_list
      /\ [("10", 1%float)] =
         BranchSpec.qdk_table (Demo.sim qdk (Some 10)) Demo.x_circuit frequencies_list)
  /\ (forall k v, In (k, v) [("10", 1%float)] -> PrimFloat.ltb 1e-10%float v = true).
Proof.
  assert (H : exists w', simulate Demo.env (Demo.sim qdk (Some 10)) Demo.x_circuit
                           false None Demo.world0 = (Return ([("10", 1%float)], None), w'))
    by (eexists; vm_compute; reflexivity).
  destruct H as [w' H].
  exact (proj2 (simulate_qdk_table Demo.env (Demo.sim qdk (Some 10)) Demo.x_circuit
                  false None Demo.world0 w' [("10", 1%float)] None
                  eq_refl ltac:(discriminate) H)).
Defined.

(** X12 on the measuring circuit with four shots: qiskit counted 01 three
    times and 00 once. *)
Lemma simulate_qiskit_shots_witness :
  [("10", 0.75%float); ("00", 0.25%float)] =
  BranchSpec.qiskit_shot_table 4 [("01", 3); ("00", 1)].
Proof.
  assert (H : exists w', simulate Demo.env (Demo.sim qiskit (Some 4)) Demo.measure_circuit
                           false None Demo.world0 =
                         (Return ([("10", 0.75%float); ("00", 0.25%float)], None), w'))
    by (eexists; vm_compute; reflexivity).
  destruct H as [w' H].
  destruct (simulate_qiskit_shots Demo.env (Demo.sim qiskit (Some 4)) Demo.measure_circuit
              false None Demo.world0 w' _ None eq_refl ltac:(discriminate) eq_refl H)
    as (_ & circ & x & counts & Hcounts & Htable).
  vm_compute in Hcounts. injection Hcounts as <-.
  apply (Htable 3 eq_refl).
  simpl. constructor; [|constructor; [|constructor]]; simpl.
  - intros [Heq|[]]. discriminate Heq.
  - intros [].
Defined.

(* ================================================================= *)
(** ** get_expectation_value: a failed check, the identity, an empty table *)

Lemma width_check_loop_stop (w : nat) (t : Term) (c : PyNum) (post : OpTerms) :
  (w < List.length t) ->
  forall pre done : OpTerms,
    NoDup (dict_keys (done ++ pre ++ (t, c) :: post)%list) ->
    (forall tc, In tc pre -> List.length (fst tc) <= w) ->
    width_check_loop w (List.length done) (List.length (pre ++ (t, c) :: post)%list)
      (map realified done ++ pre ++ (t, c) :: post)%list =
    (Raise (ValueError (term_width_msg t w)),
     (map realified (done ++ pre) ++ (t, c) :: post)%list).
Proof.
  intros Hwide. induction pre as [|[t' c'] pre IH]; intros done Hnd Hpass.
  - cbn [app List.length width_check_loop].
    replace (List.length done) with (List.length (map realified done) + 0)
      by (rewrite length_map; lia).
    rewrite nth_error_app2 by lia.
    replace (List.length (map realified done) + 0 - List.length (map realified done))
      with 0 by lia.
    cbn [nth_error].
    destruct (Nat.ltb_spec w (List.length t)) as [_|Hle]; [|lia].
    now rewrite app_nil_r.
  - cbn [app List.length width_check_loop].
    replace (List.length done) with (List.length (map realified done) + 0)
      by (rewrite length_map; lia).
    rewrite nth_error_app2 by lia.
    replace (List.length (map realified done) + 0 - List.length (map realified done))
      with 0 by lia.
    cbn [nth_error].
    assert (Hlen : List.length t' <= w) by exact (Hpass (t', c') (or_introl eq_refl)).
    destruct (Nat.ltb_spec w (List.length t')) as [Hlt|_]; [lia|].
    rewrite dict_set_present.
    + specialize (IH (done ++ [(t', c')])%list).
      rewrite <- !app_assoc in IH. cbn [app] in IH.
      rewrite map_app, <- app_assoc in IH. cbn [map app] in IH.
      rewrite length_app in IH. cbn [List.length] in IH.
      rewrite length_map, Nat.add_0_r.
      replace (List.length done + 1) with (S (List.length done)) in IH by lia.
      unfold realified at 2 in IH. cbn [fst snd] in IH.
      rewrite IH; [reflexivity|exact Hnd|intros tc Htc; apply Hpass; now right].
    + unfold dict_keys in *. rewrite map_map. cbn [realified fst].
      rewrite map_app in Hnd. cbn [map fst] in Hnd.
      apply NoDup_remove_2 in Hnd. intros Hin. apply Hnd.
      apply in_or_app. now left.
Qed.

Section ExpectationMore.
Import BranchSpec.
Variable env : Env.

(** X13.  A failed check leaves the operator half rewritten.  When the first
    term with more factors than the circuit has qubits comes after terms that
    pass, the call raises the [ValueError] that names that term and the
    width, without any backend call; in the caller's operator the
    coefficients of the terms before it are already replaced by their real
    parts, that term and the ones after it are as they were. *)
Theorem get_expectation_value_check_failure (self : Simulator) (pre post : OpTerms)
    (t : Term) (c : PyNum) (state_prep_circuit : Circuit) (w : World env) :
  NoDup (dict_keys (pre ++ (t, c) :: post)%list) ->
  (forall tc, In tc pre -> List.length (fst tc) <= width state_prep_circuit) ->
  width state_prep_circuit < List.length t ->
  get_expectation_value env self (pre ++ (t, c) :: post)%list state_prep_circuit w =
  ((Raise (ValueError ("Term " ++ repr_term t
                       ++ " requires more qubits than the circuit contains ("
                       ++ str_nat (width state_prep_circuit) ++ ")")),
    (map (fun tc => (fst tc, real (snd tc))) pre ++ (t, c) :: post)%list),
   w).
Proof.
  intros Hnd Hpass Hwide. unfold get_expectation_value.
  pose proof (width_check_loop_stop (width state_prep_circuit) t c post Hwide pre []
                Hnd Hpass) as Hloop.
  cbn [app map List.length] in Hloop. rewrite Hloop. reflexivity.
Qed.

(** X14.  The identity operator needs no simulation.  When the expectation
    value is computed from frequencies, the operator with the empty term
    alone, of coefficient [coef], gives [0.0 + coef.real] for every circuit,
    and the backends are not called. *)
Theorem identity_operator_no_simulation (self : Simulator) (coef : PyNum)
    (state_prep_circuit : Circuit) (w : World env) :
  frequency_strategy self state_prep_circuit = true ->
  get_expectation_value env self [([], coef)] state_prep_circuit w =
  ((Return (PyFloat (PrimFloat.add 0%float (num_real coef))), [([], real coef)]), w).
Proof.
  unfold frequency_strategy. intros Hs. unfold get_expectation_value.
  cbn [List.length width_check_loop nth_error].
  replace (width state_prep_circuit <? 0)%nat with false
    by (symmetry; apply Nat.ltb_ge; lia).
  cbn [dict_set term_eqb width_check_loop]. rewrite Hs.
  unfold _get_expectation_value_from_frequencies.
  cbn [from_frequencies_loop List.length].
  replace (width state_prep_circuit <? 0)%nat with false
    by (symmetry; apply Nat.ltb_ge; lia).
  cbn [Nat.eqb from_frequencies_loop]. unfold ret.
  destruct coef; reflexivity.
Qed.

(** The loop of the frequency strategy skips identity terms; at the first
    other term, an empty table from the simulation ends it. *)
Lemma from_frequencies_loop_empty_table (self : Simulator) (op rest : OpTerms)
    (term : Term) (coef : PyNum) (state_prep_circuit basis_circuit full_circuit : Circuit)
    (gates : list Gate) (sv : option PySeq) (w w' : World env) :
  term <> [] ->
  List.length term <= width state_prep_circuit ->
  measurement_basis_gates env term = Return gates ->
  Circuit_init env gates None = Return basis_circuit ->
  (if (0 <? size basis_circuit)%nat
   then Circuit_add env state_prep_circuit basis_circuit
   else Return state_prep_circuit) = Return full_circuit ->
  simulate env self full_circuit false None w = (Return ([], sv), w') ->
  forall (ids : OpTerms) (acc : PyNum),
    (forall tc, In tc ids -> fst tc = []) ->
    from_frequencies_loop env self op state_prep_circuit (width state_prep_circuit)
      (ids ++ (term, coef) :: rest)%list acc w =
    (Raise (TypeError ("unsupported operand type(s) for *: '" ++ type_name coef
                       ++ "' and 'ValueError'")),
     w').
Proof.
  intros Hterm Hlen Hgates Hinit Hfull Hsim.
  induction ids as [|[t c] ids IH]; intros acc Hids.
  - cbn [app from_frequencies_loop].
    destruct (Nat.ltb_spec (width state_prep_circuit) (List.length term)) as [Hlt|_];
      [lia|].
    destruct term as [|f term]; [contradiction|]. cbn [List.length Nat.eqb].
    unfold bind, lift, ret.
    rewrite Hgates. cbv beta iota. rewrite Hinit. cbv beta iota.
    destruct (0 <? size basis_circuit)%nat.
    + rewrite Hfull, Hsim. reflexivity.
    + injection Hfull as ->. rewrite Hsim. reflexivity.
  - cbn [app from_frequencies_loop].
    pose proof (Hids (t, c) (or_introl eq_refl)) as Ht. cbn [fst] in Ht. subst t.
    cbn [List.length Nat.eqb].
    destruct (Nat.ltb_spec (width state_prep_circuit) 0) as [Hlt|_]; [lia|].
    apply IH. intros tc Htc. apply Hids. now right.
Qed.

(** X15.  An empty table ends in a [TypeError].  The frequency strategy
    skips the identity terms at the head of the operator.  When the
    simulation for the first other term (of the state preparation followed
    by the basis change of the term, or of the state preparation alone when
    there is no basis change) returns an empty frequency table, the one-term
    routine hands its [ValueError] object back, and the product with the
    coefficient on line 365 raises [TypeError]: this, not the [ValueError],
    is what the caller sees, whatever terms follow. *)
Theorem empty_table_raises_TypeError (self : Simulator) (ids rest : OpTerms)
    (term : Term) (coef : PyNum) (state_prep_circuit basis_circuit full_circuit : Circuit)
    (gates : list Gate) (sv : option PySeq) (w w' : World env) :
  (forall tc, In tc ids -> fst tc = []) ->
  term <> [] ->
  List.length term <= width state_prep_circuit ->
  measurement_basis_gates env term = Return gates ->
  Circuit_init env gates None = Return basis_circuit ->
  (if (0 <? size basis_circuit)%nat
   then Circuit_add env state_prep_circuit basis_circuit
   else Return state_prep_circuit) = Return full_circuit ->
  simulate env self full_circuit false None w = (Return ([], sv), w') ->
  _get_expectation_value_from_frequencies env self (ids ++ (term, coef) :: rest)%list
    state_prep_circuit w =
  (Raise (TypeError ("unsupported operand type(s) for *: '" ++ type_name coef
                     ++ "' and 'ValueError'")),
   w').
Proof.
  intros Hids Hterm Hlen Hgates Hinit Hfull Hsim.
  unfold _get_expectation_value_from_frequencies.
  exact (from_frequencies_loop_empty_table self _ rest term coef state_prep_circuit
           basis_circuit full_circuit gates sv w w' Hterm Hlen Hgates Hinit Hfull Hsim
           ids (PyFloat 0) Hids).
Qed.

End ExpectationMore.

(** X13 on an operator of three terms, the second of which has too many
    factors for a one-qubit circuit. *)
Lemma get_expectation_value_check_failure_witness :
  get_expectation_value Demo.env (Demo.sim qulacs None)
    [([(0, PauliZ)], PyComplex 1 0.5);
     ([(0, PauliZ); (1, PauliZ)], PyComplex 2 0.5);
     ([(0, PauliX)], PyComplex 3 0.5)]
    Demo.empty_circuit Demo.world0 =
  ((Raise (ValueError "Term ((0, 'Z'), (1, 'Z')) requires more qubits than the circuit contains (1)"),
    [([(0, PauliZ)], PyFloat 1);
     ([(0, PauliZ); (1, PauliZ)], PyComplex 2 0.5);
     ([(0, PauliX)], PyComplex 3 0.5)]),
   Demo.world0).
Proof.
  apply (get_expectation_value_check_failure Demo.env (Demo.sim qulacs None)
           [([(0, PauliZ)], PyComplex 1 0.5)] [([(0, PauliX)], PyComplex 3 0.5)]
           [(0, PauliZ); (1, PauliZ)] (PyComplex 2 0.5) Demo.empty_circuit Demo.world0).
  - simpl. constructor; [|constructor; [|constructor; [|constructor]]]; simpl.
    + intros [H|[H|[]]]; discriminate H.
    + intros [H|[]]. discriminate H.
    + intros [].
  - simpl. intros tc [<-|[]]. simpl. lia.
  - simpl. lia.
Defined.

(** X14 for the qdk simulator. *)
Lemma identity_operator_no_simulation_witness :
  get_expectation_value Demo.env (Demo.sim qdk (Some 10)) [([], PyComplex 0.5 0.25)]
    Demo.x_circuit Demo.world0 =
  ((Return (PyFloat 0.5), [([], PyFloat 0.5)]), Demo.world0).
Proof.
  apply (identity_operator_no_simulation Demo.env (Demo.sim qdk (Some 10))
           (PyComplex 0.5 0.25) Demo.x_circuit Demo.world0).
  reflexivity.
Defined.

(** X15 on a qulacs simulator with a noise model whose shot count was set to
    zero after construction: the shot loop does not run and the table is
    empty.  The operator is 0.5 I + X0 + 2 Z1; the term X0 needs a change of
    basis. *)
Lemma empty_table_raises_TypeError_witness :
  exists w',
    _get_expectation_value_from_frequencies Demo.env
      (mkSimulator "abstract" qulacs (Some (noise_model_object 0)) (Some 0)
         1e-10%float true (Some "msq_first") true)
      [([], PyFloat 0.5); ([(0, PauliX)], PyFloat 1); ([(1, PauliZ)], PyFloat 2)]
      Demo.x_circuit Demo.world0 =
    (Raise (TypeError "unsupported operand type(s) for *: 'float' and 'ValueError'"), w').
Proof.
  assert (H : exists w',
             simulate Demo.env
               (mkSimulator "abstract" qulacs (Some (noise_model_object 0)) (Some 0)
                  1e-10%float true (Some "msq_first") true)
               (mkCircuit [mkGate "X" 0 None None;
                           mkGate "RY" 0 None (Some (-1.5707963267948966)%float)] 2)
               false None Demo.world0 = (Return ([], None), w'))
    by (eexists; vm_compute; reflexivity).
  destruct H as [w' H]. exists w'.
  apply (empty_table_raises_TypeError Demo.env _ [([], PyFloat 0.5)]
           [([(1, PauliZ)], PyFloat 2)] [(0, PauliX)] (PyFloat 1)
           Demo.x_circuit
           (mkCircuit [mkGate "RY" 0 None (Some (-1.5707963267948966)%float)] 1)
           (mkCircuit [mkGate "X" 0 None None;
                       mkGate "RY" 0 None (Some (-1.5707963267948966)%float)] 2)
           [mkGate "RY" 0 None (Some (-1.5707963267948966)%float)] None Demo.world0 w').
  - intros tc [<-|[]]. reflexivity.
  - discriminate.
  - simpl. lia.
  - reflexivity.
  - reflexivity.
  - reflexivity.
  - exact H.
Defined.

(* ================================================================= *)
(** ** The constructor and the guards of [simulate] *)

Section ConstructorMore.
Variable env : Env.

(** X16.  When the constructor succeeds.  [__init__] returns a simulator
    exactly when the target is registered, a noise model is only given to a
    backend with noisy simulation, and a missing shot count ([None] or 0)
    comes with a state-vector backend and no noise model.  The simulator
    then carries the arguments, the threshold 1e-10 and the three flags of
    the target's descriptor, and no backend was called.  A target that is
    not one of the four registered names raises [KeyError], whatever the
    other arguments. *)
Theorem init_returns_iff (target : string) (shots : option nat)
    (noise_model : option NoiseModel) (w w' : World env) (self : Simulator) :
  (__init__ env target shots noise_model w = (Return self, w') <->
   exists t,
     target_of_string target = Return t
     /\ (noise_model <> None -> info_noisy_simulation (backend_info t) = true)
     /\ (not_shots shots = true ->
         info_statevector_available (backend_info t) = true /\ noise_model = None)
     /\ self = mkSimulator "abstract" t noise_model shots 1e-10%float
                 (info_statevector_available (backend_info t))
                 (info_statevector_order (backend_info t))
                 (info_noisy_simulation (backend_info t))
     /\ w' = w)
  /\ (~ In target ["qiskit"; "qulacs"; "projectq"; "qdk"] ->
      __init__ env target shots noise_model w = (Raise (KeyError target), w)).
Proof.
  split; [split|].
  - intros H. destruct (init_Return env target shots noise_model w w' self H)
      as (t & Ht & Hself & Hnoise & Hshots & Hw).
    exists t. split; [exact Ht|]. split; [|split; [|split; assumption]].
    + intros Hn. destruct noise_model; [|congruence]. simpl in Hnoise.
      now destruct (info_noisy_simulation (backend_info t)).
    + intros Hs. rewrite Hs in Hshots. simpl in Hshots.
      apply orb_false_iff in Hshots. destruct Hshots as [Hsv Hn].
      split; [now destruct (info_statevector_available (backend_info t))|].
      now destruct noise_model.
  - intros (t & Ht & Hnoise & Hshots & -> & ->).
    unfold __init__, bind, lift. rewrite Ht.
    cbn [_noise_model noisy_simulation n_shots statevector_available].
    assert (H1 : truthy_noise noise_model
                 && negb (info_noisy_simulation (backend_info t)) = false).
    { destruct noise_model as [m|]; [|reflexivity]. simpl.
      rewrite Hnoise by discriminate. reflexivity. }
    rewrite H1.
    assert (H2 : not_shots shots
                 && (negb (info_statevector_available (backend_info t))
                     || truthy_noise noise_model) = false).
    { destruct (not_shots shots); [|reflexivity].
      destruct (Hshots eq_refl) as [-> ->]. reflexivity. }
    rewrite H2. reflexivity.
  - intros Hnot. unfold __init__, bind, lift, target_of_string.
    assert (Hne : forall n, In n ["qiskit"; "qulacs"; "projectq"; "qdk"] ->
                            String.eqb target n = false).
    { intros n Hin. apply String.eqb_neq. intros ->. contradiction. }
    rewrite !Hne by (simpl; tauto). reflexivity.
Qed.

(** X17.  The guards of [simulate], in their order.  A measuring circuit on
    a simulator whose shot count is [None] or 0 is refused first, also when
    its width is 0; otherwise a circuit of width 0 is refused, also when it
    has no gates.  Both refusals happen before any backend is called. *)
Theorem simulate_guards (self : Simulator) (c : Circuit) (rs : bool)
    (isv : option PySeq) (w : World env) :
  (is_mixed_state c = true -> not_shots (n_shots self) = true ->
   simulate env self c rs isv w =
   (Raise (ValueError "Circuit contains MEASURE instruction, and is assumed to prepare a mixed state.Please set the Simulator.n_shots attribute to an appropriate value."),
    w))
  /\ (is_mixed_state c && not_shots (n_shots self) = false -> width c = 0 ->
      simulate env self c rs isv w =
      (Raise (ValueError "Cannot simulate an empty circuit (e.g identity unitary) with unknown number of qubits."),
       w)).
Proof.
  unfold simulate. split.
  - intros -> ->. reflexivity.
  - intros -> ->. reflexivity.
Qed.

End ConstructorMore.

(** X17 on a measuring circuit without shots, and on the circuit without
    gates and qubits. *)
Lemma simulate_guards_witness :
  fst (simulate Demo.env (Demo.sim qulacs None) Demo.measure_circuit false None
         Demo.world0) =
  Raise (ValueError "Circuit contains MEASURE instruction, and is assumed to prepare a mixed state.Please set the Simulator.n_shots attribute to an appropriate value.")
  /\ fst (simulate Demo.env (Demo.sim qulacs None) (mkCircuit [] 0) true None
            Demo.world0) =
     Raise (ValueError "Cannot simulate an empty circuit (e.g identity unitary) with unknown number of qubits.").
Proof.
  split.
  - rewrite (proj1 (simulate_guards Demo.env (Demo.sim qulacs None) Demo.measure_circuit
                      false None Demo.world0) eq_refl eq_refl).
    reflexivity.
  - rewrite (proj2 (simulate_guards Demo.env (Demo.sim qulacs None) (mkCircuit [] 0)
                      true None Demo.world0) eq_refl eq_refl).
    reflexivity.
Defined.

(* ================================================================= *)
(** ** The IonQ translator: its table, and circuits put together *)

Section IonQMore.
Import IonQ IonQSpec.

(** X18.  The table of [get_ionq_gates]: looking up one of the ten gate
    names gives the name in lower case; looking up any other name raises
    [KeyError]. *)
Theorem ionq_gate_table (n : string) :
  getitem get_ionq_gates n =
  if supported n then Return (PyStr.lower n) else Raise (KeyError n).
Proof.
  destruct (supported n) eqn:Hs.
  - assert (Hin : In n ["H"; "X"; "Y"; "Z"; "S"; "T"; "RX"; "RY"; "RZ"; "CNOT"]).
    { unfold supported, PyStr.mem in Hs. simpl in Hs.
      repeat match type of Hs with
             | (_ || _) = true => apply orb_true_iff in Hs; destruct Hs as [Hs|Hs]
             end;
        try discriminate; apply String.eqb_eq in Hs; subst n; simpl; tauto. }
    simpl in Hin.
    repeat (destruct Hin as [<-|Hin]; [reflexivity|]). contradiction.
  - unfold supported, PyStr.mem in Hs. simpl in Hs.
    repeat match goal with
           | H : (_ || _) = false |- _ =>
               apply orb_false_iff in H; destruct H as [? ?]
           end.
    unfold getitem.
    change get_ionq_gates with
      [("H", "h"); ("X", "x"); ("Y", "y"); ("Z", "z"); ("S", "s"); ("T", "t");
       ("RX", "rx"); ("RY", "ry"); ("RZ", "rz"); ("CNOT", "cnot")].
    cbn [dict_get].
    repeat match goal with
           | H : String.eqb n ?k = false |- _ =>
               rewrite (String.eqb_sym k n), H; clear H
           end.
    reflexivity.
Qed.

Lemma find_app_first {A} (f : A -> bool) (l1 l2 : list A) :
  find f (l1 ++ l2)%list =
  match find f l1 with
  | Some x => Some x
  | None => find f l2
  end.
Proof.
  induction l1 as [|x l1 IH]; [reflexivity|]. simpl. now destruct (f x).
Qed.

Lemma translate_json_ionq_loop (c : Circuit) :
  translate_json_ionq c =
  bindR (translate_loop get_ionq_gates (_gates c) [])
        (fun json_gates =>
           Return (JDict [("qubits", JInt (width c)); ("circuit", JList json_gates)])).
Proof. reflexivity. Qed.

(** X19.  Translation follows the order of the gates.  If two circuits
    translate, the circuit made of the gates of the first followed by those
    of the second translates to the entries of the first followed by those
    of the second; and if the first does not translate, the combined circuit
    raises the same error, whatever follows. *)
Theorem translate_json_ionq_app (g1 g2 : list Gate) (w1 w2 w : nat)
    (l1 l2 : list Json) :
  (translate_json_ionq (mkCircuit g1 w1) =
   Return (JDict [("qubits", JInt w1); ("circuit", JList l1)]) ->
   translate_json_ionq (mkCircuit g2 w2) =
   Return (JDict [("qubits", JInt w2); ("circuit", JList l2)]) ->
   translate_json_ionq (mkCircuit (g1 ++ g2)%list w) =
   Return (JDict [("qubits", JInt w); ("circuit", JList (l1 ++ l2)%list)]))
  /\ (forall e, translate_json_ionq (mkCircuit g1 w1) = Raise e ->
                translate_json_ionq (mkCircuit (g1 ++ g2)%list w) = Raise e).
Proof.
  rewrite !translate_json_ionq_loop. cbn [_gates width].
  rewrite !translate_loop_spec. rewrite find_app_first. cbn [app].
  split.
  - intros H1 H2.
    destruct (find _ g1) as [g|]; [discriminate|].
    destruct (find _ g2) as [g|]; [discriminate|].
    cbn [bindR] in *. inversion H1; inversion H2; subst.
    now rewrite map_app.
  - intros e H1.
    destruct (find _ g1) as [g|]; [exact H1|discriminate].
Qed.

End IonQMore.

(** X19 on the circuits H(0) and CNOT(0 -> 1). *)
Lemma translate_json_ionq_app_witness :
  IonQ.translate_json_ionq
    (mkCircuit [mkGate "H" 0 None None; mkGate "CNOT" 1 (Some 0) None] 2) =
  Return (IonQ.JDict
            [("qubits", IonQ.JInt 2);
             ("circuit",
              IonQ.JList
                [IonQ.JDict [("gate", IonQ.JStr "h"); ("target", IonQ.JInt 0)];
                 IonQ.JDict [("gate", IonQ.JStr "cnot"); ("target", IonQ.JInt 1);
                             ("control", IonQ.JInt 0)]])]).
Proof.
  apply (proj1 (translate_json_ionq_app [mkGate "H" 0 None None]
                  [mkGate "CNOT" 1 (Some 0) None] 1 2 2
                  [IonQ.JDict [("gate", IonQ.JStr "h"); ("target", IonQ.JInt 0)]]
                  [IonQ.JDict [("gate", IonQ.JStr "cnot"); ("target", IonQ.JInt 1);
                               ("control", IonQ.JInt 0)]]));
    reflexivity.
Defined.

(** X16 on the construction of the qdk simulator with ten shots. *)
Lemma init_returns_iff_witness :
  __init__ Demo.env "qdk" (Some 10) None Demo.world0 =
  (Return (Demo.sim qdk (Some 10)), Demo.world0).
Proof.
  apply (proj1 (init_returns_iff Demo.env "qdk" (Some 10) None Demo.world0 Demo.world0
                  (Demo.sim qdk (Some 10)))).
  exists qdk. split; [reflexivity|]. split; [intros H; now contradiction H|].
  split; [discriminate|]. split; reflexivity.
Defined.

(* ================================================================= *)
(** ** The filter on the projectq program *)

Section AllocateFilter.
Import BranchSpec.

Lemma string_app_nil_r (s : string) : s ++ "" = s.
Proof. induction s as [|c s IH]; simpl; [reflexivity|now rewrite IH]. Qed.

Lemma string_app_assoc (a b c : string) : (a ++ b) ++ c = a ++ (b ++ c).
Proof. induction a as [|x a IH]; simpl; [reflexivity|now rewrite IH]. Qed.

Lemma re_sub_allocate_line (rest line : string) :
  forall acc,
    no_newline line = true ->
    re_sub_allocate (line ++ String newline rest) acc =
    (if str_contains "llocate" (acc ++ line) then ""
     else (acc ++ line) ++ String newline "")
    ++ re_sub_allocate rest "".
Proof.
  induction line as [|c line IH]; intros acc Hline.
  - cbn [append re_sub_allocate]. rewrite Ascii.eqb_refl, string_app_nil_r.
    reflexivity.
  - cbn [append re_sub_allocate]. unfold no_newline in Hline.
    cbn [list_ascii_of_string forallb] in Hline.
    apply andb_true_iff in Hline. destruct Hline as [Hc Hline].
    apply negb_true_iff in Hc. rewrite Hc.
    rewrite (IH (acc ++ String c "") Hline), !string_app_assoc. reflexivity.
Qed.

Lemma re_sub_allocate_last (line : string) :
  forall acc, no_newline line = true -> re_sub_allocate line acc = acc ++ line.
Proof.
  induction line as [|c line IH]; intros acc Hline.
  - cbn. now rewrite string_app_nil_r.
  - cbn [re_sub_allocate]. unfold no_newline in Hline.
    cbn [list_ascii_of_string forallb] in Hline.
    apply andb_true_iff in Hline. destruct Hline as [Hc Hline].
    apply negb_true_iff in Hc. rewrite Hc.
    rewrite (IH (acc ++ String c "") Hline), string_app_assoc. reflexivity.
Qed.

(** X20.  The filter of line 179, line by line.  A line that ends in a
    newline is dropped, newline included, when [llocate] occurs in it, and
    kept as it is otherwise; the filter then goes on with the rest.  A last
    line without a newline is always kept, also when [llocate] occurs in
    it. *)
Theorem re_sub_allocate_lines (line rest : string) :
  no_newline line = true ->
  re_sub_allocate (line ++ String newline rest) "" =
  (if str_contains "llocate" line then "" else line ++ String newline "")
  ++ re_sub_allocate rest ""
  /\ re_sub_allocate line "" = line.
Proof.
  intros Hline. split.
  - exact (re_sub_allocate_line rest line "" Hline).
  - exact (re_sub_allocate_last line "" Hline).
Qed.

End AllocateFilter.

(** X20 on a program of three lines. *)
Lemma re_sub_allocate_lines_witness :
  re_sub_allocate ("Allocate | Qureg[0]" ++ String newline "H | Qureg[0]") "" =
  "H | Qureg[0]"
  /\ re_sub_allocate "Deallocate | Qureg[0]" "" = "Deallocate | Qureg[0]".
Proof.
  destruct (re_sub_allocate_lines "Allocate | Qureg[0]" "H | Qureg[0]" eq_refl)
    as [H1 _].
  destruct (re_sub_allocate_lines "Deallocate | Qureg[0]" "" eq_refl) as [_ H2].
  split; [rewrite H1; reflexivity | exact H2].
Defined.

(* ================================================================= *)
(** ** Expectation values: the empty circuit and the qulacs register *)

Section StrategyFacts.
Import OnetermSpec NormalizerSpec BranchSpec.
Variable env : Env.

Lemma fold_left_map {A B C} (f : A -> B -> A) (g : C -> B) (l : list C) :
  forall a, fold_left f (map g l) a = fold_left (fun a x => f a (g x)) l a.
Proof. induction l as [|x l IH]; intros a; [reflexivity|]. simpl. apply IH. Qed.

(** The loop of the frequency strategy on a circuit without gates, when no
    term needs a change of basis. *)
Lemma from_frequencies_loop_zero_state (self : Simulator) (op : OpTerms) (c : Circuit)
    (w : World env) (items : list (Term * PyNum)) :
  size c = 0 ->
  0 < width c ->
  np_allocates env 8 (2 ^ N.of_nat (width c)) = true ->
  (forall tc, In tc items ->
              List.length (fst tc) <= width c
              /\ indices_in_range (fst tc) (width c) = true) ->
  (forall tc, In tc items -> fst tc <> [] ->
              exists gates bc,
                measurement_basis_gates env (fst tc) = Return gates
                /\ Circuit_init env gates None = Return bc
                /\ size bc = 0) ->
  forall acc,
    from_frequencies_loop env self op c (width c) items acc w =
    (Return (fold_left (fun acc tc =>
                          num_add acc
                            (match fst tc with
                             | [] => snd tc
                             | _ :: _ => num_mul (snd tc) (PyFloat 1)
                             end))
                       items acc),
     w).
Proof.
  intros Hsize Hwidth Halloc.
  induction items as [|[term coef] rest IH]; intros Hfit Hbasis acc.
  - reflexivity.
  - cbn [from_frequencies_loop fold_left fst snd].
    destruct (Hfit (term, coef) (or_introl eq_refl)) as [Hlen Hrange].
    cbn [fst] in Hlen, Hrange.
    destruct (Nat.ltb_spec (width c) (List.length term)) as [Hlt|_]; [lia|].
    destruct term as [|fct term].
    + cbn [List.length Nat.eqb]. apply IH.
      * intros tc Htc. apply Hfit. now right.
      * intros tc Htc. apply Hbasis. now right.
    + cbn [List.length Nat.eqb].
      destruct (Hbasis (fct :: term, coef) (or_introl eq_refl) ltac:(discriminate))
        as (gates & bc & Hgates & Hinit & Hbc).
      cbn [fst] in Hgates.
      unfold bind at 1. unfold lift at 1. rewrite Hgates.
      unfold bind at 1. unfold lift at 1. rewrite Hinit.
      rewrite Hbc. cbn [Nat.ltb Nat.leb].
      unfold bind at 1. unfold ret at 1.
      unfold bind at 1. rewrite (simulate_fast_path env self c false None w Hsize Hwidth Halloc).
      cbn [fst].
      unfold bind at 1. unfold lift at 1.
      rewrite (oneterm_zero_table (fct :: term) (width c) Hrange).
      unfold bind at 1. unfold lift at 1. cbn [mul_oneterm].
      apply IH.
      * intros tc Htc. apply Hfit. now right.
      * intros tc Htc. apply Hbasis. now right.
Qed.

(** X21.  The expectation value on a circuit without gates whose state
    vector numpy can hold.  For an operator whose terms fit the circuit and
    need no change of basis (the helper gives no basis gates for them),
    [get_expectation_value] makes no backend call and returns, in the order
    of the terms, the sum of the real coefficients: the identity term with
    its coefficient as it is, every other term with its coefficient times
    1.0.  The operator comes back with real coefficients. *)
Theorem get_expectation_value_empty_circuit (self : Simulator)
    (qubit_operator : OpTerms) (c : Circuit) (w : World env) :
  size c = 0 ->
  0 < width c ->
  np_allocates env 8 (2 ^ N.of_nat (width c)) = true ->
  NoDup (dict_keys qubit_operator) ->
  (forall tc, In tc qubit_operator ->
              List.length (fst tc) <= width c
              /\ indices_in_range (fst tc) (width c) = true) ->
  (forall tc, In tc qubit_operator -> fst tc <> [] ->
              exists gates bc,
                measurement_basis_gates env (fst tc) = Return gates
                /\ Circuit_init env gates None = Return bc
                /\ size bc = 0) ->
  get_expectation_value env self qubit_operator c w =
  ((Return (zero_state_expectation qubit_operator),
    map (fun tc => (fst tc, real (snd tc))) qubit_operator),
   w).
Proof.
  intros Hsize Hwidth Halloc Hnd Hfit Hbasis. unfold get_expectation_value.
  pose proof (width_check_loop_pass (width c) qubit_operator [] Hnd
                (fun tc Htc => proj1 (Hfit tc Htc))) as Hloop.
  cbn [app map List.length] in Hloop. rewrite Hloop.
  rewrite Hsize. cbn [Nat.eqb]. rewrite !orb_true_r.
  unfold _get_expectation_value_from_frequencies.
  rewrite (from_frequencies_loop_zero_state self (map realified qubit_operator) c w
             (map realified qubit_operator) Hsize Hwidth Halloc).
  - rewrite fold_left_map. reflexivity.
  - intros tc Htc. apply in_map_iff in Htc. destruct Htc as (tc0 & <- & Htc0).
    exact (Hfit tc0 Htc0).
  - intros tc Htc Hne. apply in_map_iff in Htc. destruct Htc as (tc0 & <- & Htc0).
    exact (Hbasis tc0 Htc0 Hne).
Qed.

(** X22.  The qulacs fast path uses the register it has just prepared.  With
    target qulacs, no measurement, no noise model and no shot count, a call
    of the state-vector strategy that returns has run the state preparation
    once, and has handed the register of that run (the value of
    [_current_state]) to the expectation routine of qulacs; its result is
    what that routine gives. *)
Theorem qulacs_expectation_uses_prepared_register (self : Simulator)
    (qubit_operator : OpTerms) (c : Circuit) (w w' : World env) (r : PyNum) :
  _target self = qulacs ->
  size c <> 0 ->
  qulacs_sampling self c = false ->
  not_shots (n_shots self) = true ->
  _get_expectation_value_from_statevector env self qubit_operator c w = (Return r, w') ->
  exists state v x y value,
    fst (handle env (QulacsGetVector state) x) = Return v
    /\ fst (handle env (QulacsExpectation qubit_operator (width c) (Some (VObj state))) y)
       = Return value
    /\ r = PyFloat value.
Proof.
  intros Ht Hsize Hs Hn H. unfold _get_expectation_value_from_statevector in H.
  apply bind_Return in H. destruct H as ([f sv] & w1 & Hsim & H).
  destruct (simulate_qulacs_exact_run env self c true None w w1 f sv Ht Hsize Hs Hn Hsim)
    as (state & v & n & x & Hget & _ & _ & _ & Hcur).
  rewrite Ht, Hn in H. cbn [is_qulacs andb] in H.
  apply bind_Return in H. destruct H as (cs & w2 & Hcs & H).
  unfold get_current_state in Hcs. inversion Hcs; subst cs w2.
  apply bind_Return in H. destruct H as (value & w3 & Hcall & H).
  apply ret_Return in H. destruct H as [-> _].
  exists state, v, x, (ext w1), value.
  split; [exact Hget|]. split; [|reflexivity].
  rewrite <- Hcur. exact (call_Return env _ _ _ _ Hcall).
Qed.

End StrategyFacts.

(** X21 on the empty one-qubit circuit and the operator 0.5 I + 2 Z0. *)
Lemma get_expectation_value_empty_circuit_witness :
  get_expectation_value Demo.env (Demo.sim qiskit None)
    [([], PyComplex 0.5 0); ([(0, PauliZ)], PyComplex 2 0)]
    Demo.empty_circuit Demo.world0 =
  ((Return (PyFloat 2.5), [([], PyFloat 0.5); ([(0, PauliZ)], PyFloat 2)]), Demo.world0).
Proof.
  apply (get_expectation_value_empty_circuit Demo.env (Demo.sim qiskit None)
           [([], PyComplex 0.5 0); ([(0, PauliZ)], PyComplex 2 0)]
           Demo.empty_circuit Demo.world0).
  - reflexivity.
  - simpl. lia.
  - reflexivity.
  - simpl. constructor; [|constructor; [|constructor]]; simpl.
    + intros [H|[]]. discriminate H.
    + intros [].
  - simpl. intros tc [<-|[<-|[]]]; simpl; split; (lia || reflexivity).
  - simpl. intros tc [<-|[<-|[]]] Hne; [now contradiction Hne|].
    exists [], (mkCircuit [] 0). repeat split.
Defined.

(** X22 on the one-gate circuit and the operator Z0. *)
Lemma qulacs_expectation_uses_prepared_register_witness :
  exists state v x y value,
    fst (handle Demo.env (QulacsGetVector state) x) = Return v
    /\ fst (handle Demo.env
              (QulacsExpectation [([(0, PauliZ)], PyFloat 1)] 2 (Some (VObj state))) y)
       = Return value
    /\ PyFloat 1 = PyFloat value.
Proof.
  assert (H : exists w',
             _get_expectation_value_from_statevector Demo.env (Demo.sim qulacs None)
               [([(0, PauliZ)], PyFloat 1)] Demo.x_circuit Demo.world0 =
             (Return (PyFloat 1), w'))
    by (eexists; vm_compute; reflexivity).
  destruct H as [w' H].
  exact (qulacs_expectation_uses_prepared_register Demo.env (Demo.sim qulacs None)
           [([(0, PauliZ)], PyFloat 1)] Demo.x_circuit Demo.world0 w' (PyFloat 1)
           eq_refl ltac:(discriminate) eq_refl eq_refl H).
Defined.

(* ================================================================= *)
(** ** The shot path of the projectq branch *)

Section ProjectqFacts.
Import OnetermSpec BranchSpec.
Variable env : Env.

Lemma joined_bits_bitstring (bits : list bool) :
  is_bitstring (PyStr.join (map str_bit bits)) = true.
Proof.
  induction bits as [|b bits IH]; [reflexivity|].
  rewrite join_bits. cbn [is_bitstring]. rewrite IH. now destruct b.
Qed.

(** On a measuring circuit the loop never returns from inside: it runs out
    after one sample per turn, each the string of the bits that the register
    gave when read after the measurement. *)
Lemma projectq_loop_mixed (self : Simulator) (c : Circuit) (rs : bool)
    (isv : option PySeq) (prog : string) (eng Qureg : Obj) (zero : PySeq)
    (shots : nat) :
  is_mixed_state c = true ->
  forall samples w w' out,
    projectq_loop env self c rs isv prog eng Qureg zero shots samples w =
    (Return out, w') ->
    exists drawn,
      out = inl (samples ++ drawn)%list
      /\ List.length drawn = shots
      /\ forall s, In s drawn ->
                   exists x bits,
                     fst (handle env (ProjectqReadQureg Qureg) x) = Return bits
                     /\ s = PyStr.join (map str_bit bits).
Proof.
  intros Hmixed. induction shots as [|shots IH]; intros samples w w' out H.
  - apply ret_Return in H. destruct H as [-> _].
    exists []. rewrite app_nil_r. split; [reflexivity|]. split; [reflexivity|].
    intros s [].
  - cbn [projectq_loop] in H. rewrite Hmixed in H.
    apply bind_Return in H. destruct H as (u1 & w1 & _ & H).
    apply bind_Return in H. destruct H as (u2 & w2 & _ & H).
    apply bind_Return in H. destruct H as (u3 & w3 & _ & H).
    apply bind_Return in H. destruct H as (u4 & w4 & _ & H).
    apply bind_Return in H. destruct H as (bits & w5 & Hread & H).
    apply bind_Return in H. destruct H as (t & w6 & _ & H).
    apply bind_Return in H. destruct H as (u5 & w7 & _ & H).
    destruct (IH _ _ _ _ H) as (drawn & -> & Hlen & Hbits).
    exists (PyStr.join (map str_bit bits) :: drawn). rewrite <- app_assoc.
    split; [reflexivity|]. split; [simpl; now rewrite Hlen|].
    intros s [<-|Hs]; [|exact (Hbits s Hs)].
    exists (ext w4), bits. split; [exact (call_Return env _ _ _ _ Hread)|reflexivity].
Qed.

(** X23.  The shot path of the projectq branch.  On a measuring circuit with
    a positive [n_shots], a run that returns has measured one register
    exactly [n_shots] times; each sample is the string of the bits that the
    register gave when read, qubit 0 first, hence a string of 0 and 1; the
    table has one entry per distinct sample, with count / n_shots, under
    the sample itself as key; no state vector is returned. *)
Theorem simulate_projectq_shots (self : Simulator) (c : Circuit) (rs : bool)
    (isv : option PySeq) (w w' : World env) (f : Frequencies) (sv : option PySeq)
    (m : nat) :
  _target self = projectq ->
  is_mixed_state c = true ->
  n_shots self = Some (S m) ->
  simulate env self c rs isv w = (Return (f, sv), w') ->
  sv = None
  /\ exists Qureg samples,
       List.length samples = S m
       /\ (forall s, In s samples ->
                     is_bitstring s = true
                     /\ exists x bits,
                          fst (handle env (ProjectqReadQureg Qureg) x) = Return bits
                          /\ s = PyStr.join (map str_bit bits))
       /\ f = projectq_shot_table (S m) samples.
Proof.
  intros Ht Hmixed Hn H.
  assert (Hsize : size c <> 0).
  { intros H0. rewrite (size_0_not_mixed c H0) in Hmixed. discriminate. }
  apply simulate_backend in H; [|exact Hsize]. rewrite Ht in H.
  unfold simulate_projectq in H.
  apply bind_Return in H. destruct H as (tc & w1 & _ & H).
  apply bind_Return in H. destruct H as (zero & w2 & _ & H).
  apply bind_Return in H. destruct H as (eng & w3 & _ & H).
  apply bind_Return in H. destruct H as (Qureg & w4 & _ & H).
  apply bind_Return in H. destruct H as (u & w5 & _ & H).
  apply bind_Return in H. destruct H as (shots & w6 & Hshots & H).
  apply bind_Return in H. destruct H as (out & w7 & Hloop & H).
  apply lift_Return in Hshots. destruct Hshots as [Hshots _].
  rewrite Hmixed, Hn in Hshots. cbn in Hshots. injection Hshots as <-.
  destruct (projectq_loop_mixed self c rs isv _ eng Qureg _ (S m) Hmixed [] w6 w7 out Hloop)
    as (drawn & -> & Hlen & Hbits).
  cbn [app] in H.
  apply bind_Return in H. destruct H as (fs & w8 & Hcomp & H).
  apply ret_Return in H. destruct H as [H _]. inversion H; subst fs sv.
  apply lift_Return in Hcomp. destruct Hcomp as [Hcomp _].
  rewrite Hn in Hcomp.
  rewrite (freq_comp_fresh _ _
             (fun sc : string * nat => PrimFloat.div (float_of_nat (snd sc))
                                                     (float_of_nat (S m)))) in Hcomp.
  - injection Hcomp as <-. split; [reflexivity|].
    exists Qureg, drawn. split; [exact Hlen|]. split; [|reflexivity].
    intros s Hs. destruct (Hbits s Hs) as (x & bits & Hread & ->).
    split; [apply joined_bits_bitstring|]. exists x, bits. split; [exact Hread|reflexivity].
  - intros x _. reflexivity.
  - apply (Counter_keys _ String.eqb String.eqb_eq).
  - intros x _ [].
Qed.

End ProjectqFacts.

(** X23 on the measuring circuit with four shots: the demo register reads 1
    on qubit 0 and 0 on qubit 1 every time. *)
Lemma simulate_projectq_shots_witness :
  exists Qureg samples,
    List.length samples = 4
    /\ (forall s, In s samples ->
                  OnetermSpec.is_bitstring s = true
                  /\ exists x bits,
                       fst (handle Demo.env (ProjectqReadQureg Qureg) x) = Return bits
                       /\ s = PyStr.join (map str_bit bits))
    /\ [("10", 1%float)] = BranchSpec.projectq_shot_table 4 samples.
Proof.
  assert (H : exists w', simulate Demo.env (Demo.sim projectq (Some 4))
                           Demo.measure_circuit true None Demo.world0 =
                         (Return ([("10", 1%float)], None), w'))
    by (eexists; vm_compute; reflexivity).
  destruct H as [w' H].
  exact (proj2 (simulate_projectq_shots Demo.env (Demo.sim projectq (Some 4))
                  Demo.measure_circuit true None Demo.world0 w' [("10", 1%float)] None 3
                  eq_refl eq_refl eq_refl H)).
Defined.

(* ================================================================= *)
(** ** When [simulate] calls a backend *)

Section CallLog.
Import BranchSpec.
Variable env : Env.

Lemma appends_ret {A} (a : A) : appends_calls env (ret a).
Proof. intros w. exists []. cbn. now rewrite app_nil_r. Qed.

Lemma appends_raise {A} (e : Exn) : appends_calls env (@raise env A e).
Proof. intros w. exists []. cbn. now rewrite app_nil_r. Qed.

Lemma appends_lift {A} (r : PyResult A) : appends_calls env (lift r).
Proof. intros w. exists []. cbn. now rewrite app_nil_r. Qed.

Lemma appends_set (v : PyVal) : appends_calls env (set_current_state v).
Proof. intros w. exists []. cbn. now rewrite app_nil_r. Qed.

Lemma appends_call {T} (e : BackendE T) : appends_calls env (call e).
Proof.
  intros w. exists [call_of e]. unfold call.
  destruct (handle env e (ext w)) as [r x]. reflexivity.
Qed.

Lemma appends_bind {A B} (m : Py env A) (k : A -> Py env B) :
  appends_calls env m -> (forall a, appends_calls env (k a)) ->
  appends_calls env (bind m k).
Proof.
  intros Hm Hk w. unfold bind. destruct (Hm w) as [l Hl].
  destruct (m w) as [[a|e] w1]; cbn [snd] in Hl.
  - destruct (Hk a w1) as [l' Hl']. exists (l ++ l')%list.
    now rewrite Hl', Hl, app_assoc.
  - exists l. exact Hl.
Qed.

Ltac appends_known := fail.

Ltac appends :=
  repeat first
    [ appends_known | apply appends_ret | apply appends_raise | apply appends_lift
    | apply appends_set | apply appends_call
    | apply appends_bind; [|intro]
    | match goal with
      | |- appends_calls _ (if ?b then _ else _) => destruct b
      | |- appends_calls _ (match ?x with _ => _ end) => destruct x
      end ].

Lemma appends_statevector_to_frequencies (self : Simulator) (sv : PySeq) :
  appends_calls env (_statevector_to_frequencies env self sv).
Proof. unfold _statevector_to_frequencies. appends. Qed.

Ltac appends_known ::= apply appends_statevector_to_frequencies.

Lemma appends_qulacs_loop (self : Simulator) (c : Circuit) (rs : bool)
    (isv : option PySeq) (tc state : Obj) (shots : nat) :
  forall samples,
    appends_calls env (qulacs_loop env self c rs isv tc state shots samples).
Proof.
  induction shots as [|shots IH]; intros samples; cbn [qulacs_loop].
  - appends.
  - apply appends_bind; [appends|intros u].
    destruct (is_mixed_state c || truthy_noise (_noise_model self)).
    + apply appends_bind; [appends|intros s].
      apply appends_bind; [appends|intros t].
      apply appends_bind; [appends|intros u'].
      apply IH.
    + apply appends_bind; [appends|intros u'].
      apply appends_bind; [appends|intros v].
      apply appends_bind; [apply appends_statevector_to_frequencies|intros f].
      appends.
Qed.

Lemma appends_projectq_loop (self : Simulator) (c : Circuit) (rs : bool)
    (isv : option PySeq) (prog : string) (eng Qureg : Obj) (zero : PySeq)
    (shots : nat) :
  forall samples,
    appends_calls env
      (projectq_loop env self c rs isv prog eng Qureg zero shots samples).
Proof.
  induction shots as [|shots IH]; intros samples; cbn [projectq_loop].
  - appends.
  - apply appends_bind; [appends|intros u1].
    apply appends_bind; [appends|intros u2].
    destruct (is_mixed_state c).
    + apply appends_bind; [appends|intros u3].
      apply appends_bind; [appends|intros u4].
      apply appends_bind; [appends|intros bits].
      apply appends_bind; [appends|intros t].
      apply appends_bind; [appends|intros u5].
      apply IH.
    + apply appends_bind; [appends|intros cs].
      apply appends_bind; [appends|intros u3].
      apply appends_bind; [appends|intros v].
      apply appends_bind; [appends|intros u4].
      apply appends_bind; [appends|intros u5].
      apply appends_bind; [apply appends_statevector_to_frequencies|intros f].
      appends.
Qed.

(** A branch starts with the call of its translator. *)
Lemma first_call_logged {T A} (e : BackendE T) (k : T -> Py env A) (w : World env) :
  (forall a, appends_calls env (k a)) ->
  calls (snd (bind (call e) k w)) <> calls w.
Proof.
  intros Hk. unfold bind, call.
  destruct (handle env e (ext w)) as [[a|ex] x].
  - destruct (Hk a (mkWorld env (_current_state w) (calls w ++ [call_of e]) x)) as [l Hl].
    rewrite Hl. cbn [calls]. intros Heq.
    apply (f_equal (@List.length Call)) in Heq.
    rewrite !length_app in Heq. simpl in Heq. lia.
  - cbn [snd calls]. intros Heq.
    apply (f_equal (@List.length Call)) in Heq.
    rewrite length_app in Heq. simpl in Heq. lia.
Qed.

(** X24.  When [simulate] is free.  A call of [simulate] reaches no backend
    (no translator, no simulator, no sampler) exactly when it is refused by
    one of its two guards or the circuit has no gates; in every other case
    the translator of the target is called, whether the run then succeeds
    or not. *)
Theorem simulate_no_backend_iff (self : Simulator) (c : Circuit) (rs : bool)
    (isv : option PySeq) (w : World env) :
  calls (snd (simulate env self c rs isv w)) = calls w
  <-> is_mixed_state c && not_shots (n_shots self) = true
      \/ width c = 0 \/ size c = 0.
Proof.
  unfold simulate.
  destruct (is_mixed_state c && not_shots (n_shots self)) eqn:Hg.
  { split; [now left|reflexivity]. }
  destruct (Nat.eqb_spec (width c) 0) as [Hw|Hw].
  { split; [now right; left|reflexivity]. }
  destruct (Nat.eqb_spec (size c) 0) as [Hs|Hs].
  { split; [now right; right|]. intros _.
    unfold bind, lift, ret.
    destruct (zero_state env 8 (2 ^ N.of_nat (width c)) (PyFloat 0) (PyFloat 1));
      reflexivity. }
  split.
  - intros Hcalls. exfalso. revert Hcalls.
    destruct (_target self).
    + unfold simulate_qulacs. apply first_call_logged. intros tc.
      apply appends_bind; [appends|intros state].
      apply appends_bind; [appends|intros u].
      apply appends_bind; [appends|intros shots].
      apply appends_bind; [apply appends_qulacs_loop|intros out].
      appends.
    + unfold simulate_qiskit. apply first_call_logged. intros tc. appends.
    + unfold simulate_projectq. apply first_call_logged. intros tc.
      apply appends_bind; [appends|intros zero].
      apply appends_bind; [appends|intros eng].
      apply appends_bind; [appends|intros Qureg].
      apply appends_bind; [appends|intros u].
      apply appends_bind; [appends|intros shots].
      apply appends_bind; [apply appends_projectq_loop|intros out].
      appends.
    + unfold simulate_qdk. apply first_call_logged. intros tc. appends.
  - intros [H|[H|H]]; [discriminate|contradiction|contradiction].
Qed.

End CallLog.

(* ================================================================= *)
(** ** Where the keys of a frequency table come from *)

Section KeyOrigin.
Import OnetermSpec NormalizerSpec BranchSpec KeySpec.
Variable env : Env.

(** Reading a numeral: the digits read so far are the high part of the
    result. *)
Lemma int2_acc_range (s : string) :
  forall acc v,
    int2_acc s acc = Return v ->
    is_bitstring s = true
    /\ acc * 2 ^ String.length s <= v < (acc + 1) * 2 ^ String.length s.
Proof.
  induction s as [|c s IH]; intros acc v H; cbn [int2_acc] in H.
  - inversion H; subst. cbn. split; [reflexivity|lia].
  - cbn [is_bitstring String.length]. rewrite Nat.pow_succ_r'.
    destruct (Ascii.eqb c "0") eqn:H0.
    + destruct (IH _ _ H) as [Hb Hr]. rewrite Hb. split; [reflexivity|]. nia.
    + destruct (Ascii.eqb c "1") eqn:H1; [|discriminate H].
      destruct (IH _ _ H) as [Hb Hr]. rewrite Hb. split; [reflexivity|]. nia.
Qed.

(** Two numerals of one length with one value are one string. *)
Lemma int2_acc_inj (s : string) :
  forall t acc v,
    String.length s = String.length t ->
    int2_acc s acc = Return v -> int2_acc t acc = Return v -> s = t.
Proof.
  induction s as [|c s IH]; intros [|d t] acc v Hlen Hs Ht;
    try discriminate Hlen; [reflexivity|].
  cbn [String.length] in Hlen. injection Hlen as Hlen.
  cbn [int2_acc] in Hs, Ht.
  destruct (Ascii.eqb_spec c "0") as [Hc0|Hc0];
    destruct (Ascii.eqb_spec d "0") as [Hd0|Hd0].
  - subst c d. f_equal. exact (IH _ _ _ Hlen Hs Ht).
  - destruct (Ascii.eqb_spec d "1") as [Hd1|Hd1]; [|discriminate Ht]. exfalso.
    apply int2_acc_range in Hs. apply int2_acc_range in Ht.
    rewrite Hlen in Hs. nia.
  - destruct (Ascii.eqb_spec c "1") as [Hc1|Hc1]; [|discriminate Hs]. exfalso.
    apply int2_acc_range in Hs. apply int2_acc_range in Ht.
    rewrite Hlen in Hs. nia.
  - destruct (Ascii.eqb_spec c "1") as [Hc1|Hc1]; [|discriminate Hs].
    destruct (Ascii.eqb_spec d "1") as [Hd1|Hd1]; [|discriminate Ht].
    subst c d. f_equal. exact (IH _ _ _ Hlen Hs Ht).
Qed.

(** A binary numeral is the padded binary of its value on its own length. *)
Lemma numeral_padded (r : string) (i : nat) :
  int2 r = Return i -> padded (String.length r) i = r.
Proof.
  intros H.
  assert (Hn : 0 < String.length r) by (destruct r; [discriminate H|cbn; lia]).
  assert (Hr : int2_acc r 0 = Return i) by (destruct r; [discriminate H|exact H]).
  destruct (int2_acc_range _ _ _ Hr) as [_ Hrange].
  assert (Hi : i < 2 ^ String.length r) by lia.
  assert (Hlen : String.length (padded (String.length r) i) = String.length r).
  { rewrite padded_length. pose proof (digits_length i _ Hn Hi). lia. }
  apply (int2_acc_inj _ _ 0 i Hlen); [|exact Hr].
  pose proof (int2_padded (String.length r) i) as Hp.
  destruct (padded (String.length r) i); [cbn in Hlen; lia|exact Hp].
Qed.

(** Under the order msq_first the shot branches' reversal is the
    conversion. *)
Lemma rev_numeral_key (self : Simulator) (r : string) :
  statevector_order self = Some "msq_first" ->
  numeral_key self r (PyStr.rev r).
Proof.
  intros Hmsq. split; [reflexivity|]. intros i Hi.
  rewrite int_to_binstr_normalized. unfold normalized. rewrite Hmsq.
  cbn [is_msq_first]. rewrite String.eqb_refl.
  now rewrite (numeral_padded r i Hi).
Qed.

Lemma list_of_repeat_zero (w : nat) :
  list_ascii_of_string (PyStr.repeat "0" w) = List.repeat "0"%char w.
Proof. induction w as [|w IH]; [reflexivity|]. cbn. now rewrite IH. Qed.

Lemma rev_repeat_zero (w : nat) : PyStr.rev (PyStr.repeat "0" w) = PyStr.repeat "0" w.
Proof.
  unfold PyStr.rev. rewrite list_of_repeat_zero.
  assert (H : List.rev (List.repeat "0"%char w) = List.repeat "0"%char w).
  { induction w as [|w IH]; [reflexivity|].
    cbn [List.repeat List.rev]. rewrite IH. symmetry. apply repeat_cons. }
  rewrite H, <- list_of_repeat_zero. apply string_of_list_ascii_of_string.
Qed.

(** The key of the empty-circuit path is the conversion of basis state 0. *)
Lemma zero_key (self : Simulator) (w : nat) :
  0 < w -> __int_to_binstr self 0 w = PyStr.repeat "0" w.
Proof.
  intros Hw. rewrite int_to_binstr_normalized. unfold normalized.
  assert (Hp : padded w 0 = PyStr.repeat "0" w).
  { pose proof (numeral_padded (PyStr.repeat "0" w) 0) as H.
    rewrite repeat_zero_length in H. apply H. unfold int2.
    destruct (PyStr.repeat "0" w) eqn:E.
    - apply (f_equal String.length) in E. rewrite repeat_zero_length in E.
      cbn in E. lia.
    - rewrite <- E. apply int2_acc_zeros. }
  rewrite Hp. destruct (is_msq_first (statevector_order self));
    [apply rev_repeat_zero|reflexivity].
Qed.

(** The keys of the table that the normalizer makes of a state vector. *)
Lemma statevector_to_frequencies_key (self : Simulator) (v : PySeq)
    (w w' : World env) (f : Frequencies) (k : string) :
  statevector_order self = Some "msq_first" ->
  _statevector_to_frequencies env self v w = (Return f, w') ->
  In k (dict_keys f) ->
  statevector_key env self v k.
Proof.
  intros Hmsq H Hk. unfold _statevector_to_frequencies in H.
  apply bind_Return in H. destruct H as (n & w1 & Hn & H).
  apply lift_Return in Hn. destruct Hn as [Hn ->].
  rewrite sv_loop_exact_table in H.
  assert (Hexact : In k (dict_keys (exact_table env self n v)) ->
                   exists i, k = __int_to_binstr self i n
                             /\ In i (map fst (retained env self v))).
  { intros Hin. unfold dict_keys, exact_table in Hin. rewrite map_map in Hin.
    apply in_map_iff in Hin. destruct Hin as (ip & <- & Hip).
    exists (fst ip). split; [reflexivity|]. now apply in_map. }
  unfold statevector_key.
  destruct (n_shots self) as [[|m]|] eqn:Hshots; cbn [not_shots] in H.
  - apply ret_Return in H. destruct H as [-> _].
    destruct (Hexact Hk) as (i & -> & Hi). exists n, i. auto.
  - rewrite (xk_pk_exact_table env self n v Hmsq) in H.
    apply bind_Return in H. destruct H as ([xk pk] & w2 & Hxp & H).
    apply lift_Return in Hxp. destruct Hxp as [Hxp ->]. injection Hxp as <- <-.
    apply bind_Return in H. destruct H as (samples & w3 & Hcall & H).
    apply bind_Return in H. destruct H as (fs & w4 & Hcomp & H).
    apply ret_Return in H. destruct H as [-> _].
    apply lift_Return in Hcomp. destruct Hcomp as [Hcomp _].
    rewrite freqs_shots_empirical in Hcomp. injection Hcomp as <-.
    unfold dict_keys, empirical_table in Hk. rewrite map_map in Hk.
    apply in_map_iff in Hk. destruct Hk as (kc & <- & Hin).
    exists n, (fst kc). split; [exact Hn|]. split; [reflexivity|].
    exists (ext w), samples. split; [exact (call_Return env _ _ _ _ Hcall)|].
    apply (Counter_keys_in Nat.eqb Nat.eqb_eq). now apply (in_map fst) in Hin.
  - apply ret_Return in H. destruct H as [-> _].
    destruct (Hexact Hk) as (i & -> & Hi). exists n, i. auto.
Qed.

(** Without sampling the first turn of the qulacs loop reads the register
    and returns the table of its state vector. *)
Lemma qulacs_loop_exact (self : Simulator) (c : Circuit) (rs : bool)
    (isv : option PySeq) (tc state : Obj) (shots : nat) (samples : list nat)
    (w w' : World env) (out : list nat + (Frequencies * option PySeq)) :
  qulacs_sampling self c = false ->
  qulacs_loop env self c rs isv tc state (S shots) samples w = (Return out, w') ->
  exists x v w1 w2 f,
    fst (handle env (QulacsGetVector state) x) = Return v
    /\ _statevector_to_frequencies env self v w1 = (Return f, w2)
    /\ out = inr (with_statevector rs f (np_array v)).
Proof.
  unfold qulacs_sampling. intros Hs H. cbn [qulacs_loop] in H. rewrite Hs in H.
  apply bind_Return in H. destruct H as (u1 & w1 & _ & H).
  apply bind_Return in H. destruct H as (u2 & w2 & _ & H).
  apply bind_Return in H. destruct H as (v & w3 & Hget & H).
  apply bind_Return in H. destruct H as (f & w4 & Hf & H).
  apply ret_Return in H. destruct H as [-> _].
  exists (ext w2), v, w3, w4, f.
  split; [exact (call_Return env _ _ _ _ Hget)|]. split; [exact Hf|reflexivity].
Qed.

(** On a circuit that does not measure the first turn of the projectq loop
    reads the wavefunction and returns the table of it. *)
Lemma projectq_loop_exact (self : Simulator) (c : Circuit) (rs : bool)
    (isv : option PySeq) (prog : string) (eng Qureg : Obj) (zero : PySeq)
    (shots : nat) (samples : list string) (w w' : World env)
    (out : list string + (Frequencies * option PySeq)) :
  is_mixed_state c = false ->
  projectq_loop env self c rs isv prog eng Qureg zero (S shots) samples w =
  (Return out, w') ->
  exists x v w1 w2 f sv,
    fst (handle env (ProjectqCheat eng) x) = Return v
    /\ _statevector_to_frequencies env self v w1 = (Return f, w2)
    /\ out = inr (with_statevector rs f sv).
Proof.
  intros Hmixed H. cbn [projectq_loop] in H. rewrite Hmixed in H.
  apply bind_Return in H. destruct H as (u1 & w1 & _ & H).
  apply bind_Return in H. destruct H as (u2 & w2 & _ & H).
  apply bind_Return in H. destruct H as (v & w3 & Hcheat & H).
  apply bind_Return in H. destruct H as (u3 & w4 & _ & H).
  apply bind_Return in H. destruct H as (sv & w5 & _ & H).
  apply bind_Return in H. destruct H as (u4 & w6 & _ & H).
  apply bind_Return in H. destruct H as (u5 & w7 & _ & H).
  apply bind_Return in H. destruct H as (f & w8 & Hf & H).
  apply ret_Return in H. destruct H as [-> _].
  exists (ext w2), v, w7, w8, f, (np_array sv).
  split; [exact (call_Return env _ _ _ _ Hcheat)|]. split; [exact Hf|reflexivity].
Qed.

Lemma with_statevector_table (rs : bool) (f f' : Frequencies) (sv : PySeq)
    (sv' : option PySeq) :
  with_statevector rs f sv = (f', sv') -> f' = f.
Proof. unfold with_statevector. destruct rs; intros H; now inversion H. Qed.

(** C5, as the code has it.  [__int_to_binstr] is the conversion the
    specification describes: ordinary binary, zero-padded on the left to the
    qubit count, reversed iff the order is msq_first.  For a simulator whose
    order is the one its target's descriptor declares, every key of a table
    that [simulate] returns on qulacs, qiskit or projectq is what this
    conversion gives for a basis state of the backend's raw output: basis
    state 0 on the width of the circuit for a circuit without gates; a
    sample of the register on the width of the circuit in the qulacs shot
    path; a retained index, or a sample scipy drew from the retained
    indices, on the qubit count of the state vector wherever the table is
    made from one; the integer of a counted string (qiskit) or of the bits
    read from the register (projectq) on their own length in the two other
    shot paths, which reverse the string themselves.  The qdk branch is the
    exception: its key for index [i] of the list Q# answered is the padded
    binary of [i] reversed, whatever order its descriptor declares. *)
Theorem simulate_keys :
  (forall self i n,
      __int_to_binstr self i n = normalized (statevector_order self) n i)
  /\ (forall self c rs isv (w w' : World env) f sv k,
         statevector_order self = info_statevector_order (backend_info (_target self)) ->
         simulate env self c rs isv w = (Return (f, sv), w') ->
         In k (dict_keys f) ->
         key_origin env self c k).
Proof.
  split; [exact int_to_binstr_normalized|].
  intros self c rs isv w w' f sv k Hdesc H Hk. unfold key_origin.
  destruct (Nat.eqb_spec (size c) 0) as [Hsize|Hsize].
  - assert (Hwidth : 0 < width c).
    { unfold simulate in H.
      destruct (is_mixed_state c && not_shots (n_shots self));
        [now apply raise_Return in H|].
      destruct (Nat.eqb_spec (width c) 0) as [H0|H0];
        [now apply raise_Return in H|lia]. }
    rewrite (simulate_fast_path_run env self c rs isv w Hsize Hwidth) in H.
    destruct (zero_state env 8 (2 ^ N.of_nat (width c)) (PyFloat 0) (PyFloat 1))
      as [z|e]; cbn [bindR] in H; [|discriminate H].
    injection H as H _. apply with_statevector_table in H. subst f.
    destruct Hk as [<-|[]]. cbn [fst]. symmetry. exact (zero_key self (width c) Hwidth).
  - apply simulate_backend in H; [|exact Hsize].
    destruct (_target self) eqn:Ht; cbn [backend_info info_statevector_order] in Hdesc.
    + (* qulacs *)
      unfold simulate_qulacs in H.
      apply bind_Return in H. destruct H as (tc & w1 & _ & H).
      apply bind_Return in H. destruct H as (state & w2 & _ & H).
      apply bind_Return in H. destruct H as (u & w3 & _ & H).
      apply bind_Return in H. destruct H as (shots & w4 & Hshots & H).
      apply bind_Return in H. destruct H as (out & w5 & Hloop & H).
      apply lift_Return in Hshots. destruct Hshots as [Hshots _].
      exists state.
      destruct (is_mixed_state c || truthy_noise (_noise_model self)) eqn:Hs.
      * destruct (qulacs_loop_sampling env self c rs isv tc state shots Hs [] w4 w5 out
                    Hloop) as (drawn & -> & _ & Hdrawn).
        cbn [app] in H.
        apply bind_Return in H. destruct H as (fs & w6 & Hcomp & H).
        apply ret_Return in H. destruct H as [H _]. inversion H; subst fs sv.
        apply lift_Return in Hcomp. destruct Hcomp as [Hcomp _].
        destruct (freq_comp_keys _ _ _ k _ _ Hcomp Hk) as [[]|(kc & Hkc & ->)].
        apply (in_map fst) in Hkc.
        apply (Counter_keys_in Nat.eqb Nat.eqb_eq) in Hkc.
        destruct (Hdrawn _ Hkc) as [x Hx]. exists x, (fst kc). auto.
      * cbn in Hshots. injection Hshots as <-.
        destruct (qulacs_loop_exact self c rs isv tc state 0 [] w4 w5 out Hs Hloop)
          as (x & v & w6 & w7 & fs & Hget & Hfs & ->).
        apply ret_Return in H. destruct H as [H _]. symmetry in H.
        apply with_statevector_table in H. subst fs.
        exists x, v. split; [exact Hget|].
        exact (statevector_to_frequencies_key self v w6 w7 f k Hdesc Hfs Hk).
    + (* qiskit *)
      unfold simulate_qiskit in H.
      apply bind_Return in H. destruct H as (tc & w1 & _ & H).
      apply bind_Return in H. destruct H as (tc' & w2 & _ & H).
      destruct (truthy_noise (_noise_model self) || is_mixed_state c).
      * apply bind_Return in H. destruct H as (counts & w3 & Hcall & H).
        apply bind_Return in H. destruct H as (fs & w4 & Hcomp & H).
        apply ret_Return in H. destruct H as [H _]. inversion H; subst fs sv.
        apply lift_Return in Hcomp. destruct Hcomp as [Hcomp _].
        destruct (freq_comp_keys _ _ _ k _ _ Hcomp Hk) as [[]|(sc & Hsc & ->)].
        exists tc', (ext w2), counts, (fst sc).
        split; [exact (call_Return env _ _ _ _ Hcall)|].
        split; [now apply in_map|]. exact (rev_numeral_key self (fst sc) Hdesc).
      * apply bind_Return in H. destruct H as (res & w3 & _ & H).
        apply bind_Return in H. destruct H as (v & w4 & Hget & H).
        apply bind_Return in H. destruct H as (u & w5 & Hset & H).
        apply bind_Return in H. destruct H as (fs & w6 & Hfs & H).
        assert (Hf : f = fs).
        { destruct rs.
          - apply bind_Return in H. destruct H as (sv' & w7 & _ & H).
            apply ret_Return in H. destruct H as [H _]. now inversion H.
          - apply ret_Return in H. destruct H as [H _]. now inversion H. }
        subst fs. exists res, (ext w3), v.
        split; [exact (call_Return env _ _ _ _ Hget)|].
        exact (statevector_to_frequencies_key self v w5 w6 f k Hdesc Hfs Hk).
    + (* projectq *)
      unfold simulate_projectq in H.
      apply bind_Return in H. destruct H as (tc & w1 & _ & H).
      apply bind_Return in H. destruct H as (zero & w2 & _ & H).
      apply bind_Return in H. destruct H as (eng & w3 & _ & H).
      apply bind_Return in H. destruct H as (Qureg & w4 & _ & H).
      apply bind_Return in H. destruct H as (u & w5 & _ & H).
      apply bind_Return in H. destruct H as (shots & w6 & Hshots & H).
      apply bind_Return in H. destruct H as (out & w7 & Hloop & H).
      apply lift_Return in Hshots. destruct Hshots as [Hshots _].
      destruct (is_mixed_state c) eqn:Hmixed.
      * destruct (projectq_loop_mixed env self c rs isv _ eng Qureg _ shots Hmixed []
                    w6 w7 out Hloop) as (drawn & -> & _ & Hdrawn).
        cbn [app] in H.
        apply bind_Return in H. destruct H as (fs & w8 & Hcomp & H).
        apply ret_Return in H. destruct H as [H _]. inversion H; subst fs sv.
        apply lift_Return in Hcomp. destruct Hcomp as [Hcomp _].
        destruct (freq_comp_keys _ _ _ k _ _ Hcomp Hk) as [[]|(sc & Hsc & ->)].
        apply (in_map fst) in Hsc.
        apply (Counter_keys_in String.eqb String.eqb_eq) in Hsc.
        destruct (Hdrawn _ Hsc) as (x & bits & Hread & Hbits).
        exists Qureg, x, bits. split; [exact Hread|].
        rewrite Hbits.
        pose proof (rev_numeral_key self (PyStr.rev (PyStr.join (map str_bit bits)))
                      Hdesc) as Hkey.
        rewrite rev_involutive in Hkey. exact Hkey.
      * cbn in Hshots. injection Hshots as <-.
        destruct (projectq_loop_exact self c rs isv _ eng Qureg _ 0 [] w6 w7 out Hmixed
                    Hloop) as (x & v & w8 & w9 & fs & sv' & Hcheat & Hfs & ->).
        apply ret_Return in H. destruct H as [H _]. symmetry in H.
        apply with_statevector_table in H. subst fs.
        exists eng, x, v. split; [exact Hcheat|].
        exact (statevector_to_frequencies_key self v w8 w9 f k Hdesc Hfs Hk).
    + (* qdk *)
      unfold simulate_qdk in H.
      apply bind_Return in H. destruct H as (tc & w1 & _ & H).
      apply bind_Return in H. destruct H as (u1 & w2 & _ & H).
      apply bind_Return in H. destruct H as (u2 & w3 & _ & H).
      apply bind_Return in H. destruct H as (l & w4 & Hcall & H).
      apply ret_Return in H. destruct H as [H _]. inversion H; subst f sv.
      rewrite qdk_frequencies_table in Hk. unfold dict_keys, qdk_table in Hk.
      rewrite map_map in Hk. apply in_map_iff in Hk. destruct Hk as (iv & <- & Hin).
      apply filter_In in Hin. destruct Hin as [Hin _].
      exists (ext w3), l, (fst iv).
      split; [exact (call_Return env _ _ _ _ Hcall)|]. split; [|reflexivity].
      apply (in_map fst) in Hin. unfold enumerate in Hin.
      rewrite (map_fst_enumerate l 0) in Hin. apply in_seq in Hin. lia.
Qed.

End KeyOrigin.

(** C5 on three runs of the demo backends: the key of the qulacs run of the
    one-gate circuit is the conversion of retained index 1 of the register's
    state vector; a key of the qiskit shot run is the conversion of the
    integer of a counted string; the key of the empty one-qubit circuit is
    the conversion of basis state 0. *)
Lemma simulate_keys_witness :
  KeySpec.key_origin Demo.env (Demo.sim qulacs None) Demo.x_circuit "10"
  /\ KeySpec.key_origin Demo.env (Demo.sim qiskit (Some 4)) Demo.measure_circuit "10"
  /\ KeySpec.key_origin Demo.env (Demo.sim projectq None) Demo.empty_circuit "0"
  /\ __int_to_binstr (Demo.sim qulacs None) 1 2 = "10".
Proof.
  destruct (simulate_keys Demo.env) as [Hnorm Hkeys].
  split; [|split; [|split]].
  - eapply (Hkeys (Demo.sim qulacs None) Demo.x_circuit true None Demo.world0).
    + reflexivity.
    + vm_compute. reflexivity.
    + simpl. left. reflexivity.
  - eapply (Hkeys (Demo.sim qiskit (Some 4)) Demo.measure_circuit false None Demo.world0).
    + reflexivity.
    + vm_compute. reflexivity.
    + simpl. left. reflexivity.
  - eapply (Hkeys (Demo.sim projectq None) Demo.empty_circuit false None Demo.world0).
    + reflexivity.
    + vm_compute. reflexivity.
    + simpl. left. reflexivity.
  - rewrite Hnorm. reflexivity.
Defined.
